(** * The evaluation dashboard controller, [static/evaluation.js]

    A shallow embedding of the page controller of the retrieval-evaluation
    dashboard: the tier classifiers, the three report renderers, the
    visibility helpers and the two asynchronous click handlers, and of the
    part of the HTML tokenizer that reads what the renderers assign to
    [innerHTML].

    JavaScript strings are sequences of UTF-16 code units, numbers are
    IEEE 754 binary64 values ([spec_float]), and the payloads decoded from
    the server's JSON are values of the inductive type [value].  Functions of
    the source that can raise run in a small state-and-exception monad over
    the part of the document the controller touches. *)

From Stdlib Require Import String Ascii ZArith NArith Bool Lia List.
From Stdlib Require Import Floats.SpecFloat.
Import ListNotations.

Local Open Scope Z_scope.

(** ** Strings *)

(** A string is the list of its UTF-16 code units; [length] is the [.length]
    of the source and [firstn] its [substring(0, n)]. *)
Definition jsstring := list N.

Definition continuation (b : N) : N := N.land b 63.

Definition code_point_units (c : N) : jsstring :=
  if (c <? 65536)%N then [c]
  else [(55296 + (c - 65536) / 1024)%N; (56320 + (c - 65536) mod 1024)%N].

(** The literals of the source are written here as they are there; the file
    is UTF-8, so a literal is decoded from its bytes to its code units. *)
Fixpoint utf8_units (bs : list N) : jsstring :=
  match bs with
  | [] => []
  | b :: r =>
    if (b <? 128)%N then b :: utf8_units r
    else if (b <? 224)%N then
      match r with
      | c1 :: r1 => ((b - 192) * 64 + continuation c1)%N :: utf8_units r1
      | _ => []
      end
    else if (b <? 240)%N then
      match r with
      | c1 :: c2 :: r2 =>
        ((b - 224) * 4096 + continuation c1 * 64 + continuation c2)%N
          :: utf8_units r2
      | _ => []
      end
    else
      match r with
      | c1 :: c2 :: c3 :: r3 =>
        code_point_units
          ((b - 240) * 262144 + continuation c1 * 4096
           + continuation c2 * 64 + continuation c3)%N
          ++ utf8_units r3
      | _ => []
      end
  end.

Definition lit (s : string) : jsstring :=
  utf8_units (map N_of_ascii (list_ascii_of_string s)).

Fixpoint jsstring_eqb (a b : jsstring) : bool :=
  match a, b with
  | [], [] => true
  | x :: a', y :: b' => (x =? y)%N && jsstring_eqb a' b'
  | _, _ => false
  end.

(** ** Numbers *)

Definition number := spec_float.

Definition Number_isNaN (x : number) : bool :=
  match x with S754_nan => true | _ => false end.

(** [Number::lessThan]: [None] is the [undefined] of an unordered pair. *)
Definition Number_lessThan (x y : number) : option bool :=
  match SFcompare x y with
  | None => None
  | Some Lt => Some true
  | Some _ => Some false
  end.

(** [x >= y] and [x < y] of the source, on numbers. *)
Definition ge (x y : number) : bool :=
  match Number_lessThan x y with Some false => true | _ => false end.

Definition lt (x y : number) : bool :=
  match Number_lessThan x y with Some true => true | _ => false end.

(** The numbers of the language are the [spec_float]s that are binary64
    values: 53 bits of precision, exponents up to 1024. *)
Definition binary64 (x : number) : bool := valid_binary 53 1024 x.

(** The binary64 values that the decimal literals of the source denote. *)
Definition n0_4 : number := S754_finite false 7205759403792794 (-54).
Definition n0_6 : number := S754_finite false 5404319552844595 (-53).
Definition n0_7 : number := S754_finite false 6305039478318694 (-53).
Definition n0_8 : number := S754_finite false 7205759403792794 (-53).

(** ** The classifiers *)

Definition getValueClass (value : number) : jsstring :=
  if ge value n0_7 then lit "high"
  else if ge value n0_4 then lit "medium"
  else lit "low".

Definition getStatusClass (value : number) : jsstring :=
  if ge value n0_8 then lit "status-excellent"
  else if ge value n0_6 then lit "status-good"
  else if ge value n0_4 then lit "status-fair"
  else lit "status-poor".

Definition getStatusText (value : number) : jsstring :=
  if ge value n0_8 then lit "Отлично"
  else if ge value n0_6 then lit "Хорошо"
  else if ge value n0_4 then lit "Удовлетворительно"
  else lit "Плохо".

Definition truncateText (text : jsstring) (maxLength : nat) : jsstring :=
  if (maxLength <? length text)%nat
  then firstn maxLength text ++ lit "..."
  else text.

Set Warnings "-register-all".

(** ** Values

    What [response.json()] can hand to the controller, and [undefined], which
    reading an absent property gives.  An object is the list of its own
    properties, each name once, in the order [Object.keys] and
    [Object.entries] enumerate them. *)
Inductive value : Type :=
| VUndefined
| VNull
| VBool (b : bool)
| VNumber (x : number)
| VString (s : jsstring)
| VArray (elements : list value)
| VObject (properties : list (jsstring * value)).

(** An object written with its property names as literals. *)
Definition object (properties : list (string * value)) : value :=
  VObject (map (fun property => (lit (fst property), snd property)) properties).

(** The [TypeError]s the controller can run into. *)
Inductive failure : Type :=
| ReadOfNullish (base : value) (property : jsstring)
| NotAFunction (property : jsstring)
| NoPrimitiveValue
| NotAnObject.

(** What the engine decides and the controller does not: the digits
    [Number::toString] prints for a positive finite number [m * 2 ^ e], the
    number a string converts to, and the wording of a [TypeError]. *)
Class Engine : Type := {
  shortest_decimal : positive -> Z -> jsstring;
  StringToNumber : jsstring -> number;
  TypeError_message : failure -> jsstring
}.

(** A thrown value: a [TypeError] of the engine, or the [Error] a rejected
    promise of [fetch] or [response.json()] carries. *)
Inductive thrown : Type :=
| TypeError (f : failure)
| Rejection (message : jsstring).

Definition message `{Engine} (error : thrown) : jsstring :=
  match error with
  | TypeError f => TypeError_message f
  | Rejection m => m
  end.

Inductive completion (A : Type) : Type :=
| Normal (a : A)
| Throw (error : thrown).
Arguments Normal {A} a.
Arguments Throw {A} error.

Definition and_then {A B} (c : completion A) (k : A -> completion B)
  : completion B :=
  match c with
  | Normal a => k a
  | Throw error => Throw error
  end.

Fixpoint own_property (properties : list (jsstring * value)) (key : jsstring)
  : option value :=
  match properties with
  | [] => None
  | (k, v) :: rest =>
    if jsstring_eqb k key then Some v else own_property rest key
  end.

(** [base.property], for the property names the controller reads; none of
    them is defined by a built-in prototype, so a property that is not an
    own property of an object reads as [undefined]. *)
Definition get (base : value) (property : string) : completion value :=
  match base with
  | VUndefined | VNull => Throw (TypeError (ReadOfNullish base (lit property)))
  | VObject properties =>
    match own_property properties (lit property) with
    | Some v => Normal v
    | None => Normal VUndefined
    end
  | _ => Normal VUndefined
  end.

Definition ToBoolean (v : value) : bool :=
  match v with
  | VUndefined | VNull => false
  | VBool b => b
  | VNumber (S754_zero _) | VNumber S754_nan => false
  | VNumber _ => true
  | VString s => negb (jsstring_eqb s [])
  | VArray _ | VObject _ => true
  end.

(** Decimal digits of a natural number. *)
Fixpoint digits_from (fuel : nat) (n : N) (acc : jsstring) : jsstring :=
  match fuel with
  | O => acc
  | S fuel' =>
    let acc' := (48 + n mod 10)%N :: acc in
    if (n <? 10)%N then acc' else digits_from fuel' (n / 10)%N acc'
  end.

Definition decimal (n : N) : jsstring :=
  digits_from (S (N.to_nat (N.log2 n))) n [].

Definition Number_toString `{Engine} (x : number) : jsstring :=
  match x with
  | S754_nan => lit "NaN"
  | S754_zero _ => lit "0"
  | S754_infinity s => if s then lit "-Infinity" else lit "Infinity"
  | S754_finite s m e =>
    (if s then lit "-" else []) ++ shortest_decimal m e
  end.

Fixpoint join (separator : jsstring) (parts : list jsstring) : jsstring :=
  match parts with
  | [] => []
  | [p] => p
  | p :: rest => p ++ separator ++ join separator rest
  end.

Fixpoint sequence {A} (cs : list (completion A)) : completion (list A) :=
  match cs with
  | [] => Normal []
  | c :: rest =>
    and_then c (fun a => and_then (sequence rest) (fun l => Normal (a :: l)))
  end.

Definition has_own (properties : list (jsstring * value)) (key : string)
  : bool :=
  match own_property properties (lit key) with
  | Some _ => true
  | None => false
  end.

(** [ToString].  An array prints its elements joined by commas, [null] and
    [undefined] among them as nothing.  An object decoded from JSON holds no
    function: with an own [toString] property the conversion finds nothing to
    call that gives a primitive and raises; without one it is
    [Object.prototype.toString]. *)
Fixpoint ToString `{Engine} (v : value) : completion jsstring :=
  match v with
  | VUndefined => Normal (lit "undefined")
  | VNull => Normal (lit "null")
  | VBool b => Normal (if b then lit "true" else lit "false")
  | VNumber x => Normal (Number_toString x)
  | VString s => Normal s
  | VArray elements =>
    and_then
      (sequence
         (map (fun element =>
                 match element with
                 | VUndefined | VNull => Normal []
                 | _ => ToString element
                 end) elements))
      (fun parts => Normal (join (lit ",") parts))
  | VObject properties =>
    if has_own properties "toString" then Throw (TypeError NoPrimitiveValue)
    else Normal (lit "[object Object]")
  end.

Definition NaN : number := S754_nan.
Definition n1 : number := S754_finite false 4503599627370496 (-52).

(** [ToNumber], the conversion the relational operators apply to their
    operands. *)
Definition ToNumber `{Engine} (v : value) : completion number :=
  match v with
  | VUndefined => Normal NaN
  | VNull => Normal (S754_zero false)
  | VBool b => Normal (if b then n1 else S754_zero false)
  | VNumber x => Normal x
  | VString s => Normal (StringToNumber s)
  | VArray _ | VObject _ =>
    and_then (ToString v) (fun s => Normal (StringToNumber s))
  end.

(** [ToNumber] first, then the thresholds: the form the classifiers take on
    an operand that is not yet a number.  Converting a decoded value changes
    nothing and gives the same number at each comparison. *)
Definition classify `{Engine} (classifier : number -> jsstring) (v : value)
  : completion jsstring :=
  and_then (ToNumber v) (fun x => Normal (classifier x)).

(** *** [Number.prototype.toFixed]

    A finite number [m * 2 ^ e] is the fraction
    [numerator m e / denominator e]. *)
Definition numerator (m : positive) (e : Z) : Z := Z.pos m * 2 ^ Z.max e 0.
Definition denominator (e : Z) : Z := 2 ^ Z.max (- e) 0.

(** The integer [n] for which [n / 10 ^ f] is nearest to the fraction, the
    larger one of two. *)
Definition nearest_scaled (num den : Z) (f : nat) : N :=
  Z.to_N ((2 * num * 10 ^ Z.of_nat f + den) / (2 * den)).

Definition fixed_digits (n : N) (f : nat) : jsstring :=
  let m := decimal n in
  match f with
  | O => m
  | _ =>
    let m :=
      if (length m <=? f)%nat
      then repeat 48%N (f + 1 - length m) ++ m
      else m in
    let k := length m in
    firstn (k - f) m ++ lit "." ++ skipn (k - f) m
  end.

Definition Number_toFixed `{Engine} (x : number) (fractionDigits : nat)
  : jsstring :=
  match x with
  | S754_nan | S754_infinity _ => Number_toString x
  | S754_zero _ => fixed_digits 0 fractionDigits
  | S754_finite s m e =>
    (if s then lit "-" else [])
    ++ (if 10 ^ 21 * denominator e <=? numerator m e
        then shortest_decimal m e
        else fixed_digits
               (nearest_scaled (numerator m e) (denominator e) fractionDigits)
               fractionDigits)
  end.

(** [value.toFixed(fractionDigits)]: only a number has the method. *)
Definition toFixed `{Engine} (v : value) (fractionDigits : nat)
  : completion jsstring :=
  match v with
  | VUndefined | VNull => Throw (TypeError (ReadOfNullish v (lit "toFixed")))
  | VNumber x => Normal (Number_toFixed x fractionDigits)
  | _ => Throw (TypeError (NotAFunction (lit "toFixed")))
  end.

(** *** [Object.keys] and [Object.entries] *)

Fixpoint indexed {A} (i : N) (l : list A) : list (jsstring * A) :=
  match l with
  | [] => []
  | a :: rest => (decimal i, a) :: indexed (N.succ i) rest
  end.

Definition Object_entries (v : value) : completion (list (jsstring * value)) :=
  match v with
  | VUndefined | VNull => Throw (TypeError NotAnObject)
  | VObject properties => Normal properties
  | VArray elements => Normal (indexed 0 elements)
  | VString s => Normal (indexed 0 (map (fun c => VString [c]) s))
  | VBool _ | VNumber _ => Normal []
  end.

Definition Object_keys (v : value) : completion (list jsstring) :=
  and_then (Object_entries v) (fun entries => Normal (map fst entries)).

(** ** The document

    The controller holds seven elements of the page: three panels whose
    [hidden] class it toggles (the error banner also has its text set), the
    modal, and four containers it fills.  A class list is the list of its
    tokens. *)
Definition classList := list jsstring.

Definition contains (c : classList) (token : string) : bool :=
  existsb (jsstring_eqb (lit token)) c.

Definition classList_add (c : classList) (token : string) : classList :=
  if contains c token then c else c ++ [lit token].

Definition classList_remove (c : classList) (token : string) : classList :=
  filter (fun t => negb (jsstring_eqb (lit token) t)) c.

Inductive panel : Type := Loading | Results | ErrorBanner.

(** The calls that change what the user sees, and the requests sent. *)
Inductive event : Type :=
| Shown (p : panel)
| Hidden (p : panel)
| Requested (method url : jsstring) (body : option value).

(** [history] is a record of the events so far; the page itself has no such
    thing, it is kept to state in which order the controller acts. *)
Record panels : Type := {
  loadingElement : classList;
  resultsElement : classList;
  errorMessageElement : classList;
  errorMessage_textContent : jsstring;
  history : list event
}.

(** A child of a container: what an assignment to [innerHTML] left there,
    kept as the markup assigned, or a [div] made by [createElement] with its
    [className] and [innerHTML]. *)
Inductive node : Type :=
| Parsed (html : jsstring)
| Div (className innerHTML : jsstring).

Record report : Type := {
  macroMetrics : list node;
  plotsContainer : list node;
  detailedMetrics : list node;
  metricsInfo : list node;
  metricsModal : classList
}.

Record document : Type := {
  view : panels;
  content : report
}.

(** [container.innerHTML = html] *)
Definition children_of (html : jsstring) : list node :=
  match html with
  | [] => []
  | _ => [Parsed html]
  end.

(** ** Programs: state and exceptions *)

Definition prog (S A : Type) : Type := S -> completion A * S.

Definition ret {S A} (a : A) : prog S A := fun s => (Normal a, s).

Definition bind {S A B} (c : prog S A) (k : A -> prog S B) : prog S B :=
  fun s =>
    match c s with
    | (Normal a, s') => k a s'
    | (Throw error, s') => (Throw error, s')
    end.

Definition lift {S A} (c : completion A) : prog S A := fun s => (c, s).

Definition modify {S} (f : S -> S) : prog S unit := fun s => (Normal tt, f s).

Definition try_catch {S A} (body : prog S A) (handler : thrown -> prog S A)
  : prog S A :=
  fun s =>
    match body s with
    | (Normal a, s') => (Normal a, s')
    | (Throw error, s') => handler error s'
    end.

Definition try_finally {S A} (body : prog S A) (finalizer : prog S unit)
  : prog S A :=
  fun s =>
    match body s with
    | (r, s') =>
      match finalizer s' with
      | (Normal _, s'') => (r, s'')
      | (Throw error, s'') => (Throw error, s'')
      end
    end.

Declare Scope prog_scope.
Delimit Scope prog_scope with prog.
Notation "x <- c ;; k" := (bind c (fun x => k))
  (at level 61, c at next level, right associativity) : prog_scope.
Notation "c ;; k" := (bind c (fun _ => k))
  (at level 61, right associativity) : prog_scope.
Notation "'let!' x ':=' c 'in' k" := (and_then c (fun x => k))
  (at level 10, x name, c at level 100, k at level 200).

Fixpoint for_each {S A} (l : list A) (f : A -> prog S unit) : prog S unit :=
  match l with
  | [] => ret tt
  | a :: rest => bind (f a) (fun _ => for_each rest f)
  end.

Definition in_view {A} (c : prog panels A) : prog document A :=
  fun d =>
    match c (view d) with
    | (r, v) => (r, {| view := v; content := content d |})
    end.

Definition in_content {A} (c : prog report A) : prog document A :=
  fun d =>
    match c (content d) with
    | (r, k) => (r, {| view := view d; content := k |})
    end.

(** ** Showing and hiding the panels *)

Definition record (e : event) (p : panels) : panels :=
  {| loadingElement := loadingElement p;
     resultsElement := resultsElement p;
     errorMessageElement := errorMessageElement p;
     errorMessage_textContent := errorMessage_textContent p;
     history := history p ++ [e] |}.

Definition showLoading : prog panels unit :=
  modify (fun p =>
    record (Shown Loading)
      {| loadingElement := classList_remove (loadingElement p) "hidden";
         resultsElement := resultsElement p;
         errorMessageElement := errorMessageElement p;
         errorMessage_textContent := errorMessage_textContent p;
         history := history p |}).

Definition hideLoading : prog panels unit :=
  modify (fun p =>
    record (Hidden Loading)
      {| loadingElement := classList_add (loadingElement p) "hidden";
         resultsElement := resultsElement p;
         errorMessageElement := errorMessageElement p;
         errorMessage_textContent := errorMessage_textContent p;
         history := history p |}).

Definition showResults : prog panels unit :=
  modify (fun p =>
    record (Shown Results)
      {| loadingElement := loadingElement p;
         resultsElement := classList_remove (resultsElement p) "hidden";
         errorMessageElement := errorMessageElement p;
         errorMessage_textContent := errorMessage_textContent p;
         history := history p |}).

Definition hideResults : prog panels unit :=
  modify (fun p =>
    record (Hidden Results)
      {| loadingElement := loadingElement p;
         resultsElement := classList_add (resultsElement p) "hidden";
         errorMessageElement := errorMessageElement p;
         errorMessage_textContent := errorMessage_textContent p;
         history := history p |}).

(** Setting [textContent] converts what it is given to a string, [null] and
    [undefined] to the empty one. *)
Definition text_of `{Engine} (v : value) : completion jsstring :=
  match v with
  | VUndefined | VNull => Normal []
  | _ => ToString v
  end.

Definition showError `{Engine} (message : value) : prog panels unit :=
  bind (lift (text_of message)) (fun text =>
  modify (fun p =>
    record (Shown ErrorBanner)
      {| loadingElement := loadingElement p;
         resultsElement := resultsElement p;
         errorMessageElement := classList_remove (errorMessageElement p) "hidden";
         errorMessage_textContent := text;
         history := history p |})).

Definition hideError : prog panels unit :=
  modify (fun p =>
    record (Hidden ErrorBanner)
      {| loadingElement := loadingElement p;
         resultsElement := resultsElement p;
         errorMessageElement := classList_add (errorMessageElement p) "hidden";
         errorMessage_textContent := errorMessage_textContent p;
         history := history p |}).

(** ** The report

    The markup of the source's template literals, written with an apostrophe
    where the source has a quotation mark. *)
Definition markup (s : string) : jsstring :=
  map (fun c => if (c =? 39)%N then 34%N else c) (lit s).

Local Open Scope prog_scope.

Record descriptor : Type := {
  key : string;
  name : string;
  description : string
}.

Definition metrics : list descriptor :=
  [ {| key := "precision"; name := "Precision"; description := "Точность" |};
    {| key := "recall"; name := "Recall"; description := "Полнота" |};
    {| key := "f_measure"; name := "F-measure"; description := "F-мера" |};
    {| key := "accuracy"; name := "Accuracy"; description := "Аккуратность" |} ].

Definition set_macroMetrics (f : list node -> list node) : prog report unit :=
  modify (fun r =>
    {| macroMetrics := f (macroMetrics r);
       plotsContainer := plotsContainer r;
       detailedMetrics := detailedMetrics r;
       metricsInfo := metricsInfo r;
       metricsModal := metricsModal r |}).

Definition set_plotsContainer (f : list node -> list node) : prog report unit :=
  modify (fun r =>
    {| macroMetrics := macroMetrics r;
       plotsContainer := f (plotsContainer r);
       detailedMetrics := detailedMetrics r;
       metricsInfo := metricsInfo r;
       metricsModal := metricsModal r |}).

Definition set_detailedMetrics (f : list node -> list node) : prog report unit :=
  modify (fun r =>
    {| macroMetrics := macroMetrics r;
       plotsContainer := plotsContainer r;
       detailedMetrics := f (detailedMetrics r);
       metricsInfo := metricsInfo r;
       metricsModal := metricsModal r |}).

Definition set_metricsInfo (f : list node -> list node) : prog report unit :=
  modify (fun r =>
    {| macroMetrics := macroMetrics r;
       plotsContainer := plotsContainer r;
       detailedMetrics := detailedMetrics r;
       metricsInfo := f (metricsInfo r);
       metricsModal := metricsModal r |}).

Definition set_metricsModal (f : classList -> classList) : prog report unit :=
  modify (fun r =>
    {| macroMetrics := macroMetrics r;
       plotsContainer := plotsContainer r;
       detailedMetrics := detailedMetrics r;
       metricsInfo := metricsInfo r;
       metricsModal := f (metricsModal r) |}).

Definition appendChild (child : node) (children : list node) : list node :=
  children ++ [child].

(** The template literal of a card, as a function of what it interpolates. *)
Definition cardMarkup (metric : descriptor) (valueClass fixed operator : jsstring)
  : jsstring :=
  markup "
                <div class='metric-name'>"
  ++ lit (description metric)
  ++ markup "</div>
                <div class='metric-value "
  ++ valueClass
  ++ markup "'>"
  ++ fixed
  ++ markup "</div>
                <div class='metric-desc'>"
  ++ lit (name metric)
  ++ markup "</div>
                <div class='operator-info'>Оператор: "
  ++ operator
  ++ markup "</div>
            ".

Definition metricCard `{Engine} (metric : descriptor)
  (macroMetrics operator : value) : completion node :=
  let! value := get macroMetrics (key metric) in
  let! valueClass := classify getValueClass value in
  let! fixed := toFixed value 3 in
  let! operator := ToString operator in
  Normal (Div (lit "metric-card") (cardMarkup metric valueClass fixed operator)).

Definition displayMacroMetrics `{Engine} (macroMetrics operator : value)
  : prog report unit :=
  set_macroMetrics (fun _ => children_of []) ;;
  for_each metrics (fun metric =>
    metricCard <- lift (metricCard metric macroMetrics operator) ;;
    set_macroMetrics (appendChild metricCard)).

Definition precisionRecallPlot `{Engine} (plots operator : value)
  : completion node :=
  let! operator := ToString operator in
  let! image := get plots "precision_recall" in
  let! image := ToString image in
  Normal (Div (lit "plot-container")
    (markup "
                <h4>Precision-Recall по запросам (Оператор: "
     ++ operator
     ++ markup ")</h4>
                <img src='data:image/png;base64,"
     ++ image
     ++ markup "' alt='Precision-Recall Plot'>
                <p class='plot-description'>График показывает баланс между точностью и полнотой для каждого запроса</p>
            ")).

Definition metricsComparisonPlot `{Engine} (plots operator : value)
  : completion node :=
  let! operator := ToString operator in
  let! image := get plots "metrics_comparison" in
  let! image := ToString image in
  Normal (Div (lit "plot-container")
    (markup "
                <h4>Сравнение метрик качества (Оператор: "
     ++ operator
     ++ markup ")</h4>
                <img src='data:image/png;base64,"
     ++ image
     ++ markup "' alt='Metrics Comparison Plot'>
                <p class='plot-description'>Сравнение макроусредненных метрик для оценки общей эффективности системы</p>
            ")).

Definition displayPlots `{Engine} (plots operator : value) : prog report unit :=
  set_plotsContainer (fun _ => children_of []) ;;
  precision_recall <- lift (get plots "precision_recall") ;;
  (if ToBoolean precision_recall
   then plotDiv <- lift (precisionRecallPlot plots operator) ;;
        set_plotsContainer (appendChild plotDiv)
   else ret tt) ;;
  metrics_comparison <- lift (get plots "metrics_comparison") ;;
  (if ToBoolean metrics_comparison
   then plotDiv <- lift (metricsComparisonPlot plots operator) ;;
        set_plotsContainer (appendChild plotDiv)
   else ret tt).

Definition tableHead : jsstring :=
  markup "
            <div class='table-container'>
            <table>
                <thead>
                    <tr>
                        <th>Запрос</th>
                        <th>Precision</th>
                        <th>Recall</th>
                        <th>F-measure</th>
                        <th>Accuracy</th>
                        <th>TP/FP/FN</th>
                        <th>Статус</th>
                    </tr>
                </thead>
                <tbody>
        ".

(** A cell of a metric: the class of the value, then the value. *)
Definition metricCell `{Engine} (metrics : value) (key : string)
  : completion (jsstring * jsstring) :=
  let! value := get metrics key in
  let! valueClass := classify getValueClass value in
  let! value := get metrics key in
  let! fixed := toFixed value 3 in
  Normal (valueClass, fixed).

(** What one turn of the loop over the entries adds to [tableHTML]. *)
Definition tableRow `{Engine} (query : jsstring) (metrics : value)
  : completion jsstring :=
  let! true_positive := get metrics "true_positive" in
  let! true_positive := ToString true_positive in
  let! false_positive := get metrics "false_positive" in
  let! false_positive := ToString false_positive in
  let! false_negative := get metrics "false_negative" in
  let! false_negative := ToString false_negative in
  let stats :=
    true_positive ++ lit "/" ++ false_positive ++ lit "/" ++ false_negative in
  let! f_measure := get metrics "f_measure" in
  let! statusClass := classify getStatusClass f_measure in
  let! f_measure := get metrics "f_measure" in
  let! statusText := classify getStatusText f_measure in
  let! precision := metricCell metrics "precision" in
  let! recall := metricCell metrics "recall" in
  let! f_measure := metricCell metrics "f_measure" in
  let! accuracy := metricCell metrics "accuracy" in
  Normal
    (markup "
                <tr>
                    <td title='"
     ++ query
     ++ markup "'>"
     ++ truncateText query 30
     ++ markup "</td>
                    <td class='"
     ++ fst precision
     ++ markup "'>"
     ++ snd precision
     ++ markup "</td>
                    <td class='"
     ++ fst recall
     ++ markup "'>"
     ++ snd recall
     ++ markup "</td>
                    <td class='"
     ++ fst f_measure
     ++ markup "'>"
     ++ snd f_measure
     ++ markup "</td>
                    <td class='"
     ++ fst accuracy
     ++ markup "'>"
     ++ snd accuracy
     ++ markup "</td>
                    <td>"
     ++ stats
     ++ markup "</td>
                    <td class='status-cell "
     ++ statusClass
     ++ markup "'>"
     ++ statusText
     ++ markup "</td>
                </tr>
            ").

(** The loop [Object.entries(perQueryMetrics).forEach(...)], which appends to
    [tableHTML] entry after entry. *)
Fixpoint tableRows `{Engine} (entries : list (jsstring * value))
  (tableHTML : jsstring) : completion jsstring :=
  match entries with
  | [] => Normal tableHTML
  | (query, metrics) :: rest =>
    let! row := tableRow query metrics in
    tableRows rest (tableHTML ++ row)
  end.

Definition displayDetailedMetrics `{Engine} (perQueryMetrics operator : value)
  : prog report unit :=
  keys <- lift (Object_keys perQueryMetrics) ;;
  if (length keys =? 0)%nat
  then set_detailedMetrics
         (fun _ => children_of (lit "<p>Нет данных для отображения</p>"))
  else
    entries <- lift (Object_entries perQueryMetrics) ;;
    tableHTML <- lift (tableRows entries tableHead) ;;
    set_detailedMetrics
      (fun _ => children_of (tableHTML ++ lit "</tbody></table></div>")).

Definition metricInfo `{Engine} (info : value) : completion node :=
  let! name := get info "name" in
  let! name := ToString name in
  let! description := get info "description" in
  let! description := ToString description in
  let! formula := get info "formula" in
  let! formula := ToString formula in
  Normal (Div (lit "metric-info")
    (markup "
                <h4>"
     ++ name
     ++ markup "</h4>
                <p>"
     ++ description
     ++ markup "</p>
                <div class='metric-formula'>"
     ++ formula
     ++ markup "</div>
            ")).

Definition displayMetricsInfo `{Engine} (metricsInfo : value)
  : prog report unit :=
  set_metricsInfo (fun _ => children_of []) ;;
  entries <- lift (Object_entries metricsInfo) ;;
  for_each entries (fun entry =>
    metricDiv <- lift (metricInfo (snd entry)) ;;
    set_metricsInfo (appendChild metricDiv)) ;;
  set_metricsModal (fun c => classList_remove c "hidden").

Definition displayResults `{Engine} (metrics plots operator : value)
  : prog document unit :=
  macro <- lift (get metrics "macro") ;;
  in_content (displayMacroMetrics macro operator) ;;
  in_content (displayPlots plots operator) ;;
  per_query <- lift (get metrics "per_query") ;;
  in_content (displayDetailedMetrics per_query operator) ;;
  in_view showResults.

(** ** The two requests

    A promise settles with a value or rejects with an error; how the promise
    of [fetch] and the promise of [response.json()] settle is what the
    network and the server decide. *)
Definition settlement (A : Type) : Type := completion A.
Definition answer : Type := settlement (settlement value).

Definition fetch (method url : string) (body : option value)
  : prog document unit :=
  in_view (modify (record (Requested (lit method) (lit url) body))).

(** The object [runEvaluation] sends as JSON, the operator being the constant
    ['AND'] of the source. *)
Definition evaluationRequest : value :=
  let operator := VString (lit "AND") in
  object [ ("qrels_file"%string, VString (lit "data/qrels.txt"));
           ("operator"%string, operator) ].

Definition await {S A} (promise : settlement A) : prog S A := lift promise.

Definition runEvaluation `{Engine} (network : answer) : prog document unit :=
  in_view showLoading ;;
  in_view hideResults ;;
  in_view hideError ;;
  try_finally
    (try_catch
       (fetch "POST" "/api/evaluate" (Some evaluationRequest) ;;
        response <- await network ;;
        data <- await response ;;
        success <- lift (get data "success") ;;
        if ToBoolean success
        then
          metrics <- lift (get data "metrics") ;;
          plots <- lift (get data "plots") ;;
          operator <- lift (get data "operator") ;;
          displayResults metrics plots operator
        else
          error <- lift (get data "error") ;;
          in_view (showError error))
       (fun error =>
          in_view (showError
            (VString (lit "Ошибка при выполнении оценки: " ++ message error)))))
    (in_view hideLoading).

Definition showMetricsInfo `{Engine} (network : answer) : prog document unit :=
  try_catch
    (fetch "GET" "/api/metrics/details" None ;;
     response <- await network ;;
     metricsInfo <- await response ;;
     in_content (displayMetricsInfo metricsInfo))
    (fun error =>
       in_view (showError
         (VString (lit "Ошибка при загрузке информации о метриках")))).

(** The two listeners that close the modal. *)
Definition closeModal : prog document unit :=
  in_content (set_metricsModal (fun c => classList_add c "hidden")).

(** ** The page between two turns of the event loop

    A handler runs up to its first [await] when its button is clicked and
    goes on when the request settles; the two parts of each handler are
    written out here.  Between the two promises a handler awaits it does
    nothing to the page. *)
Definition runEvaluation_clicked : prog document unit :=
  in_view showLoading ;;
  in_view hideResults ;;
  in_view hideError ;;
  fetch "POST" "/api/evaluate" (Some evaluationRequest).

Definition runEvaluation_settled `{Engine} (network : answer)
  : prog document unit :=
  try_finally
    (try_catch
       (response <- await network ;;
        data <- await response ;;
        success <- lift (get data "success") ;;
        if ToBoolean success
        then
          metrics <- lift (get data "metrics") ;;
          plots <- lift (get data "plots") ;;
          operator <- lift (get data "operator") ;;
          displayResults metrics plots operator
        else
          error <- lift (get data "error") ;;
          in_view (showError error))
       (fun error =>
          in_view (showError
            (VString (lit "Ошибка при выполнении оценки: " ++ message error)))))
    (in_view hideLoading).


Definition showMetricsInfo_clicked : prog document unit :=
  fetch "GET" "/api/metrics/details" None.

Definition showMetricsInfo_received `{Engine} (network : answer)
  : prog document unit :=
  response <- await network ;;
  metricsInfo <- await response ;;
  in_content (displayMetricsInfo metricsInfo).

Definition showMetricsInfo_settled `{Engine} (network : answer)
  : prog document unit :=
  try_catch
    (showMetricsInfo_received network)
    (fun error =>
       in_view (showError
         (VString (lit "Ошибка при загрузке информации о метриках")))).

Inductive input : Type :=
| ClickRunEvaluation
| EvaluationSettles (network : answer)
| ClickShowMetricsInfo
| MetricsInfoSettles (network : answer)
| CloseModal.

(** The document, and how many requests of each handler are outstanding. *)
Record page : Type := {
  dom : document;
  evaluations : nat;
  lookups : nat
}.

Definition react `{Engine} (i : input) (p : page) : option page :=
  match i with
  | ClickRunEvaluation =>
    Some {| dom := snd (runEvaluation_clicked (dom p));
            evaluations := S (evaluations p);
            lookups := lookups p |}
  | EvaluationSettles network =>
    match evaluations p with
    | O => None
    | S n =>
      Some {| dom := snd (runEvaluation_settled network (dom p));
              evaluations := n;
              lookups := lookups p |}
    end
  | ClickShowMetricsInfo =>
    Some {| dom := snd (showMetricsInfo_clicked (dom p));
            evaluations := evaluations p;
            lookups := S (lookups p) |}
  | MetricsInfoSettles network =>
    match lookups p with
    | O => None
    | S n =>
      Some {| dom := snd (showMetricsInfo_settled network (dom p));
              evaluations := evaluations p;
              lookups := n |}
    end
  | CloseModal =>
    Some {| dom := snd (closeModal (dom p));
            evaluations := evaluations p;
            lookups := lookups p |}
  end.

Fixpoint reactions `{Engine} (inputs : list input) (p : page) : option page :=
  match inputs with
  | [] => Some p
  | i :: rest =>
    match react i p with
    | Some p' => reactions rest p'
    | None => None
    end
  end.

(** What the user sees of the three panels. *)
Definition visible (c : classList) : bool := negb (contains c "hidden").

Definition shown (p : panel) (d : document) : bool :=
  match p with
  | Loading => visible (loadingElement (view d))
  | Results => visible (resultsElement (view d))
  | ErrorBanner => visible (errorMessageElement (view d))
  end.

Definition count_shown (d : document) : nat :=
  length (filter (fun p => shown p d) [Loading; Results; ErrorBanner]).

(** Modelled from the spec: the markup of the page is not part of the
    controller's file; the page starts in the state the specification calls
    Idle, the three panels and the modal hidden and the containers empty. *)
Definition idle : document :=
  {| view :=
       {| loadingElement := [lit "hidden"];
          resultsElement := [lit "hidden"];
          errorMessageElement := [lit "hidden"];
          errorMessage_textContent := [];
          history := [] |};
     content :=
       {| macroMetrics := [];
          plotsContainer := [];
          detailedMetrics := [];
          metricsInfo := [];
          metricsModal := [lit "hidden"] |} |}.

Definition at_load : page := {| dom := idle; evaluations := 0; lookups := 0 |}.

(** An input is in order when it starts an evaluation only while none is
    outstanding, and settles a look-up of the metrics' documentation only
    with an answer the handler renders without raising. *)
Definition in_order `{Engine} (i : input) (p : page) : bool :=
  match i with
  | ClickRunEvaluation => (evaluations p =? 0)%nat
  | MetricsInfoSettles network =>
    match fst (showMetricsInfo_received network (dom p)) with
    | Normal _ => true
    | Throw _ => false
    end
  | _ => true
  end.

Fixpoint orderly `{Engine} (inputs : list input) (p : page) : bool :=
  match inputs with
  | [] => true
  | i :: rest =>
    in_order i p
    && match react i p with
       | Some p' => orderly rest p'
       | None => true
       end
  end.

(** ** The payload as the server documents it

    A metric is a number between 0 and 1; a [MetricSet] is an object with
    the four metrics, a [QueryMetrics] one with the three counts as well. *)
Definition in_unit_interval (x : number) : bool :=
  match x with
  | S754_zero _ => true
  | S754_finite false m e => numerator m e <=? denominator e
  | _ => false
  end.

Definition isMetric (c : completion value) : bool :=
  match c with
  | Normal (VNumber x) => in_unit_interval x
  | _ => false
  end.

Definition isNumber (c : completion value) : bool :=
  match c with
  | Normal (VNumber _) => true
  | _ => false
  end.

Definition isMetricSet (v : value) : bool :=
  forallb (fun metric => isMetric (get v (key metric))) metrics.

Definition isQueryMetrics (v : value) : bool :=
  isMetricSet v
  && isNumber (get v "true_positive")
  && isNumber (get v "false_positive")
  && isNumber (get v "false_negative").

(** ** Payloads of the specification's scenarios *)

Definition n0_5 : number := S754_finite false 4503599627370496 (-53).
Definition n0_643 : number := S754_finite false 5791629120798458 (-53).
Definition n0_65 : number := S754_finite false 5854679515581645 (-53).
Definition n0_725 : number := S754_finite false 6530219459687219 (-53).
Definition n0_82 : number := S754_finite false 7385903388887613 (-53).
Definition n0_9 : number := S754_finite false 8106479329266893 (-53).
Definition n0_95 : number := S754_finite false 8556839292003942 (-53).
Definition n9 : number := S754_finite false 5066549580791808 (-49).

Definition q1 : value :=
  object [ ("precision"%string, VNumber n0_9); ("recall"%string, VNumber n0_5);
           ("f_measure"%string, VNumber n0_643); ("accuracy"%string, VNumber n0_95);
           ("true_positive"%string, VNumber n9); ("false_positive"%string, VNumber n1);
           ("false_negative"%string, VNumber n9) ].

Definition macroA : value :=
  object [ ("precision"%string, VNumber n0_82); ("recall"%string, VNumber n0_65);
           ("f_measure"%string, VNumber n0_725); ("accuracy"%string, VNumber n0_9) ].

Definition scenarioA : value :=
  object [ ("success"%string, VBool true);
           ("metrics"%string,
            object [ ("macro"%string, macroA);
                     ("per_query"%string, object [("q1"%string, q1)]) ]);
           ("plots"%string, object [("precision_recall"%string, VString (lit "iVBORw0KGgo="))]);
           ("operator"%string, VString (lit "AND")) ].

Definition scenarioB : value :=
  object [ ("success"%string, VBool false);
           ("error"%string, VString (lit "qrels not found")) ].

(** An engine to run the scenarios with.  It prints a whole number below
    [2 ^ 53] as every engine does, by its decimal digits; the other digits,
    the conversion of strings and the wording of errors are stand-ins, and
    no scenario reaches them. *)
Definition scenario_engine : Engine :=
  {| shortest_decimal := fun m e =>
       if (numerator m e mod denominator e =? 0)
          && (numerator m e / denominator e <? 2 ^ 53)
       then decimal (Z.to_N (numerator m e / denominator e))
       else lit "?";
     StringToNumber := fun _ => NaN;
     TypeError_message := fun _ => lit "TypeError" |}.

(** The number of thousandths a metric is printed with, and the text of a
    number of thousandths up to a thousand: a digit, the point, three
    digits. *)
Definition thousandths (x : number) : N :=
  match x with
  | S754_finite false m e => nearest_scaled (numerator m e) (denominator e) 3
  | _ => 0%N
  end.

Definition three_places (n : N) : jsstring :=
  [ (48 + n / 1000)%N; 46%N;
    (48 + n / 100 mod 10)%N; (48 + n / 10 mod 10)%N; (48 + n mod 10)%N ].

(** What a part of a handler between the [await] and the [finally] can have
    done to the panels [v] it started from: shown the results, shown the
    error banner with some text, or raised before touching a panel. *)
Definition branch_taken `{Engine} (v : panels)
  (r : completion unit * document) : Prop :=
  (fst r = Normal tt /\ view (snd r) = snd (showResults v))
  \/ (fst r = Normal tt
      /\ exists text, view (snd r) = snd (showError (VString text) v))
  \/ (exists error, fst r = Throw error /\ view (snd r) = v).

(** What holds of the panels between two turns while the inputs are in
    order: with no evaluation outstanding the loading indicator is hidden and
    so is one of the other two; with one outstanding the other two are
    hidden. *)
Definition settled_or_loading (p : page) : Prop :=
  (evaluations p = 0%nat
   /\ shown Loading (dom p) = false
   /\ (shown Results (dom p) = false \/ shown ErrorBanner (dom p) = false))
  \/ (evaluations p = 1%nat
      /\ shown Results (dom p) = false
      /\ shown ErrorBanner (dom p) = false).

(** The loading indicator follows the evaluation outstanding: hidden with
    none, shown with one. *)
Definition loading_tracks (p : page) : Prop :=
  (evaluations p = 0%nat /\ shown Loading (dom p) = false)
  \/ (evaluations p = 1%nat /\ shown Loading (dom p) = true).

(** Inputs that start an evaluation only while none is outstanding;
    look-ups of the documentation may settle in any way. *)
Fixpoint one_at_a_time `{Engine} (inputs : list input) (p : page) : bool :=
  match inputs with
  | [] => true
  | i :: rest =>
    match i with
    | ClickRunEvaluation => (evaluations p =? 0)%nat
    | _ => true
    end
    && match react i p with
       | Some p' => one_at_a_time rest p'
       | None => true
       end
  end.

(** ** The markup as the page reads it

    The renderers build their markup as strings and assign it to
    [innerHTML], splicing in what they were given as it is.  What the
    container then holds is what the tokenizer of the HTML Standard reads
    from the string, started in its data state.  This is the part of that
    tokenizer the templates of the source need: character tokens, start tags
    whose attributes have double-quoted values, and end tags, for the
    elements the templates use.  The states are those of the Standard: data,
    tag open, end tag open, tag name, before attribute name, attribute name,
    before attribute value, attribute value (double-quoted) and after
    attribute value (quoted).  A character token is kept for each UTF-16
    code unit, strings being lists of code units here.  What is left out is
    answered by [None]: a character reference, a NUL or a carriage return,
    an element the templates do not use, an upper-case letter in a name, an
    attribute given twice, and every recovery from a parse error. *)
Inductive token : Type :=
| Character (c : N)
| StartTag (tag : jsstring) (attributes : list (jsstring * jsstring))
| EndTag (tag : jsstring).

Inductive state : Type :=
| Data
| TagOpen
| EndTagOpen
| TagName (closing : bool) (tag : jsstring)
| BeforeAttributeName (tag : jsstring) (attributes : list (jsstring * jsstring))
| AttributeName (tag : jsstring) (attributes : list (jsstring * jsstring))
    (attribute : jsstring)
| BeforeAttributeValue (tag : jsstring) (attributes : list (jsstring * jsstring))
    (attribute : jsstring)
| AttributeValue (tag : jsstring) (attributes : list (jsstring * jsstring))
    (attribute written : jsstring)
| AfterAttributeValue (tag : jsstring) (attributes : list (jsstring * jsstring)).

Definition whitespace (c : N) : bool :=
  ((c =? 9) || (c =? 10) || (c =? 12) || (c =? 32))%N.

Definition lower_alpha (c : N) : bool := ((97 <=? c) && (c <=? 122))%N.

Definition decimal_digit (c : N) : bool := ((48 <=? c) && (c <=? 57))%N.

(** NUL, carriage return and ampersand, which the tokenizer does not take
    as they are. *)
Definition rewritten (c : N) : bool := ((c =? 0) || (c =? 13) || (c =? 38))%N.

Definition template_elements : list jsstring :=
  [ lit "div"; lit "h4"; lit "img"; lit "p"; lit "table"; lit "thead";
    lit "tbody"; lit "tr"; lit "th"; lit "td" ].

Definition template_element (tag : jsstring) : bool :=
  existsb (jsstring_eqb tag) template_elements.

Definition has_attribute (attribute : jsstring)
  (attributes : list (jsstring * jsstring)) : bool :=
  existsb (fun a => jsstring_eqb attribute (fst a)) attributes.

(** One character in one state: the next state and the tokens emitted. *)
Definition step (s : state) (c : N) : option (state * list token) :=
  match s with
  | Data =>
    if (c =? 60)%N then Some (TagOpen, [])
    else if rewritten c then None
    else Some (Data, [Character c])
  | TagOpen =>
    if (c =? 47)%N then Some (EndTagOpen, [])
    else if lower_alpha c then Some (TagName false [c], [])
    else None
  | EndTagOpen =>
    if lower_alpha c then Some (TagName true [c], []) else None
  | TagName closing tag =>
    if lower_alpha c || decimal_digit c
    then Some (TagName closing (tag ++ [c]), [])
    else if negb (template_element tag) then None
    else if (c =? 62)%N
    then Some (Data, [if closing then EndTag tag else StartTag tag []])
    else if whitespace c && negb closing
    then Some (BeforeAttributeName tag [], [])
    else None
  | BeforeAttributeName tag attributes =>
    if whitespace c then Some (BeforeAttributeName tag attributes, [])
    else if (c =? 62)%N then Some (Data, [StartTag tag attributes])
    else if lower_alpha c then Some (AttributeName tag attributes [c], [])
    else None
  | AttributeName tag attributes attribute =>
    if lower_alpha c || (c =? 45)%N
    then Some (AttributeName tag attributes (attribute ++ [c]), [])
    else if (c =? 61)%N && negb (has_attribute attribute attributes)
    then Some (BeforeAttributeValue tag attributes attribute, [])
    else None
  | BeforeAttributeValue tag attributes attribute =>
    if (c =? 34)%N then Some (AttributeValue tag attributes attribute [], [])
    else None
  | AttributeValue tag attributes attribute written =>
    if (c =? 34)%N
    then Some (AfterAttributeValue tag (attributes ++ [(attribute, written)]), [])
    else if rewritten c then None
    else Some (AttributeValue tag attributes attribute (written ++ [c]), [])
  | AfterAttributeValue tag attributes =>
    if whitespace c then Some (BeforeAttributeName tag attributes, [])
    else if (c =? 62)%N then Some (Data, [StartTag tag attributes])
    else None
  end.

Fixpoint advance (s : state) (html : jsstring) : option (state * list token) :=
  match html with
  | [] => Some (s, [])
  | c :: rest =>
    match step s c with
    | None => None
    | Some (s', emitted) =>
      match advance s' rest with
      | None => None
      | Some (s'', later) => Some (s'', emitted ++ later)
      end
    end
  end.

(** The tokens of a whole string: it has to end in the data state. *)
Definition tokens (html : jsstring) : option (list token) :=
  match advance Data html with
  | Some (Data, emitted) => Some emitted
  | _ => None
  end.

(** The character tokens of a text. *)
Definition characters (text : jsstring) : list token := map Character text.

(** A template literal: its fixed strings and, between them, what it
    splices in. *)
Inductive piece : Type :=
| Fixed (html : jsstring)
| Spliced (substitution : jsstring).

Definition written_by (p : piece) : jsstring :=
  match p with
  | Fixed html => html
  | Spliced substitution => substitution
  end.

Fixpoint flatten (pieces : list piece) : jsstring :=
  match pieces with
  | [] => []
  | [p] => written_by p
  | p :: rest => written_by p ++ flatten rest
  end.

(** The tokenizer on a template: a substitution read as text or inside an
    attribute value adds its characters there, nothing else. *)
Fixpoint advance_template (s : state) (pieces : list piece)
  : option (state * list token) :=
  match pieces with
  | [] => Some (s, [])
  | p :: rest =>
    match
      match p with
      | Fixed html => advance s html
      | Spliced substitution =>
        match s with
        | Data => Some (Data, characters substitution)
        | AttributeValue tag attributes attribute written =>
          Some (AttributeValue tag attributes attribute (written ++ substitution),
                [])
        | _ => None
        end
      end
    with
    | None => None
    | Some (s', emitted) =>
      match advance_template s' rest with
      | None => None
      | Some (s'', later) => Some (s'', emitted ++ later)
      end
    end
  end.

(** A string is plain when it has none of the characters that end a text or
    an attribute value or that the tokenizer rewrites: quotation mark,
    less-than sign, ampersand, NUL and carriage return. *)
Definition plain_character (c : N) : bool :=
  negb ((c =? 34) || (c =? 60) || rewritten c)%N.

Definition plain (s : jsstring) : bool := forallb plain_character s.

(** What the tokens say of a table: the value of an attribute of a start
    tag, and the rows of the table body, a row being the tokens between a
    [tr] start tag and the end of the row. *)
Definition attribute_value (attribute : string) (t : token) : option jsstring :=
  match t with
  | StartTag _ attributes =>
    match find (fun a => jsstring_eqb (lit attribute) (fst a)) attributes with
    | Some a => Some (snd a)
    | None => None
    end
  | _ => None
  end.

Definition starts (tag : string) (t : token) : bool :=
  match t with
  | StartTag name _ => jsstring_eqb (lit tag) name
  | _ => false
  end.

Definition ends (tag : string) (t : token) : bool :=
  match t with
  | EndTag name => jsstring_eqb (lit tag) name
  | _ => false
  end.

Fixpoint after_start (tag : string) (toks : list token) : list token :=
  match toks with
  | [] => []
  | t :: rest => if starts tag t then rest else after_start tag rest
  end.

(** A row ends at its end tag, or where the next row or the end of the body
    closes it. *)
Fixpoint rows_from (toks : list token) (row : option (list token))
  : list (list token) :=
  match toks with
  | [] => match row with Some cells => [cells] | None => [] end
  | t :: rest =>
    match row with
    | None =>
      if starts "tr" t then rows_from rest (Some [])
      else if ends "tbody" t then []
      else rows_from rest None
    | Some cells =>
      if ends "tr" t then cells :: rows_from rest None
      else if starts "tr" t then cells :: rows_from rest (Some [])
      else if ends "tbody" t then [cells]
      else rows_from rest (Some (cells ++ [t]))
    end
  end.

Definition table_rows (toks : list token) : list (list token) :=
  rows_from (after_start "tbody" toks) None.

(** The number a property holds, for a property that holds one. *)
Definition number_at (v : value) (property : string) : number :=
  match get v property with
  | Normal (VNumber x) => x
  | _ => NaN
  end.

(** The engine prints the three counts of an entry with plain characters,
    as engines do: digits, a sign, a point, an exponent. *)
Definition counts_plain `{Engine} (queryMetrics : value) : bool :=
  forallb (fun count => plain (Number_toString (number_at queryMetrics count)))
    ["true_positive"; "false_positive"; "false_negative"]%string.

(** The tokens of a row of the detailed table between its [tr] tags, for the
    texts the row splices in: the first cell with its [title] and its label,
    the four cells of the metrics with the class and the text of each, the
    cell of the counts and the cell of the status. *)
Definition row_cells (title label precisionClass precision recallClass recall
  f_measureClass f_measure accuracyClass accuracy stats statusClass statusText
  : jsstring) : list token :=
  characters (lit "
                    ")
  ++ [ StartTag (lit "td") [(lit "title", title)] ]
  ++ characters label
  ++ [ EndTag (lit "td") ]
  ++ characters (lit "
                    ")
  ++ [ StartTag (lit "td") [(lit "class", precisionClass)] ]
  ++ characters precision
  ++ [ EndTag (lit "td") ]
  ++ characters (lit "
                    ")
  ++ [ StartTag (lit "td") [(lit "class", recallClass)] ]
  ++ characters recall
  ++ [ EndTag (lit "td") ]
  ++ characters (lit "
                    ")
  ++ [ StartTag (lit "td") [(lit "class", f_measureClass)] ]
  ++ characters f_measure
  ++ [ EndTag (lit "td") ]
  ++ characters (lit "
                    ")
  ++ [ StartTag (lit "td") [(lit "class", accuracyClass)] ]
  ++ characters accuracy
  ++ [ EndTag (lit "td") ]
  ++ characters (lit "
                    ")
  ++ [ StartTag (lit "td") [] ]
  ++ characters stats
  ++ [ EndTag (lit "td") ]
  ++ characters (lit "
                    ")
  ++ [ StartTag (lit "td") [(lit "class", lit "status-cell " ++ statusClass)] ]
  ++ characters statusText
  ++ [ EndTag (lit "td") ]
  ++ characters (lit "
                ").

(** The tokens of the cells of an entry of well-formed query metrics: what
    [row_cells] says for the identifier, its label, the class and the three
    decimals of each metric, the counts and the status of the F-measure. *)
Definition entry_cells `{Engine} (entry : jsstring * value) : list token :=
  let query := fst entry in
  let queryMetrics := snd entry in
  row_cells query (truncateText query 30)
    (getValueClass (number_at queryMetrics "precision"))
    (three_places (thousandths (number_at queryMetrics "precision")))
    (getValueClass (number_at queryMetrics "recall"))
    (three_places (thousandths (number_at queryMetrics "recall")))
    (getValueClass (number_at queryMetrics "f_measure"))
    (three_places (thousandths (number_at queryMetrics "f_measure")))
    (getValueClass (number_at queryMetrics "accuracy"))
    (three_places (thousandths (number_at queryMetrics "accuracy")))
    (Number_toString (number_at queryMetrics "true_positive")
     ++ lit "/" ++ Number_toString (number_at queryMetrics "false_positive")
     ++ lit "/" ++ Number_toString (number_at queryMetrics "false_negative"))
    (getStatusClass (number_at queryMetrics "f_measure"))
    (getStatusText (number_at queryMetrics "f_measure")).

(** A row as the tokenizer emits it: the line break and the indentation,
    the [tr] start tag, the cells, the end tag, the line break and the
    indentation of what follows. *)
Definition row_tokens (cells : list token) : list token :=
  characters (lit "
                ")
  ++ [ StartTag (lit "tr") [] ]
  ++ cells
  ++ [ EndTag (lit "tr") ]
  ++ characters (lit "
            ").

(** The tokens of a card of the macro section, for the texts the card
    splices in: the description, the class and the text of the value, the
    name of the metric and the label of the operator. *)
Definition card_tokens (description valueClass fixed name operator : jsstring)
  : list token :=
  characters (lit "
                ")
  ++ [ StartTag (lit "div") [(lit "class", lit "metric-name")] ]
  ++ characters description
  ++ [ EndTag (lit "div") ]
  ++ characters (lit "
                ")
  ++ [ StartTag (lit "div") [(lit "class", lit "metric-value " ++ valueClass)] ]
  ++ characters fixed
  ++ [ EndTag (lit "div") ]
  ++ characters (lit "
                ")
  ++ [ StartTag (lit "div") [(lit "class", lit "metric-desc")] ]
  ++ characters name
  ++ [ EndTag (lit "div") ]
  ++ characters (lit "
                ")
  ++ [ StartTag (lit "div") [(lit "class", lit "operator-info")] ]
  ++ characters (lit "Оператор: " ++ operator)
  ++ [ EndTag (lit "div") ]
  ++ characters (lit "
            ").

(** The tokens of what a child of a container holds. *)
Definition innerHTML_tokens (child : node) : option (list token) :=
  match child with
  | Parsed html => tokens html
  | Div _ innerHTML => tokens innerHTML
  end.

(** The template of a row, lines 156 to 166, filled in for an entry of
    well-formed query metrics: the identifier and its label, the class and
    the three decimals of each metric, the counts, and the class and the
    text of the status of the F-measure. *)
Definition entry_markup `{Engine} (entry : jsstring * value) : jsstring :=
  let query := fst entry in
  let queryMetrics := snd entry in
  markup "
                <tr>
                    <td title='"
  ++ query
  ++ markup "'>"
  ++ truncateText query 30
  ++ markup "</td>
                    <td class='"
  ++ getValueClass (number_at queryMetrics "precision")
  ++ markup "'>"
  ++ three_places (thousandths (number_at queryMetrics "precision"))
  ++ markup "</td>
                    <td class='"
  ++ getValueClass (number_at queryMetrics "recall")
  ++ markup "'>"
  ++ three_places (thousandths (number_at queryMetrics "recall"))
  ++ markup "</td>
                    <td class='"
  ++ getValueClass (number_at queryMetrics "f_measure")
  ++ markup "'>"
  ++ three_places (thousandths (number_at queryMetrics "f_measure"))
  ++ markup "</td>
                    <td class='"
  ++ getValueClass (number_at queryMetrics "accuracy")
  ++ markup "'>"
  ++ three_places (thousandths (number_at queryMetrics "accuracy"))
  ++ markup "</td>
                    <td>"
  ++ (Number_toString (number_at queryMetrics "true_positive")
      ++ lit "/" ++ Number_toString (number_at queryMetrics "false_positive")
      ++ lit "/" ++ Number_toString (number_at queryMetrics "false_negative"))
  ++ markup "</td>
                    <td class='status-cell "
  ++ getStatusClass (number_at queryMetrics "f_measure")
  ++ markup "'>"
  ++ getStatusText (number_at queryMetrics "f_measure")
  ++ markup "</td>
                </tr>
            ".

(** * Properties *)

(** ** The classifiers *)

Section Classifiers.

Lemma denominator_pos (e : Z) : 0 < denominator e.
Proof. unfold denominator. apply Z.pow_pos_nonneg; lia. Qed.

Lemma numerator_pos (m : positive) (e : Z) : 0 < numerator m e.
Proof.
  unfold numerator. apply Z.mul_pos_pos; [lia |].
  apply Z.pow_pos_nonneg; lia.
Qed.

Lemma ge_finite (m m' : positive) (e e' : Z) :
  ge (S754_finite false m e) (S754_finite false m' e') = true
  <-> e' < e \/ (e = e' /\ (m' <= m)%positive).
Proof.
  unfold ge, Number_lessThan; cbn [SFcompare].
  change (Pos.compare_cont Eq m m') with (m ?= m')%positive.
  destruct (Z.compare_spec e e') as [He | He | He].
  - destruct (Pos.compare_spec m m') as [Hm | Hm | Hm];
      split; intros K; try reflexivity; try discriminate; try lia.
  - split; intros K; [discriminate | lia].
  - split; intros K; [lia | reflexivity].
Qed.

Lemma lt_finite (m m' : positive) (e e' : Z) :
  lt (S754_finite false m e) (S754_finite false m' e') = true
  <-> e < e' \/ (e = e' /\ (m < m')%positive).
Proof.
  unfold lt, Number_lessThan; cbn [SFcompare].
  change (Pos.compare_cont Eq m m') with (m ?= m')%positive.
  destruct (Z.compare_spec e e') as [He | He | He].
  - destruct (Pos.compare_spec m m') as [Hm | Hm | Hm];
      split; intros K; try reflexivity; try discriminate; try lia.
  - split; intros K; [lia | reflexivity].
  - split; intros K; [discriminate | lia].
Qed.

(** Against a positive finite threshold a number that is not [NaN] is
    either at least the threshold or below it. *)
Lemma ge_or_lt (v : number) (m : positive) (e : Z) :
  Number_isNaN v = false ->
  ge v (S754_finite false m e) = negb (lt v (S754_finite false m e)).
Proof.
  destruct v as [s | s | | s m0 e0]; cbn [Number_isNaN]; intros Hv;
    try discriminate; try (destruct s; reflexivity).
  unfold ge, lt, Number_lessThan; cbn [SFcompare].
  destruct s; [reflexivity |].
  destruct (e0 ?= e); [destruct (Pos.compare_cont Eq m0 m) | |]; reflexivity.
Qed.

(** A number at least a threshold is at least every smaller threshold. *)
Lemma ge_weaken (v : number) (m m' : positive) (e e' : Z) :
  ge (S754_finite false m e) (S754_finite false m' e') = true ->
  ge v (S754_finite false m e) = true ->
  ge v (S754_finite false m' e') = true.
Proof.
  intros Hc Hv.
  destruct v as [s | s | | s m0 e0];
    try (destruct s; (discriminate || reflexivity)); try discriminate.
  destruct s; [discriminate |].
  apply ge_finite in Hc; apply ge_finite in Hv; apply ge_finite; lia.
Qed.

(** *** The comparison is the order of the exact values

    [SFcompare] compares exponents, then mantissas.  On binary64 values
    this is the order of the fractions [numerator m e / denominator e]. *)

Lemma digits2_pos_bounds (m : positive) :
  2 ^ (Z.pos (digits2_pos m) - 1) <= Z.pos m < 2 ^ Z.pos (digits2_pos m).
Proof.
  induction m as [m IH | m IH |]; cbn [digits2_pos].
  - rewrite Pos2Z.inj_succ.
    replace (Z.succ (Z.pos (digits2_pos m)) - 1)
      with (Z.succ (Z.pos (digits2_pos m) - 1)) by lia.
    rewrite !Z.pow_succ_r by lia. lia.
  - rewrite Pos2Z.inj_succ.
    replace (Z.succ (Z.pos (digits2_pos m)) - 1)
      with (Z.succ (Z.pos (digits2_pos m) - 1)) by lia.
    rewrite !Z.pow_succ_r by lia. lia.
  - cbn. lia.
Qed.

Lemma bounded_inv (m : positive) (e : Z) :
  bounded 53 1024 m e = true ->
  -1074 <= e <= 971
  /\ Z.pos m < 2 ^ 53
  /\ (e = -1074 \/ 2 ^ 52 <= Z.pos m).
Proof.
  unfold bounded, canonical_mantissa, fexp, emin. intros K.
  apply andb_prop in K. destruct K as [Kc Ke].
  apply Z.eqb_eq in Kc. apply Z.leb_le in Ke.
  pose proof (digits2_pos_bounds m) as [Hlow Hhigh].
  assert (Hd : Z.pos (digits2_pos m) <= 53) by lia.
  split; [lia |]. split.
  - apply Z.lt_le_trans with (1 := Hhigh).
    apply Z.pow_le_mono_r; lia.
  - destruct (Z.eq_dec e (-1074)) as [He | He]; [now left | right].
    assert (Hd53 : Z.pos (digits2_pos m) = 53) by lia.
    rewrite Hd53 in Hlow. exact Hlow.
Qed.

(** The exact value times [2 ^ 1074], a whole number. *)
Lemma scaled_fraction (m : positive) (e : Z) :
  -1074 <= e ->
  Z.pos m * 2 ^ (e + 1074) * denominator e = numerator m e * 2 ^ 1074.
Proof.
  intros He. unfold numerator, denominator.
  destruct (Z.le_gt_cases 0 e) as [Hpos | Hneg].
  - rewrite (Z.max_l e 0), (Z.max_r (- e) 0) by lia.
    rewrite Z.pow_add_r by lia. change (2 ^ 0) with 1. lia.
  - rewrite (Z.max_r e 0), (Z.max_l (- e) 0) by lia. change (2 ^ 0) with 1.
    rewrite <- Z.mul_assoc, <- Z.pow_add_r by lia.
    replace (e + 1074 + - e) with 1074 by lia. lia.
Qed.

Lemma scaled_lt (m m' : positive) (e e' : Z) :
  bounded 53 1024 m e = true -> bounded 53 1024 m' e' = true ->
  e < e' \/ (e = e' /\ (m < m')%positive) ->
  Z.pos m * 2 ^ (e + 1074) < Z.pos m' * 2 ^ (e' + 1074).
Proof.
  intros B B' K.
  apply bounded_inv in B, B'.
  destruct B as (He & Hm & _), B' as (He' & _ & Hm').
  assert (Hp : 0 < 2 ^ (e + 1074)) by (apply Z.pow_pos_nonneg; lia).
  destruct K as [K | [-> K]].
  - destruct Hm' as [-> | Hm']; [lia |].
    replace (e' + 1074) with (e + 1074 + (e' - e)) by lia.
    rewrite (Z.pow_add_r 2 (e + 1074) (e' - e)) by lia.
    assert (Hq : 2 ^ 1 <= 2 ^ (e' - e)) by (apply Z.pow_le_mono_r; lia).
    change (2 ^ 1) with 2 in Hq.
    change (2 ^ 53) with 9007199254740992 in Hm.
    change (2 ^ 52) with 4503599627370496 in Hm'.
    set (P := 2 ^ (e + 1074)) in *. set (Q := 2 ^ (e' - e)) in *.
    assert (H1 : Z.pos m * P < 9007199254740992 * P)
      by (apply Z.mul_lt_mono_pos_r; assumption).
    assert (H2 : 4503599627370496 * 2 <= Z.pos m' * Q)
      by (apply Z.mul_le_mono_nonneg; lia).
    assert (H3 : 4503599627370496 * 2 * P <= Z.pos m' * Q * P)
      by (apply Z.mul_le_mono_nonneg_r; lia).
    lia.
  - apply Z.mul_lt_mono_pos_r; [exact Hp | lia].
Qed.

(** On positive binary64 values [x >= y] holds exactly when the fraction of
    [x] is at least that of [y]. *)
Lemma ge_exact (m m' : positive) (e e' : Z) :
  binary64 (S754_finite false m e) = true ->
  binary64 (S754_finite false m' e') = true ->
  ge (S754_finite false m e) (S754_finite false m' e') = true
  <-> numerator m' e' * denominator e <= numerator m e * denominator e'.
Proof.
  unfold binary64; cbn [valid_binary]. intros B B'.
  pose proof (bounded_inv m e B) as (He & _ & _).
  pose proof (bounded_inv m' e' B') as (He' & _ & _).
  pose proof (scaled_fraction m e ltac:(lia)) as S.
  pose proof (scaled_fraction m' e' ltac:(lia)) as S'.
  pose proof (denominator_pos e) as D.
  pose proof (denominator_pos e') as D'.
  assert (Hscaled :
    numerator m' e' * denominator e <= numerator m e * denominator e'
    <-> Z.pos m' * 2 ^ (e' + 1074) <= Z.pos m * 2 ^ (e + 1074)).
  { assert (T : 0 < 2 ^ 1074) by (apply Z.pow_pos_nonneg; lia).
    set (t := 2 ^ 1074) in *.
    set (s := Z.pos m * 2 ^ (e + 1074)) in *.
    set (s' := Z.pos m' * 2 ^ (e' + 1074)) in *.
    assert (E : numerator m e * denominator e' * t
                = s * (denominator e * denominator e'))
      by (rewrite <- Z.mul_assoc, (Z.mul_comm (denominator e')), Z.mul_assoc,
            <- S; ring).
    assert (E' : numerator m' e' * denominator e * t
                 = s' * (denominator e * denominator e'))
      by (rewrite <- Z.mul_assoc, (Z.mul_comm (denominator e)), Z.mul_assoc,
            <- S'; ring).
    rewrite (Z.mul_le_mono_pos_r _ _ t) by exact T.
    rewrite E, E'.
    rewrite <- (Z.mul_le_mono_pos_r _ _ (denominator e * denominator e'))
      by (apply Z.mul_pos_pos; assumption).
    reflexivity. }
  rewrite Hscaled, ge_finite.
  split.
  - intros [K | [-> K]].
    + apply Z.lt_le_incl. apply scaled_lt; auto.
    + apply Z.mul_le_mono_nonneg_r; [apply Z.pow_nonneg; lia | lia].
  - intros K.
    destruct (Z.lt_trichotomy e e') as [L | [L | L]]; [| | now left].
    + pose proof (scaled_lt m m' e e' B B' (or_introl L)). lia.
    + subst e'. right. split; [reflexivity |].
      destruct (Pos.lt_total m m') as [L | [L | L]]; [| lia | lia].
      pose proof (scaled_lt m m' e e B B' (or_intror (conj eq_refl L))). lia.
Qed.

(** The thresholds are binary64 values, and each is the one nearest to the
    decimal literal it stands for: [k / 10] and [m * 2 ^ e] differ by at most
    half a unit in the last place, [2 ^ e / 2]. *)
Example threshold_literals :
  forallb binary64 [n0_4; n0_6; n0_7; n0_8] = true
  /\ Forall (fun '(k, m, e) => Z.abs (k * 2 ^ (1 - e) - 20 * m) <= 10)
       [ (4, 7205759403792794, -54); (6, 5404319552844595, -53);
         (7, 6305039478318694, -53); (8, 7205759403792794, -53) ].
Proof.
  split; [vm_compute; reflexivity |].
  repeat constructor; vm_compute; discriminate.
Qed.

Lemma ge_0_7_0_4 (v : number) : ge v n0_7 = true -> ge v n0_4 = true.
Proof. apply ge_weaken; reflexivity. Qed.

Lemma ge_0_8_0_6 (v : number) : ge v n0_8 = true -> ge v n0_6 = true.
Proof. apply ge_weaken; reflexivity. Qed.

Lemma ge_0_6_0_4 (v : number) : ge v n0_6 = true -> ge v n0_4 = true.
Proof. apply ge_weaken; reflexivity. Qed.

End Classifiers.

(** Two different literals are told apart by evaluating them. *)
Ltac literals :=
  match goal with
  | H : _ = _ :> jsstring |- _ => vm_compute in H; discriminate H
  | H : ?b = true |- _ => discriminate H
  | H : ?b = false |- _ => discriminate H
  end.

(** C1. For a number [v] that is not [NaN], [getValueClass v] is [high]
    exactly when [v >= 0.7], [medium] exactly when [v >= 0.4] and [v < 0.7],
    and [low] exactly when [v < 0.4]; [0.7] itself is [high] and [0.4] itself
    is [medium]; and the function always returns one of the three classes. *)
Theorem getValueClass_tiers (v : number) (Hv : Number_isNaN v = false) :
  (getValueClass v = lit "high" <-> ge v n0_7 = true)
  /\ (getValueClass v = lit "medium"
      <-> ge v n0_4 = true /\ lt v n0_7 = true)
  /\ (getValueClass v = lit "low" <-> lt v n0_4 = true)
  /\ getValueClass n0_7 = lit "high"
  /\ getValueClass n0_4 = lit "medium"
  /\ In (getValueClass v) [lit "high"; lit "medium"; lit "low"].
Proof.
  pose proof (ge_or_lt v 6305039478318694 (-53) Hv) as H7.
  pose proof (ge_or_lt v 7205759403792794 (-54) Hv) as H4.
  fold n0_7 in H7; fold n0_4 in H4.
  pose proof (ge_0_7_0_4 v) as Hmono.
  unfold getValueClass.
  destruct (ge v n0_7) eqn:G7; destruct (ge v n0_4) eqn:G4;
    destruct (lt v n0_7) eqn:L7; destruct (lt v n0_4) eqn:L4;
    try discriminate H7; try discriminate H4;
    try (specialize (Hmono eq_refl); discriminate Hmono);
    repeat split; intros; try reflexivity; try literals;
    try (destruct H; literals);
    cbn [In]; auto.
Qed.

Lemma getValueClass_tiers_witness :
  Number_isNaN n0_6 = false
  /\ (getValueClass n0_6 = lit "medium"
      <-> ge n0_6 n0_4 = true /\ lt n0_6 n0_7 = true).
Proof.
  split; [reflexivity |].
  apply (getValueClass_tiers n0_6); reflexivity.
Defined.

(** C2. For a number [v] that is not [NaN], [getStatusClass] and
    [getStatusText] give the tier Excellent exactly when [v >= 0.8], Good
    exactly when [v >= 0.6] and [v < 0.8], Fair exactly when [v >= 0.4] and
    [v < 0.6], and Poor exactly when [v < 0.4]; each of [0.8], [0.6] and
    [0.4] is in the higher of its two tiers. *)
Theorem status_tiers (v : number) (Hv : Number_isNaN v = false) :
  ((getStatusClass v = lit "status-excellent" <-> ge v n0_8 = true)
   /\ (getStatusClass v = lit "status-good"
       <-> ge v n0_6 = true /\ lt v n0_8 = true)
   /\ (getStatusClass v = lit "status-fair"
       <-> ge v n0_4 = true /\ lt v n0_6 = true)
   /\ (getStatusClass v = lit "status-poor" <-> lt v n0_4 = true))
  /\ ((getStatusText v = lit "Отлично" <-> ge v n0_8 = true)
      /\ (getStatusText v = lit "Хорошо"
          <-> ge v n0_6 = true /\ lt v n0_8 = true)
      /\ (getStatusText v = lit "Удовлетворительно"
          <-> ge v n0_4 = true /\ lt v n0_6 = true)
      /\ (getStatusText v = lit "Плохо" <-> lt v n0_4 = true))
  /\ (getStatusClass n0_8 = lit "status-excellent"
      /\ getStatusClass n0_6 = lit "status-good"
      /\ getStatusClass n0_4 = lit "status-fair")
  /\ (getStatusText n0_8 = lit "Отлично"
      /\ getStatusText n0_6 = lit "Хорошо"
      /\ getStatusText n0_4 = lit "Удовлетворительно").
Proof.
  pose proof (ge_or_lt v 7205759403792794 (-53) Hv) as H8.
  pose proof (ge_or_lt v 5404319552844595 (-53) Hv) as H6.
  pose proof (ge_or_lt v 7205759403792794 (-54) Hv) as H4.
  fold n0_8 in H8; fold n0_6 in H6; fold n0_4 in H4.
  pose proof (ge_0_8_0_6 v) as M86.
  pose proof (ge_0_6_0_4 v) as M64.
  unfold getStatusClass, getStatusText.
  destruct (ge v n0_8) eqn:G8; destruct (ge v n0_6) eqn:G6;
    destruct (ge v n0_4) eqn:G4;
    try (specialize (M86 eq_refl); discriminate M86);
    try (specialize (M64 eq_refl); discriminate M64);
    destruct (lt v n0_8) eqn:L8; try discriminate H8;
    destruct (lt v n0_6) eqn:L6; try discriminate H6;
    destruct (lt v n0_4) eqn:L4; try discriminate H4;
    repeat split; intros; try reflexivity; try literals;
    try (destruct H; literals).
Qed.

Lemma status_tiers_witness :
  Number_isNaN n0_7 = false
  /\ getStatusClass n0_7 = lit "status-good"
  /\ getStatusText n0_7 = lit "Хорошо".
Proof.
  split; [reflexivity |].
  destruct (status_tiers n0_7 eq_refl) as [[_ [Hc _]] [[_ [Ht _]] _]].
  split; [apply Hc | apply Ht]; split; reflexivity.
Defined.

(** C10. For every number [v], [getStatusClass v] and [getStatusText v] name
    the same tier: the class is [status-excellent], [status-good],
    [status-fair] or [status-poor] exactly when the text is the word for
    that tier. *)
Theorem status_class_text_agree (v : number) :
  (getStatusClass v = lit "status-excellent"
   <-> getStatusText v = lit "Отлично")
  /\ (getStatusClass v = lit "status-good" <-> getStatusText v = lit "Хорошо")
  /\ (getStatusClass v = lit "status-fair"
      <-> getStatusText v = lit "Удовлетворительно")
  /\ (getStatusClass v = lit "status-poor" <-> getStatusText v = lit "Плохо").
Proof.
  unfold getStatusClass, getStatusText.
  destruct (ge v n0_8); [| destruct (ge v n0_6); [| destruct (ge v n0_4)]];
    repeat split; intros; try reflexivity; literals.
Qed.

(** ** The detailed table *)

Section DetailedTable.

Context `{Engine}.

Lemma isMetric_inv (c : completion value) :
  isMetric c = true ->
  exists x, c = Normal (VNumber x) /\ in_unit_interval x = true.
Proof.
  destruct c as [[| | | x | | |] |]; cbn; intros K; try discriminate.
  exists x; auto.
Qed.

Lemma isNumber_inv (c : completion value) :
  isNumber c = true -> exists x, c = Normal (VNumber x).
Proof.
  destruct c as [[| | | x | | |] |]; cbn; intros K; try discriminate.
  exists x; auto.
Qed.

Lemma isMetricSet_inv (v : value) :
  isMetricSet v = true ->
  exists p r f a,
    (get v "precision" = Normal (VNumber p)
     /\ get v "recall" = Normal (VNumber r)
     /\ get v "f_measure" = Normal (VNumber f)
     /\ get v "accuracy" = Normal (VNumber a))
    /\ in_unit_interval p = true /\ in_unit_interval r = true
    /\ in_unit_interval f = true /\ in_unit_interval a = true.
Proof.
  unfold isMetricSet, metrics; cbn [forallb key]; intros K.
  repeat (apply andb_prop in K; destruct K as [?K K]).
  apply isMetric_inv in K0, K1, K2, K3.
  destruct K0 as (p & ? & ?), K1 as (r & ? & ?),
           K2 as (f & ? & ?), K3 as (a & ? & ?).
  exists p, r, f, a; auto 10.
Qed.

Lemma isQueryMetrics_inv (v : value) :
  isQueryMetrics v = true ->
  isMetricSet v = true
  /\ exists tp fp fn,
      get v "true_positive" = Normal (VNumber tp)
      /\ get v "false_positive" = Normal (VNumber fp)
      /\ get v "false_negative" = Normal (VNumber fn).
Proof.
  unfold isQueryMetrics; intros K.
  do 3 (apply andb_prop in K; destruct K as [K ?K]).
  apply isNumber_inv in K0, K1, K2.
  destruct K0 as (fn & ?), K1 as (fp & ?), K2 as (tp & ?).
  split; [assumption | exists tp, fp, fn; auto].
Qed.

(** The row of a well-formed entry: the title and the label, then the
    other cells. *)
Lemma tableRow_QueryMetrics (query : jsstring) (queryMetrics : value) :
  isQueryMetrics queryMetrics = true ->
  exists cells,
    tableRow query queryMetrics
    = Normal (markup "
                <tr>
                    <td title='"
              ++ query ++ markup "'>" ++ truncateText query 30 ++ cells).
Proof.
  intros K. apply isQueryMetrics_inv in K.
  destruct K as (K & tp & fp & fn & Htp & Hfp & Hfn).
  apply isMetricSet_inv in K.
  destruct K as (p & r & f & a & (Hp & Hr & Hf & Ha) & _).
  unfold tableRow, metricCell.
  rewrite Htp, Hfp, Hfn, Hp, Hr, Hf, Ha.
  cbn [and_then classify ToNumber toFixed ToString fst snd].
  eexists; reflexivity.
Qed.

Lemma truncateText_short (text : jsstring) (maxLength : nat) :
  (length text <= maxLength)%nat -> truncateText text maxLength = text.
Proof.
  intros K; unfold truncateText.
  destruct (Nat.ltb_spec maxLength (length text)); [lia | reflexivity].
Qed.

Lemma truncateText_long (text : jsstring) (maxLength : nat) :
  (maxLength < length text)%nat ->
  truncateText text maxLength = firstn maxLength text ++ lit "...".
Proof.
  intros K; unfold truncateText.
  destruct (Nat.ltb_spec maxLength (length text)); [reflexivity | lia].
Qed.

Lemma truncateText_length (text : jsstring) (maxLength : nat) :
  length (truncateText text maxLength)
  = (Nat.min (length text) maxLength
     + if (maxLength <? length text)%nat then 3 else 0)%nat.
Proof.
  unfold truncateText.
  destruct (Nat.ltb_spec maxLength (length text)).
  - rewrite length_app, length_firstn.
    change (length (lit "...")) with 3%nat. lia.
  - lia.
Qed.

Lemma tableRows_QueryMetrics (entries : list (jsstring * value)) :
  forallb (fun entry => isQueryMetrics (snd entry)) entries = true ->
  forall tableHTML,
  exists rows,
    Forall2 (fun entry row => tableRow (fst entry) (snd entry) = Normal row)
            entries rows
    /\ tableRows entries tableHTML = Normal (tableHTML ++ concat rows).
Proof.
  induction entries as [| [query queryMetrics] rest IH];
    cbn [forallb tableRows snd]; intros K tableHTML.
  - exists []. split; [constructor | now rewrite app_nil_r].
  - apply andb_prop in K. destruct K as [K Krest].
    destruct (tableRow_QueryMetrics query _ K) as (cells & Hrow).
    rewrite Hrow; cbn [and_then].
    destruct (IH Krest (tableHTML ++ markup "
                <tr>
                    <td title='"
              ++ query ++ markup "'>" ++ truncateText query 30 ++ cells))
      as (rows & Hrows & Heq).
    eexists (_ :: rows). split.
    + constructor; [exact Hrow | exact Hrows].
    + rewrite Heq. cbn [concat]. now rewrite <- !app_assoc.
Qed.

Lemma tableHead_first : exists rest, tableHead = 10%N :: rest.
Proof. eexists. vm_compute. reflexivity. Qed.

Lemma children_of_table (body : jsstring) :
  children_of (tableHead ++ body) = [Parsed (tableHead ++ body)].
Proof. destruct tableHead_first as (rest & ->). reflexivity. Qed.

(** What [displayDetailedMetrics] does with a non-empty mapping of
    well-formed entries. *)
Lemma displayDetailedMetrics_table (entries : list (jsstring * value))
  (operator : value) (r : report) :
  entries <> [] ->
  forallb (fun entry => isQueryMetrics (snd entry)) entries = true ->
  exists rows,
    Forall2 (fun entry row => tableRow (fst entry) (snd entry) = Normal row)
            entries rows
    /\ displayDetailedMetrics (VObject entries) operator r
       = (Normal tt,
          {| macroMetrics := macroMetrics r;
             plotsContainer := plotsContainer r;
             detailedMetrics :=
               [Parsed (tableHead ++ concat rows
                        ++ lit "</tbody></table></div>")];
             metricsInfo := metricsInfo r;
             metricsModal := metricsModal r |}).
Proof.
  intros Hne K.
  destruct (tableRows_QueryMetrics entries K tableHead) as (rows & Hrows & Heq).
  exists rows. split; [exact Hrows |].
  unfold displayDetailedMetrics, bind, lift, set_detailedMetrics, modify.
  cbn [Object_keys Object_entries and_then].
  rewrite length_map.
  destruct entries as [| entry rest]; [congruence |].
  cbn [length Nat.eqb].
  rewrite Heq. rewrite <- app_assoc, children_of_table. reflexivity.
Qed.

End DetailedTable.

(** C9. With an empty mapping the detailed section holds the no-data notice
    and nothing else; with a non-empty mapping of query metrics it holds a
    table, head, rows and closing tags, which is not the notice. *)
Theorem detailed_notice_or_table `{Engine}
  (entries : list (jsstring * value)) (operator : value) (r : report)
  (Hentries : forallb (fun entry => isQueryMetrics (snd entry)) entries = true) :
  fst (displayDetailedMetrics (VObject entries) operator r) = Normal tt
  /\ (entries = []
      -> detailedMetrics (snd (displayDetailedMetrics (VObject entries) operator r))
         = [Parsed (lit "<p>Нет данных для отображения</p>")])
  /\ (entries <> []
      -> exists body,
           detailedMetrics
             (snd (displayDetailedMetrics (VObject entries) operator r))
           = [Parsed (tableHead ++ body ++ lit "</tbody></table></div>")]
           /\ tableHead ++ body ++ lit "</tbody></table></div>"
              <> lit "<p>Нет данных для отображения</p>").
Proof.
  destruct entries as [| entry rest].
  - split; [vm_compute; reflexivity |].
    split; [intros _; vm_compute; reflexivity | congruence].
  - destruct (displayDetailedMetrics_table (entry :: rest) operator r)
      as (rows & _ & Heq); [discriminate | assumption |].
    rewrite Heq. cbn [fst snd detailedMetrics].
    split; [reflexivity |]. split; [discriminate |].
    intros _. exists (concat rows). split; [reflexivity |].
    destruct tableHead_first as (t & ->). vm_compute. discriminate.
Qed.

Lemma detailed_notice_or_table_witness :
  detailedMetrics
    (snd (@displayDetailedMetrics scenario_engine (VObject [])
            (VString (lit "AND")) (content idle)))
  = [Parsed (lit "<p>Нет данных для отображения</p>")].
Proof.
  destruct (@detailed_notice_or_table scenario_engine []
              (VString (lit "AND")) (content idle))
    as (_ & Hempty & _); [reflexivity |].
  exact (Hempty eq_refl).
Defined.

(** ** The macro cards *)

Section MacroCards.

Context `{Engine}.

Lemma jsstring_eqb_eq (a b : jsstring) : jsstring_eqb a b = true -> a = b.
Proof.
  revert b; induction a as [| x a IH]; intros [| y b]; cbn;
    intros K; try discriminate; [reflexivity |].
  apply andb_prop in K. destruct K as [Kx Kab].
  apply N.eqb_eq in Kx. f_equal; auto.
Qed.

Lemma jsstring_eqb_refl (a : jsstring) : jsstring_eqb a a = true.
Proof. induction a as [| x a IH]; cbn; [| rewrite N.eqb_refl]; auto. Qed.

(** Every number of thousandths up to a thousand is printed as a digit,
    the point and three digits: checked one by one. *)
Lemma fixed_digits_three_places (n : N) :
  (n <= 1000)%N -> fixed_digits n 3 = three_places n.
Proof.
  intros Hn.
  assert (Hall :
    forallb (fun k => jsstring_eqb (fixed_digits (N.of_nat k) 3)
                                   (three_places (N.of_nat k)))
            (seq 0 1001) = true) by (vm_compute; reflexivity).
  rewrite forallb_forall in Hall.
  specialize (Hall (N.to_nat n)).
  rewrite N2Nat.id in Hall.
  apply jsstring_eqb_eq, Hall, in_seq. lia.
Qed.

(** [nearest_scaled num den f] is the integer nearest to
    [num * 10 ^ f / den], the larger of two. *)
Lemma nearest_scaled_nearest (num den : Z) (f : nat) :
  0 <= num -> 0 < den ->
  let n := Z.of_N (nearest_scaled num den f) in
  2 * n * den - den <= 2 * num * 10 ^ Z.of_nat f < 2 * n * den + den.
Proof.
  intros Hnum Hden n.
  assert (Hp : 0 <= 10 ^ Z.of_nat f) by (apply Z.pow_nonneg; lia).
  assert (Hq : 0 <= (2 * num * 10 ^ Z.of_nat f + den) / (2 * den))
    by (apply Z.div_pos; nia).
  subst n. unfold nearest_scaled. rewrite Z2N.id by exact Hq.
  pose proof (Z.div_mod (2 * num * 10 ^ Z.of_nat f + den) (2 * den)
                ltac:(lia)) as Hdm.
  pose proof (Z.mod_pos_bound (2 * num * 10 ^ Z.of_nat f + den) (2 * den)
                ltac:(lia)) as Hmod.
  nia.
Qed.

Lemma thousandths_bound (x : number) :
  in_unit_interval x = true -> (thousandths x <= 1000)%N.
Proof.
  destruct x as [s | s | | [|] m e]; cbn [in_unit_interval thousandths];
    intros K; try discriminate; try lia.
  apply Z.leb_le in K.
  pose proof (denominator_pos e) as Hden.
  pose proof (numerator_pos m e) as Hnum.
  unfold nearest_scaled. change (10 ^ Z.of_nat 3) with 1000.
  assert ((2 * numerator m e * 1000 + denominator e) / (2 * denominator e)
          < 1001) by (apply Z.div_lt_upper_bound; lia).
  assert (0 <= (2 * numerator m e * 1000 + denominator e)
               / (2 * denominator e)) by (apply Z.div_pos; lia).
  lia.
Qed.

(** A metric is printed with exactly three decimal places. *)
Lemma Number_toFixed_metric (x : number) :
  in_unit_interval x = true ->
  Number_toFixed x 3 = three_places (thousandths x).
Proof.
  intros K. pose proof (thousandths_bound x K) as Hn.
  destruct x as [s | s | | [|] m e]; cbn [in_unit_interval] in K;
    try discriminate.
  - vm_compute. reflexivity.
  - apply Z.leb_le in K.
    pose proof (denominator_pos e) as Hden.
    unfold Number_toFixed.
    destruct (Z.leb_spec (10 ^ 21 * denominator e) (numerator m e)) as [L | L].
    + change (10 ^ 21) with 1000000000000000000000 in L. lia.
    + cbn [app]. apply fixed_digits_three_places. exact Hn.
Qed.

Lemma metricCard_number (metric : descriptor) (macro operator : value)
  (v : number) (label : jsstring) :
  get macro (key metric) = Normal (VNumber v) ->
  ToString operator = Normal label ->
  metricCard metric macro operator
  = Normal (Div (lit "metric-card")
              (cardMarkup metric (getValueClass v) (Number_toFixed v 3) label)).
Proof.
  intros Hget Hlabel. unfold metricCard. rewrite Hget.
  cbn [and_then classify ToNumber toFixed]. rewrite Hlabel. reflexivity.
Qed.

(** What [displayMacroMetrics] does when the four metrics are numbers: the
    input matters only through the four look-ups. *)
Lemma displayMacroMetrics_cards (macro operator : value) (label : jsstring)
  (p r f a : number) (rep : report) :
  get macro "precision" = Normal (VNumber p) ->
  get macro "recall" = Normal (VNumber r) ->
  get macro "f_measure" = Normal (VNumber f) ->
  get macro "accuracy" = Normal (VNumber a) ->
  ToString operator = Normal label ->
  displayMacroMetrics macro operator rep
  = (Normal tt,
     {| macroMetrics :=
          map (fun '(metric, v) =>
                 Div (lit "metric-card")
                   (cardMarkup metric (getValueClass v) (Number_toFixed v 3)
                      label))
              (combine metrics [p; r; f; a]);
        plotsContainer := plotsContainer rep;
        detailedMetrics := detailedMetrics rep;
        metricsInfo := metricsInfo rep;
        metricsModal := metricsModal rep |}).
Proof.
  intros Hp Hr Hf Ha Hlabel.
  unfold displayMacroMetrics, metrics. cbn [for_each].
  unfold bind, lift, set_macroMetrics, modify, ret.
  erewrite (metricCard_number (Build_descriptor "precision" _ _) macro operator p label Hp Hlabel).
  erewrite (metricCard_number (Build_descriptor "recall" _ _) macro operator r label Hr Hlabel).
  erewrite (metricCard_number (Build_descriptor "f_measure" _ _) macro operator f label Hf Hlabel).
  erewrite (metricCard_number (Build_descriptor "accuracy" _ _) macro operator a label Ha Hlabel).
  cbn [fst snd macroMetrics plotsContainer detailedMetrics metricsInfo
       metricsModal children_of appendChild app combine map].
  reflexivity.
Qed.

End MacroCards.

(** ** The scenarios of the specification, run *)

(** Scenario A: four cards with the values 0.820, 0.650, 0.725 and 0.900 in
    the tiers high, medium, high, high; one plot; one row, for [q1], with the
    counts 9, 1 and 9 and the status Good; the results shown and nothing
    else. *)
Example scenarioA_report :
  let d := snd (@runEvaluation scenario_engine (Normal (Normal scenarioA)) idle) in
  map (fun v => (getValueClass v, @Number_toFixed scenario_engine v 3))
      [n0_82; n0_65; n0_725; n0_9]
  = [ (lit "high", lit "0.820"); (lit "medium", lit "0.650");
      (lit "high", lit "0.725"); (lit "high", lit "0.900") ]
  /\ length (macroMetrics (content d)) = 4%nat
  /\ length (plotsContainer (content d)) = 1%nat
  /\ (exists row,
        @tableRow scenario_engine (lit "q1") q1 = Normal row
        /\ detailedMetrics (content d)
           = [Parsed (tableHead ++ row ++ lit "</tbody></table></div>")])
  /\ map (@Number_toString scenario_engine) [n9; n1; n9]
     = [lit "9"; lit "1"; lit "9"]
  /\ (getStatusClass n0_643, getStatusText n0_643)
     = (lit "status-good", lit "Хорошо")
  /\ (shown Loading d, shown Results d, shown ErrorBanner d)
     = (false, true, false).
Proof.
  repeat split; try (vm_compute; reflexivity).
  eexists. split; vm_compute; reflexivity.
Qed.

(** Scenario B: the error banner shows the server's text, the other two
    panels are hidden. *)
Example scenarioB_report :
  let d := snd (@runEvaluation scenario_engine (Normal (Normal scenarioB)) idle) in
  errorMessage_textContent (view d) = lit "qrels not found"
  /\ (shown Loading d, shown Results d, shown ErrorBanner d)
     = (false, false, true).
Proof. split; vm_compute; reflexivity. Qed.

(** ** The request life cycle *)

Section LifeCycle.

Context `{Engine}.

Lemma branch_lift_bind {A} (c : completion A) (k : A -> prog document unit)
  (d : document) :
  (forall a, c = Normal a -> branch_taken (view d) (k a d)) ->
  branch_taken (view d) (bind (lift c) k d).
Proof.
  intros K. unfold bind, lift. destruct c as [a | error].
  - now apply K.
  - right; right. exists error. split; reflexivity.
Qed.

Lemma branch_in_content_bind {A} (c : prog report A)
  (k : A -> prog document unit) (d : document) :
  (forall a d', view d' = view d -> branch_taken (view d) (k a d')) ->
  branch_taken (view d) (bind (in_content c) k d).
Proof.
  intros K. unfold bind, in_content.
  destruct (c (content d)) as [[a | error] r].
  - now apply K.
  - right; right. exists error. split; reflexivity.
Qed.

Lemma branch_showResults (d : document) :
  branch_taken (view d) (in_view showResults d).
Proof. left. split; reflexivity. Qed.

Lemma branch_showError (message : value) (d : document) :
  branch_taken (view d) (in_view (showError message) d).
Proof.
  unfold in_view, showError, bind, lift.
  destruct (text_of message) as [text | error] eqn:Htext.
  - right; left. split; [reflexivity |]. exists text. reflexivity.
  - right; right. exists error. split; [reflexivity |].
    destruct d as [v k]; reflexivity.
Qed.

Lemma branch_displayResults (metrics plots operator : value) (d : document) :
  branch_taken (view d) (displayResults metrics plots operator d).
Proof.
  unfold displayResults.
  apply branch_lift_bind; intros macro _.
  apply branch_in_content_bind; intros _ d1 <-.
  apply branch_in_content_bind; intros _ d2 <-.
  apply branch_lift_bind; intros per_query _.
  apply branch_in_content_bind; intros _ d3 <-.
  apply branch_showResults.
Qed.

(** The [try] block of [runEvaluation] after the request was sent. *)
Lemma branch_runEvaluation (network : answer) (d : document) :
  branch_taken (view d)
    ((response <- await network ;;
      data <- await response ;;
      success <- lift (get data "success") ;;
      if ToBoolean success
      then
        metrics <- lift (get data "metrics") ;;
        plots <- lift (get data "plots") ;;
        operator <- lift (get data "operator") ;;
        displayResults metrics plots operator
      else
        error <- lift (get data "error") ;;
        in_view (showError error))%prog d).
Proof.
  unfold await.
  apply branch_lift_bind; intros response _.
  apply branch_lift_bind; intros data _.
  apply branch_lift_bind; intros success _.
  destruct (ToBoolean success).
  - apply branch_lift_bind; intros metrics _.
    apply branch_lift_bind; intros plots _.
    apply branch_lift_bind; intros operator _.
    apply branch_displayResults.
  - apply branch_lift_bind; intros error _.
    apply branch_showError.
Qed.

(** A [try] block that takes one of the branches, under a [catch] that
    shows an error and a [finally] that hides the loading indicator. *)
Lemma guarded_branch (body : prog document unit) (wording : thrown -> jsstring)
  (d : document) :
  branch_taken (view d) (body d) ->
  let r :=
    try_finally
      (try_catch body
         (fun error => in_view (showError (VString (wording error)))))
      (in_view hideLoading) d in
  fst r = Normal tt
  /\ (view (snd r) = snd (hideLoading (snd (showResults (view d))))
      \/ exists text,
           view (snd r)
           = snd (hideLoading (snd (showError (VString text) (view d))))).
Proof.
  intros B. unfold try_finally, try_catch. unfold branch_taken in B.
  destruct (body d) as [[[] | error] d1]; cbn [fst snd] in B.
  - destruct B as [[_ B] | [[_ [text B]] | [error [B _]]]];
      [| | discriminate B]; (split; [reflexivity |]);
      cbn [in_view hideLoading modify fst snd view]; rewrite B.
    + left. reflexivity.
    + right. exists text. reflexivity.
  - destruct B as [[B _] | [[B _] | [error' [_ B]]]];
      [discriminate B | discriminate B |].
    split; [reflexivity |]. right. exists (wording error).
    unfold in_view at 2. unfold showError at 1, bind, lift.
    cbn [text_of ToString modify fst snd in_view hideLoading view].
    rewrite B. reflexivity.
Qed.

Lemma runEvaluation_settled_view (network : answer) (d : document) :
  fst (runEvaluation_settled network d) = Normal tt
  /\ (view (snd (runEvaluation_settled network d))
      = snd (hideLoading (snd (showResults (view d))))
      \/ exists text,
           view (snd (runEvaluation_settled network d))
           = snd (hideLoading (snd (showError (VString text) (view d))))).
Proof.
  unfold runEvaluation_settled.
  apply (guarded_branch _
           (fun error => lit "Ошибка при выполнении оценки: " ++ message error)).
  apply branch_runEvaluation.
Qed.

(** The handler is its part before the [await] followed by its part after
    it. *)
Lemma runEvaluation_parts (network : answer) (d : document) :
  runEvaluation network d
  = runEvaluation_settled network (snd (runEvaluation_clicked d)).
Proof.
  unfold runEvaluation, runEvaluation_settled, runEvaluation_clicked.
  unfold try_finally, try_catch, fetch.
  unfold bind at 1 2 3 4. unfold bind at 5 6 7.
  cbn [in_view showLoading hideResults hideError modify fst snd view content].
  reflexivity.
Qed.

Lemma contains_add (c : classList) (token : string) :
  contains (classList_add c token) token = true.
Proof.
  unfold classList_add. destruct (contains c token) eqn:K; [exact K |].
  unfold contains. rewrite existsb_app. cbn [existsb].
  rewrite jsstring_eqb_refl. apply orb_true_iff. right. reflexivity.
Qed.

Lemma contains_remove (c : classList) (token : string) :
  contains (classList_remove c token) token = false.
Proof.
  unfold contains, classList_remove.
  induction c as [| t c IH]; [reflexivity |].
  cbn [filter]. destruct (jsstring_eqb (lit token) t) eqn:K; cbn [negb].
  - exact IH.
  - cbn [existsb]. rewrite K, IH. reflexivity.
Qed.

Lemma visible_add (c : classList) :
  visible (classList_add c "hidden") = false.
Proof. unfold visible. now rewrite contains_add. Qed.

Lemma visible_remove (c : classList) :
  visible (classList_remove c "hidden") = true.
Proof. unfold visible. now rewrite contains_remove. Qed.


End LifeCycle.






(** ** The panels between two turns of the event loop *)

Section Panels.

Context `{Engine}.

Lemma view_received (network : answer) (d : document) :
  view (snd (showMetricsInfo_received network d)) = view d.
Proof.
  unfold showMetricsInfo_received, await, bind, lift, in_content.
  destruct network as [[metricsInfo | error] | error]; try reflexivity.
  destruct (displayMetricsInfo metricsInfo (content d)); reflexivity.
Qed.

(** A look-up that fails shows the error banner and leaves the other two
    panels as they were. *)
Lemma failed_lookup (network : answer) (d : document) (error : thrown) :
  fst (showMetricsInfo_received network d) = Throw error ->
  shown ErrorBanner (snd (showMetricsInfo_settled network d)) = true
  /\ shown Loading (snd (showMetricsInfo_settled network d))
     = shown Loading d
  /\ shown Results (snd (showMetricsInfo_settled network d))
     = shown Results d.
Proof.
  intros K. pose proof (view_received network d) as V.
  unfold showMetricsInfo_settled, try_catch.
  destruct (showMetricsInfo_received network d) as [[[] | error'] d1];
    cbn [fst snd] in K, V; [discriminate K |].
  unfold shown, in_view, showError, bind, lift.
  cbn [text_of ToString modify fst snd view record loadingElement
       resultsElement errorMessageElement].
  rewrite V, visible_remove. repeat split.
Qed.

Lemma successful_lookup (network : answer) (d : document) :
  fst (showMetricsInfo_received network d) = Normal tt ->
  view (snd (showMetricsInfo_settled network d)) = view d.
Proof.
  intros K.
  pose proof (view_received network d) as V.
  unfold showMetricsInfo_settled, try_catch.
  destruct (showMetricsInfo_received network d) as [[[] | error] d1];
    cbn [fst snd] in K, V; [exact V | discriminate K].
Qed.

Lemma shown_clicked (d : document) :
  shown Loading (snd (runEvaluation_clicked d)) = true
  /\ shown Results (snd (runEvaluation_clicked d)) = false
  /\ shown ErrorBanner (snd (runEvaluation_clicked d)) = false.
Proof.
  unfold shown, runEvaluation_clicked, fetch, bind.
  cbn [in_view showLoading hideResults hideError modify fst snd view content
       record loadingElement resultsElement errorMessageElement].
  rewrite visible_remove, !visible_add. repeat split.
Qed.

Lemma shown_settled (network : answer) (d : document) :
  shown Results d = false -> shown ErrorBanner d = false ->
  shown Loading (snd (runEvaluation_settled network d)) = false
  /\ (shown Results (snd (runEvaluation_settled network d)) = false
      \/ shown ErrorBanner (snd (runEvaluation_settled network d)) = false).
Proof.
  intros KR KE. unfold shown in *.
  destruct (runEvaluation_settled_view network d) as [_ [V | [text V]]];
    rewrite V.
  - cbn [showResults hideLoading modify fst snd record loadingElement
         resultsElement errorMessageElement].
    rewrite visible_add. auto.
  - unfold showError, bind, lift.
    cbn [text_of ToString hideLoading modify fst snd record loadingElement
         resultsElement errorMessageElement].
    rewrite visible_add. auto.
Qed.

Lemma in_order_preserves (i : input) (p p' : page) :
  settled_or_loading p -> in_order i p = true -> react i p = Some p' ->
  settled_or_loading p'.
Proof.
  intros I O R. destruct p as [d n l]. unfold settled_or_loading in *.
  cbn [dom evaluations lookups] in *.
  destruct i as [| network | | network |]; cbn [react in_order dom evaluations
    lookups] in O, R.
  - apply Nat.eqb_eq in O. inversion R; subst; clear R.
    cbn [dom evaluations]. right.
    destruct (shown_clicked d) as (_ & KR & KE). auto.
  - destruct n as [| n]; [discriminate R |]. inversion R; subst; clear R.
    cbn [dom evaluations].
    destruct I as [(I & _) | (I & KR & KE)]; [discriminate I |].
    left. injection I as ->. split; [reflexivity |].
    now apply shown_settled.
  - inversion R; subst; clear R. cbn [dom evaluations]. exact I.
  - destruct l as [| l]; [discriminate R |]. inversion R; subst; clear R.
    cbn [dom evaluations].
    assert (V : view (snd (showMetricsInfo_settled network d)) = view d).
    { apply successful_lookup.
    destruct (fst (showMetricsInfo_received network d)) as [[] |];
      [reflexivity | discriminate O]. }
    unfold shown in *. rewrite V. exact I.
  - inversion R; subst; clear R. cbn [dom evaluations]. exact I.
Qed.

Lemma orderly_preserves (inputs : list input) :
  forall p p' : page,
    settled_or_loading p -> orderly inputs p = true ->
    reactions inputs p = Some p' -> settled_or_loading p'.
Proof.
  induction inputs as [| i rest IH]; cbn [orderly reactions]; intros p p' I O R.
  - now inversion R; subst.
  - apply andb_prop in O. destruct O as [Oi Orest].
    destruct (react i p) as [p1 |] eqn:Ri; [| discriminate R].
    apply (IH p1 p'); [| assumption | assumption].
    now apply (in_order_preserves i p).
Qed.

Lemma at_most_one (p : page) :
  settled_or_loading p -> (count_shown (dom p) <= 1)%nat.
Proof.
  unfold settled_or_loading, count_shown. cbn [filter].
  intros [(_ & KL & [KR | KE]) | (_ & KR & KE)];
    repeat match goal with K : shown _ _ = false |- _ => rewrite K; clear K end;
    repeat match goal with |- context [shown ?x ?y] => destruct (shown x y) end;
    cbn [length]; lia.
Qed.

End Panels.

(** C5 as stated, that at most one panel is shown in every reachable state of
    the page, look-ups of the metrics' documentation included, fails: after
    an evaluation that succeeded, a look-up whose request is rejected leaves
    the results and the error banner both shown, with nothing outstanding. *)
Lemma results_and_error_both_shown :
  exists p : page,
    @reactions scenario_engine
      [ ClickRunEvaluation;
        EvaluationSettles (Normal (Normal scenarioA));
        ClickShowMetricsInfo;
        MetricsInfoSettles (Throw (Rejection (lit "Failed to fetch"))) ]
      at_load
    = Some p
    /\ evaluations p = 0%nat /\ lookups p = 0%nat
    /\ shown Results (dom p) = true
    /\ shown ErrorBanner (dom p) = true
    /\ ~ (count_shown (dom p) <= 1)%nat.
Proof.
  eexists. split; [vm_compute; reflexivity |].
  repeat split; try (vm_compute; reflexivity).
  vm_compute. lia.
Qed.

(** Two evaluations outstanding at once break the bound too: the first to
    settle shows the results, the second, failing, the error banner. *)
Lemma overlapping_evaluations_show_two :
  exists p : page,
    @reactions scenario_engine
      [ ClickRunEvaluation;
        ClickRunEvaluation;
        EvaluationSettles (Normal (Normal scenarioA));
        EvaluationSettles (Throw (Rejection (lit "Failed to fetch"))) ]
      at_load
    = Some p
    /\ count_shown (dom p) = 2%nat.
Proof. eexists. split; vm_compute; reflexivity. Qed.

(** C5, amended. Between two turns of the event loop, in every state the page
    reaches from one with the three panels hidden and nothing outstanding by
    inputs in order (an evaluation is started only while none is
    outstanding, and every look-up of the metrics' documentation that settles
    is rendered without raising), at most one of the loading indicator, the
    results and the error banner is shown.  A look-up that fails shows the
    error banner and leaves the loading indicator and the results as they
    were. *)
Theorem orderly_pages_show_at_most_one `{Engine}
  (d0 : document) (inputs : list input) (p : page)
  (Hidle : count_shown d0 = 0%nat)
  (Horderly :
     orderly inputs {| dom := d0; evaluations := 0; lookups := 0 |} = true)
  (Hreached :
     reactions inputs {| dom := d0; evaluations := 0; lookups := 0 |}
     = Some p) :
  (count_shown (dom p) <= 1)%nat
  /\ forall (network : answer) (d : document) (error : thrown),
       fst (showMetricsInfo_received network d) = Throw error ->
       shown ErrorBanner (snd (showMetricsInfo_settled network d)) = true
       /\ shown Loading (snd (showMetricsInfo_settled network d))
          = shown Loading d
       /\ shown Results (snd (showMetricsInfo_settled network d))
          = shown Results d.
Proof.
  split; [| apply failed_lookup].
  apply at_most_one.
  apply (orderly_preserves inputs
           {| dom := d0; evaluations := 0; lookups := 0 |} p);
    try assumption.
  left. cbn [dom evaluations]. unfold count_shown in Hidle. cbn [filter] in Hidle.
  destruct (shown Loading d0), (shown Results d0), (shown ErrorBanner d0);
    try discriminate Hidle; auto.
Qed.

Lemma orderly_pages_show_at_most_one_witness :
  exists p : page,
    @reactions scenario_engine
      [ ClickRunEvaluation;
        EvaluationSettles (Normal (Normal scenarioA));
        ClickRunEvaluation;
        EvaluationSettles (Normal (Normal scenarioB)) ]
      at_load
    = Some p
    /\ (count_shown (dom p) <= 1)%nat.
Proof.
  eexists. split; [vm_compute; reflexivity |].
  eapply (@orderly_pages_show_at_most_one scenario_engine idle
            [ ClickRunEvaluation;
              EvaluationSettles (Normal (Normal scenarioA));
              ClickRunEvaluation;
              EvaluationSettles (Normal (Normal scenarioB)) ]);
    vm_compute; reflexivity.
Defined.

(** * Further properties of the controller *)

(** ** The two classifiers together *)

Section Tiers.

(** If [w >= v] and [v] reaches a threshold, so does [w]. *)
Lemma ge_threshold_mono (w v : number) (m : positive) (e : Z) :
  ge w v = true ->
  ge v (S754_finite false m e) = true ->
  ge w (S754_finite false m e) = true.
Proof.
  destruct v as [sv | sv | | sv mv ev]; try discriminate;
    destruct w as [sw | sw | | sw mw ew]; try discriminate;
    try (destruct sv; discriminate); try (destruct sw; discriminate);
    try (destruct sv, sw; (discriminate || reflexivity)).
  destruct sv, sw; try discriminate.
  intros Hwv Hv. apply ge_finite in Hwv, Hv. apply ge_finite. lia.
Qed.

Lemma ge_0_8_0_7 (v : number) : ge v n0_8 = true -> ge v n0_7 = true.
Proof. apply ge_weaken; reflexivity. Qed.

Lemma ge_0_7_0_6 (v : number) : ge v n0_7 = true -> ge v n0_6 = true.
Proof. apply ge_weaken; reflexivity. Qed.

End Tiers.

(** X1. A larger number never gets a lower tier: if [w >= v], then [w] is
    [high] when [v] is, [w] is at least [medium] when [v] is, and likewise
    for the four status tiers. *)
Theorem tiers_monotone (v w : number) (Hwv : ge w v = true) :
  ((getValueClass v = lit "high" -> getValueClass w = lit "high")
   /\ (getValueClass v = lit "medium" -> getValueClass w <> lit "low")
   /\ (getValueClass w = lit "low" -> getValueClass v = lit "low"))
  /\ ((getStatusClass v = lit "status-excellent"
       -> getStatusClass w = lit "status-excellent")
      /\ (getStatusClass v = lit "status-good"
          -> getStatusClass w = lit "status-good"
             \/ getStatusClass w = lit "status-excellent")
      /\ (getStatusClass v = lit "status-fair"
          -> getStatusClass w <> lit "status-poor")
      /\ (getStatusClass w = lit "status-poor"
          -> getStatusClass v = lit "status-poor")).
Proof.
  pose proof (ge_threshold_mono w v 7205759403792794 (-54) Hwv) as T4.
  pose proof (ge_threshold_mono w v 5404319552844595 (-53) Hwv) as T6.
  pose proof (ge_threshold_mono w v 6305039478318694 (-53) Hwv) as T7.
  pose proof (ge_threshold_mono w v 7205759403792794 (-53) Hwv) as T8.
  fold n0_4 in T4; fold n0_6 in T6; fold n0_7 in T7; fold n0_8 in T8.
  unfold getValueClass, getStatusClass. split.
  - clear T6 T8.
    destruct (ge v n0_7) eqn:V7; destruct (ge v n0_4) eqn:V4;
      destruct (ge w n0_7) eqn:W7; destruct (ge w n0_4) eqn:W4;
      try (specialize (T7 eq_refl); discriminate T7);
      try (specialize (T4 eq_refl); discriminate T4);
      repeat split; intros; try reflexivity; try literals;
      try (intros K; literals).
  - clear T7.
    destruct (ge v n0_8) eqn:V8; destruct (ge v n0_6) eqn:V6;
      destruct (ge v n0_4) eqn:V4;
      destruct (ge w n0_8) eqn:W8; destruct (ge w n0_6) eqn:W6;
      destruct (ge w n0_4) eqn:W4;
      try (specialize (T8 eq_refl); discriminate T8);
      try (specialize (T6 eq_refl); discriminate T6);
      try (specialize (T4 eq_refl); discriminate T4);
      repeat split; intros; try reflexivity; try literals;
      try (intros K; literals); auto.
Qed.

Lemma tiers_monotone_witness :
  ge n0_82 n0_643 = true
  /\ (getStatusClass n0_643 = lit "status-good"
      -> getStatusClass n0_82 = lit "status-good"
         \/ getStatusClass n0_82 = lit "status-excellent").
Proof.
  split; [reflexivity |].
  apply (tiers_monotone n0_643 n0_82). reflexivity.
Defined.

(** X2. The colour of a value and its status agree: the value is [low]
    exactly when the status is Poor, a status of Excellent goes with [high],
    [high] goes with Excellent or Good, and [medium] with Good or Fair. *)
Theorem value_class_and_status (v : number) :
  (getValueClass v = lit "low" <-> getStatusClass v = lit "status-poor")
  /\ (getStatusClass v = lit "status-excellent" -> getValueClass v = lit "high")
  /\ (getValueClass v = lit "high"
      -> getStatusClass v = lit "status-excellent"
         \/ getStatusClass v = lit "status-good")
  /\ (getValueClass v = lit "medium"
      -> getStatusClass v = lit "status-good"
         \/ getStatusClass v = lit "status-fair").
Proof.
  pose proof (ge_0_8_0_7 v) as M87. pose proof (ge_0_7_0_6 v) as M76.
  pose proof (ge_0_6_0_4 v) as M64.
  unfold getValueClass, getStatusClass.
  destruct (ge v n0_8) eqn:V8; destruct (ge v n0_7) eqn:V7;
    destruct (ge v n0_6) eqn:V6; destruct (ge v n0_4) eqn:V4;
    try (specialize (M87 eq_refl); discriminate M87);
    try (specialize (M76 eq_refl); discriminate M76);
    try (specialize (M64 eq_refl); discriminate M64);
    repeat split; intros; try reflexivity; try literals; auto.
Qed.

(** ** The sections of the report on any input *)

Section Sections.

Context `{Engine}.

Lemma metricCard_shape (metric : descriptor) (macro operator : value)
  (n : node) :
  metricCard metric macro operator = Normal n ->
  exists html, n = Div (lit "metric-card") html.
Proof.
  unfold metricCard.
  destruct (get macro (key metric)) as [value |]; cbn [and_then];
    [| discriminate].
  destruct (classify getValueClass value) as [valueClass |]; cbn [and_then];
    [| discriminate].
  destruct (toFixed value 3) as [fixed |]; cbn [and_then]; [| discriminate].
  destruct (ToString operator) as [label |]; cbn [and_then]; [| discriminate].
  intros K. injection K as <-. eexists. reflexivity.
Qed.

Lemma children_of_closed (html closing : jsstring) :
  closing <> [] -> children_of (html ++ closing) = [Parsed (html ++ closing)].
Proof.
  intros K. destruct (html ++ closing) eqn:E; [| reflexivity].
  apply app_eq_nil in E. destruct E as [_ E]. contradiction.
Qed.

End Sections.

(** X3. Whatever it is given, [displayMacroMetrics] leaves in the macro
    section nothing but [metric-card] elements, at most four, and leaves four
    exactly when it returns without raising: what the section held before is
    gone, and a metric that is missing or no number stops the cards at that
    metric.  The other containers and the modal are not touched. *)
Theorem macro_section_shape `{Engine} (macro operator : value) (r : report) :
  Forall (fun n => exists html, n = Div (lit "metric-card") html)
         (macroMetrics (snd (displayMacroMetrics macro operator r)))
  /\ (length (macroMetrics (snd (displayMacroMetrics macro operator r))) <= 4)%nat
  /\ (fst (displayMacroMetrics macro operator r) = Normal tt
      <-> length (macroMetrics (snd (displayMacroMetrics macro operator r)))
          = 4%nat)
  /\ plotsContainer (snd (displayMacroMetrics macro operator r))
     = plotsContainer r
  /\ detailedMetrics (snd (displayMacroMetrics macro operator r))
     = detailedMetrics r
  /\ metricsInfo (snd (displayMacroMetrics macro operator r)) = metricsInfo r
  /\ metricsModal (snd (displayMacroMetrics macro operator r)) = metricsModal r.
Proof.
  unfold displayMacroMetrics, metrics. cbn [for_each].
  unfold bind, lift, set_macroMetrics, modify, ret.
  cbv beta iota.
  destruct (metricCard (Build_descriptor "precision" _ _) macro operator)
    as [n1 | e1] eqn:K1;
    [apply metricCard_shape in K1; destruct K1 as [h1 ->] |];
    cbv beta iota;
    cbn [fst snd macroMetrics plotsContainer detailedMetrics metricsInfo
         metricsModal children_of appendChild app length];
    [| repeat split; try constructor; try lia; discriminate].
  destruct (metricCard (Build_descriptor "recall" _ _) macro operator)
    as [n2 | e2] eqn:K2;
    [apply metricCard_shape in K2; destruct K2 as [h2 ->] |];
    cbv beta iota;
    cbn [fst snd macroMetrics plotsContainer detailedMetrics metricsInfo
         metricsModal children_of appendChild app length];
    [| repeat split; repeat constructor; eauto; try lia; discriminate].
  destruct (metricCard (Build_descriptor "f_measure" _ _) macro operator)
    as [n3 | e3] eqn:K3;
    [apply metricCard_shape in K3; destruct K3 as [h3 ->] |];
    cbv beta iota;
    cbn [fst snd macroMetrics plotsContainer detailedMetrics metricsInfo
         metricsModal children_of appendChild app length];
    [| repeat split; repeat constructor; eauto; try lia; discriminate].
  destruct (metricCard (Build_descriptor "accuracy" _ _) macro operator)
    as [n4 | e4] eqn:K4;
    [apply metricCard_shape in K4; destruct K4 as [h4 ->] |];
    cbv beta iota;
    cbn [fst snd macroMetrics plotsContainer detailedMetrics metricsInfo
         metricsModal children_of appendChild app length];
    repeat split; repeat constructor; eauto; try lia; discriminate.
Qed.

(** X4. [displayDetailedMetrics] replaces the detailed section as a whole or
    not at all: when it raises (the mapping is [null] or [undefined], or an
    entry cannot be rendered) the whole report is as it was, with no
    half-built table; when it returns, the section holds one piece of markup
    and nothing else of the report has changed. *)
Theorem detailed_section_all_or_nothing `{Engine}
  (perQueryMetrics operator : value) (r : report) :
  (forall error,
     fst (displayDetailedMetrics perQueryMetrics operator r) = Throw error ->
     snd (displayDetailedMetrics perQueryMetrics operator r) = r)
  /\ (fst (displayDetailedMetrics perQueryMetrics operator r) = Normal tt ->
      exists html,
        snd (displayDetailedMetrics perQueryMetrics operator r)
        = {| macroMetrics := macroMetrics r;
             plotsContainer := plotsContainer r;
             detailedMetrics := [Parsed html];
             metricsInfo := metricsInfo r;
             metricsModal := metricsModal r |}).
Proof.
  unfold displayDetailedMetrics, bind, lift, set_detailedMetrics, modify.
  destruct (Object_keys perQueryMetrics) as [keys | e0]; cbv beta iota;
    [| split; [reflexivity | discriminate]].
  destruct (length keys =? 0)%nat; cbv beta iota; cbn [fst snd].
  - split; [discriminate |]. intros _. eexists.
    replace (children_of (lit "<p>Нет данных для отображения</p>"))
      with [Parsed (lit "<p>Нет данных для отображения</p>")]
      by (vm_compute; reflexivity).
    reflexivity.
  - destruct (Object_entries perQueryMetrics) as [entries | e1];
      cbv beta iota; [| split; [reflexivity | discriminate]].
    destruct (tableRows entries tableHead) as [tableHTML | e2];
      cbv beta iota; cbn [fst snd]; [| split; [reflexivity | discriminate]].
    split; [discriminate |]. intros _. eexists.
    rewrite children_of_closed by (vm_compute; discriminate).
    reflexivity.
Qed.

(** X5. A mapping with no entry of its own, be it an empty object, an empty
    array, an empty string, a boolean or a number, is shown as the no-data
    notice; [null] and [undefined] make [displayDetailedMetrics] raise, with
    the report untouched. *)
Theorem detailed_without_entries `{Engine}
  (b : bool) (x : number) (operator : value) (r : report) :
  (forall v,
     In v [VObject []; VArray []; VString []; VBool b; VNumber x] ->
     displayDetailedMetrics v operator r
     = (Normal tt,
        {| macroMetrics := macroMetrics r;
           plotsContainer := plotsContainer r;
           detailedMetrics := [Parsed (lit "<p>Нет данных для отображения</p>")];
           metricsInfo := metricsInfo r;
           metricsModal := metricsModal r |}))
  /\ (forall v,
        In v [VNull; VUndefined] ->
        displayDetailedMetrics v operator r = (Throw (TypeError NotAnObject), r)).
Proof.
  split; intros v Hv; cbn [In] in Hv;
    repeat (destruct Hv as [<- | Hv]); try contradiction;
    vm_compute; reflexivity.
Qed.

Section Rows.

Context `{Engine}.

Lemma peel_piece (piece rest tail : jsstring) :
  (exists before, Normal rest = Normal (before ++ tail)) ->
  exists before, Normal (piece ++ rest) = Normal (before ++ tail).
Proof.
  intros [before E]. injection E as ->.
  exists (piece ++ before). now rewrite app_assoc.
Qed.

Lemma peel_last (piece tail : jsstring) :
  exists before, Normal (piece ++ tail) = Normal (before ++ tail).
Proof. exists piece. reflexivity. Qed.

End Rows.

(** X6. The row of a well-formed entry ends with the cell of the three counts,
    printed and joined by slashes, and the status cell, whose class and text
    are those of the entry's F-measure and of nothing else. *)
Theorem row_counts_and_status `{Engine}
  (query : jsstring) (queryMetrics : value) (tp fp fn f : number)
  (Hmetrics : isQueryMetrics queryMetrics = true)
  (Htp : get queryMetrics "true_positive" = Normal (VNumber tp))
  (Hfp : get queryMetrics "false_positive" = Normal (VNumber fp))
  (Hfn : get queryMetrics "false_negative" = Normal (VNumber fn))
  (Hf : get queryMetrics "f_measure" = Normal (VNumber f)) :
  exists before,
    tableRow query queryMetrics
    = Normal
        (before
         ++ markup "</td>
                    <td>"
         ++ (Number_toString tp ++ lit "/" ++ Number_toString fp
             ++ lit "/" ++ Number_toString fn)
         ++ markup "</td>
                    <td class='status-cell "
         ++ getStatusClass f
         ++ markup "'>"
         ++ getStatusText f
         ++ markup "</td>
                </tr>
            ").
Proof.
  apply isQueryMetrics_inv in Hmetrics. destruct Hmetrics as (K & _).
  apply isMetricSet_inv in K.
  destruct K as (p & r & f' & a & (Hp & Hr & Hf' & Ha) & _).
  assert (f' = f) as -> by congruence.
  unfold tableRow, metricCell.
  rewrite Htp, Hfp, Hfn, Hp, Hr, Hf, Ha.
  cbn [and_then classify ToNumber toFixed ToString fst snd].
  Opaque lit markup.
  do 19 apply peel_piece. apply peel_last.
  Transparent lit markup.
Qed.

Lemma row_counts_and_status_witness :
  exists before,
    @tableRow scenario_engine (lit "q1") q1
    = Normal
        (before
         ++ markup "</td>
                    <td>"
         ++ (lit "9" ++ lit "/" ++ lit "1" ++ lit "/" ++ lit "9")
         ++ markup "</td>
                    <td class='status-cell "
         ++ lit "status-good"
         ++ markup "'>"
         ++ lit "Хорошо"
         ++ markup "</td>
                </tr>
            ").
Proof.
  destruct (@row_counts_and_status scenario_engine (lit "q1") q1 n9 n1 n9 n0_643)
    as (before & Hrow); try (vm_compute; reflexivity).
  exists before. rewrite Hrow. vm_compute. reflexivity.
Defined.

Lemma displayPlots_panels `{Engine}
  (plots operator precision_recall metrics_comparison : value)
  (label image1 image2 : jsstring) (r : report)
  (Hpr : get plots "precision_recall" = Normal precision_recall)
  (Hmc : get plots "metrics_comparison" = Normal metrics_comparison)
  (Hlabel : ToString operator = Normal label)
  (Himage1 : ToString precision_recall = Normal image1)
  (Himage2 : ToString metrics_comparison = Normal image2) :
  exists html1 html2,
    precisionRecallPlot plots operator
    = Normal (Div (lit "plot-container") html1)
    /\ metricsComparisonPlot plots operator
       = Normal (Div (lit "plot-container") html2)
    /\ displayPlots plots operator r
       = (Normal tt,
          {| macroMetrics := macroMetrics r;
             plotsContainer :=
               (if ToBoolean precision_recall
                then [Div (lit "plot-container") html1] else [])
               ++ (if ToBoolean metrics_comparison
                   then [Div (lit "plot-container") html2] else []);
             detailedMetrics := detailedMetrics r;
             metricsInfo := metricsInfo r;
             metricsModal := metricsModal r |}).
Proof.
  assert (E1 : exists html1,
            precisionRecallPlot plots operator
            = Normal (Div (lit "plot-container") html1)).
  { unfold precisionRecallPlot. rewrite Hlabel; cbn [and_then].
    rewrite Hpr; cbn [and_then]. rewrite Himage1; cbn [and_then].
    eexists. reflexivity. }
  assert (E2 : exists html2,
            metricsComparisonPlot plots operator
            = Normal (Div (lit "plot-container") html2)).
  { unfold metricsComparisonPlot. rewrite Hlabel; cbn [and_then].
    rewrite Hmc; cbn [and_then]. rewrite Himage2; cbn [and_then].
    eexists. reflexivity. }
  destruct E1 as [html1 E1], E2 as [html2 E2].
  exists html1, html2. split; [exact E1 |]. split; [exact E2 |].
  unfold displayPlots, bind, lift, set_plotsContainer, modify, ret.
  rewrite Hpr, Hmc, E1, E2. cbv beta iota.
  destruct (ToBoolean precision_recall), (ToBoolean metrics_comparison);
    cbv beta iota;
    cbn [fst snd macroMetrics plotsContainer detailedMetrics metricsInfo
         metricsModal children_of appendChild app];
    reflexivity.
Qed.

(** X7. [displayPlots] empties the plot container and then adds a panel for
    each of the two plots that is present (truthy), the precision-recall
    panel before the comparison panel; a plot that is absent, [null] or the
    empty string gets no panel and no placeholder. *)
Theorem plot_panels `{Engine}
  (plots operator precision_recall metrics_comparison : value)
  (label image1 image2 : jsstring) (r : report)
  (Hpr : get plots "precision_recall" = Normal precision_recall)
  (Hmc : get plots "metrics_comparison" = Normal metrics_comparison)
  (Hlabel : ToString operator = Normal label)
  (Himage1 : ToString precision_recall = Normal image1)
  (Himage2 : ToString metrics_comparison = Normal image2) :
  exists html1 html2,
    precisionRecallPlot plots operator
    = Normal (Div (lit "plot-container") html1)
    /\ metricsComparisonPlot plots operator
       = Normal (Div (lit "plot-container") html2)
    /\ displayPlots plots operator r
       = (Normal tt,
          {| macroMetrics := macroMetrics r;
             plotsContainer :=
               (if ToBoolean precision_recall
                then [Div (lit "plot-container") html1] else [])
               ++ (if ToBoolean metrics_comparison
                   then [Div (lit "plot-container") html2] else []);
             detailedMetrics := detailedMetrics r;
             metricsInfo := metricsInfo r;
             metricsModal := metricsModal r |}).
Proof.
  now apply (displayPlots_panels plots operator precision_recall
               metrics_comparison label image1 image2 r).
Qed.

Lemma plot_panels_witness :
  length
    (plotsContainer
       (snd (@displayPlots scenario_engine
               (object [("precision_recall"%string, VString (lit "iVBORw0KGgo="))])
               (VString (lit "AND")) (content idle))))
  = 1%nat.
Proof.
  destruct (@plot_panels scenario_engine
              (object [("precision_recall"%string, VString (lit "iVBORw0KGgo="))])
              (VString (lit "AND")) (VString (lit "iVBORw0KGgo=")) VUndefined
              (lit "AND") (lit "iVBORw0KGgo=") (lit "undefined") (content idle))
    as (html1 & html2 & _ & _ & Hplots); [vm_compute; reflexivity .. |].
  rewrite Hplots. reflexivity.
Defined.

(** ** The metrics' documentation and its modal *)

Section Documentation.

Context `{Engine}.

Lemma metricsInfo_loop_step (entry : jsstring * value)
  (rest : list (jsstring * value)) (r : report) :
  for_each (entry :: rest)
    (fun entry =>
       bind (lift (metricInfo (snd entry)))
            (fun metricDiv => set_metricsInfo (appendChild metricDiv))) r
  = match metricInfo (snd entry) with
    | Normal node =>
      for_each rest
        (fun entry =>
           bind (lift (metricInfo (snd entry)))
                (fun metricDiv => set_metricsInfo (appendChild metricDiv)))
        {| macroMetrics := macroMetrics r;
           plotsContainer := plotsContainer r;
           detailedMetrics := detailedMetrics r;
           metricsInfo := appendChild node (metricsInfo r);
           metricsModal := metricsModal r |}
    | Throw error => (Throw error, r)
    end.
Proof.
  cbn [for_each]. unfold bind at 1. unfold bind at 1. unfold lift at 1.
  destruct (metricInfo (snd entry)); reflexivity.
Qed.

(** The loop of [displayMetricsInfo] over the entries: it touches the
    documentation container only, and when it completes it has appended the
    element of each entry, in order. *)
Lemma metricsInfo_loop (entries : list (jsstring * value)) :
  forall r : report,
    let out :=
      for_each entries
        (fun entry =>
           bind (lift (metricInfo (snd entry)))
                (fun metricDiv => set_metricsInfo (appendChild metricDiv))) r in
    (macroMetrics (snd out) = macroMetrics r
     /\ plotsContainer (snd out) = plotsContainer r
     /\ detailedMetrics (snd out) = detailedMetrics r
     /\ metricsModal (snd out) = metricsModal r)
    /\ (fst out = Normal tt ->
        exists nodes,
          Forall2 (fun entry node => metricInfo (snd entry) = Normal node)
                  entries nodes
          /\ metricsInfo (snd out) = metricsInfo r ++ nodes).
Proof.
  induction entries as [| entry rest IH]; intros r out; subst out.
  - cbn. split; [auto |]. intros _. exists []. split; [constructor |].
    now rewrite app_nil_r.
  - rewrite metricsInfo_loop_step.
    destruct (metricInfo (snd entry)) as [node | error] eqn:K.
    + specialize (IH {| macroMetrics := macroMetrics r;
                        plotsContainer := plotsContainer r;
                        detailedMetrics := detailedMetrics r;
                        metricsInfo := appendChild node (metricsInfo r);
                        metricsModal := metricsModal r |}).
      cbv zeta in IH.
      cbn [macroMetrics plotsContainer detailedMetrics metricsModal
           metricsInfo] in IH.
      destruct IH as (Hframe & Hnodes). split; [exact Hframe |].
      intros Hn. destruct (Hnodes Hn) as (nodes & Hall & Heq).
      exists (node :: nodes). split; [constructor; assumption |].
      rewrite Heq. unfold appendChild. now rewrite <- app_assoc.
    + cbn [fst snd]. split; [auto | discriminate].
Qed.

Lemma displayMetricsInfo_steps (info : value) (r : report) :
  displayMetricsInfo info r
  = match Object_entries info with
    | Throw error =>
      (Throw error,
       {| macroMetrics := macroMetrics r;
          plotsContainer := plotsContainer r;
          detailedMetrics := detailedMetrics r;
          metricsInfo := [];
          metricsModal := metricsModal r |})
    | Normal entries =>
      match
        for_each entries
          (fun entry =>
             bind (lift (metricInfo (snd entry)))
                  (fun metricDiv => set_metricsInfo (appendChild metricDiv)))
          {| macroMetrics := macroMetrics r;
             plotsContainer := plotsContainer r;
             detailedMetrics := detailedMetrics r;
             metricsInfo := [];
             metricsModal := metricsModal r |}
      with
      | (Normal _, r1) =>
        (Normal tt,
         {| macroMetrics := macroMetrics r1;
            plotsContainer := plotsContainer r1;
            detailedMetrics := detailedMetrics r1;
            metricsInfo := metricsInfo r1;
            metricsModal := classList_remove (metricsModal r1) "hidden" |})
      | (Throw error, r1) => (Throw error, r1)
      end
    end.
Proof.
  unfold displayMetricsInfo.
  unfold bind at 1. unfold set_metricsInfo at 1, modify at 1. cbv beta iota.
  unfold bind at 1. unfold lift at 1.
  destruct (Object_entries info) as [entries | error0]; cbv beta iota;
    [| reflexivity].
  unfold bind at 1. cbn [children_of].
  destruct (for_each entries _ _) as [[[] | error1] r1]; reflexivity.
Qed.

Lemma displayMetricsInfo_facts (info : value) (r : report) :
  (macroMetrics (snd (displayMetricsInfo info r)) = macroMetrics r
   /\ plotsContainer (snd (displayMetricsInfo info r)) = plotsContainer r
   /\ detailedMetrics (snd (displayMetricsInfo info r)) = detailedMetrics r)
  /\ (forall error,
        fst (displayMetricsInfo info r) = Throw error ->
        metricsModal (snd (displayMetricsInfo info r)) = metricsModal r)
  /\ (fst (displayMetricsInfo info r) = Normal tt ->
      visible (metricsModal (snd (displayMetricsInfo info r))) = true
      /\ exists entries,
           Object_entries info = Normal entries
           /\ Forall2 (fun entry node => metricInfo (snd entry) = Normal node)
                      entries
                      (metricsInfo (snd (displayMetricsInfo info r)))).
Proof.
  rewrite displayMetricsInfo_steps.
  destruct (Object_entries info) as [entries | error0].
  - pose proof (metricsInfo_loop entries
                  {| macroMetrics := macroMetrics r;
                     plotsContainer := plotsContainer r;
                     detailedMetrics := detailedMetrics r;
                     metricsInfo := [];
                     metricsModal := metricsModal r |}) as L.
    cbv zeta in L.
    cbn [macroMetrics plotsContainer detailedMetrics metricsModal metricsInfo]
      in L.
    destruct (for_each entries _ _) as [[[] | error1] r1];
      cbn [fst snd] in L; destruct L as ((F1 & F2 & F3 & F4) & Hnodes);
      cbn [fst snd macroMetrics plotsContainer detailedMetrics metricsModal
           metricsInfo].
    + split; [auto |]. split; [discriminate |]. intros _.
      split; [apply visible_remove |].
      exists entries. split; [reflexivity |].
      destruct (Hnodes eq_refl) as (nodes & Hall & Heq).
      rewrite Heq. exact Hall.
    + split; [auto |]. split; [intros; exact F4 | discriminate].
  - cbn [fst snd macroMetrics plotsContainer detailedMetrics metricsModal].
    split; [auto |]. split; [reflexivity | discriminate].
Qed.

End Documentation.

(** X8. [displayMetricsInfo] opens the modal only after it has rendered every
    entry: when it raises (the answer is [null], or an entry is) the modal's
    classes are as they were, and when it returns the modal is shown and the
    documentation container holds the element of each entry, in the order of
    the entries.  The three sections of the report are never touched. *)
Theorem documentation_then_modal `{Engine} (info : value) (r : report) :
  (macroMetrics (snd (displayMetricsInfo info r)) = macroMetrics r
   /\ plotsContainer (snd (displayMetricsInfo info r)) = plotsContainer r
   /\ detailedMetrics (snd (displayMetricsInfo info r)) = detailedMetrics r)
  /\ (forall error,
        fst (displayMetricsInfo info r) = Throw error ->
        metricsModal (snd (displayMetricsInfo info r)) = metricsModal r)
  /\ (fst (displayMetricsInfo info r) = Normal tt ->
      visible (metricsModal (snd (displayMetricsInfo info r))) = true
      /\ exists entries,
           Object_entries info = Normal entries
           /\ Forall2 (fun entry node => metricInfo (snd entry) = Normal node)
                      entries
                      (metricsInfo (snd (displayMetricsInfo info r)))).
Proof. apply displayMetricsInfo_facts. Qed.

Section Lookup.

Context `{Engine}.

Lemma showMetricsInfo_parts (network : answer) (d : document) :
  showMetricsInfo network d
  = showMetricsInfo_settled network (snd (showMetricsInfo_clicked d)).
Proof.
  unfold showMetricsInfo, showMetricsInfo_settled, showMetricsInfo_received,
    showMetricsInfo_clicked, try_catch, fetch.
  unfold bind at 1. cbn [in_view modify fst snd view content]. reflexivity.
Qed.

(** What the part of the handler before the [catch] leaves: the panels as
    they were, and the modal shown if it completed, as it was if not. *)
Lemma received_facts (network : answer) (d : document) :
  view (snd (showMetricsInfo_received network d)) = view d
  /\ (fst (showMetricsInfo_received network d) = Normal tt ->
      visible (metricsModal (content (snd (showMetricsInfo_received network d))))
      = true)
  /\ (forall error,
        fst (showMetricsInfo_received network d) = Throw error ->
        metricsModal (content (snd (showMetricsInfo_received network d)))
        = metricsModal (content d)).
Proof.
  split; [apply view_received |].
  unfold showMetricsInfo_received, await, bind, lift, in_content.
  destruct network as [[info | error0] | error0]; cbv beta iota;
    try (cbn [fst snd]; split; [discriminate | reflexivity]).
  destruct (displayMetricsInfo_facts info (content d)) as (_ & Hraise & Hopen).
  destruct (displayMetricsInfo info (content d)) as [[[] | error1] r1];
    cbn [fst snd content] in *.
  - split; [intros _; now apply Hopen | discriminate].
  - split; [discriminate | intros error _; now apply (Hraise error1)].
Qed.

End Lookup.

(** X9. [showMetricsInfo] never raises, sends one [GET] of the documentation
    and never changes the classes of the loading indicator or of the results.
    Either it renders the documentation and shows the modal, leaving the
    error banner alone, or it shows the error banner with one fixed text,
    whatever went wrong, and leaves the modal as it was.  A rejected request
    or an unreadable body always ends the second way. *)
Theorem showMetricsInfo_outcome `{Engine} (network : answer) (d : document) :
  let d' := snd (showMetricsInfo network d) in
  fst (showMetricsInfo network d) = Normal tt
  /\ loadingElement (view d') = loadingElement (view d)
  /\ resultsElement (view d') = resultsElement (view d)
  /\ ((visible (metricsModal (content d')) = true
       /\ errorMessageElement (view d') = errorMessageElement (view d)
       /\ errorMessage_textContent (view d') = errorMessage_textContent (view d)
       /\ history (view d')
          = history (view d)
            ++ [Requested (lit "GET") (lit "/api/metrics/details") None])
      \/ (metricsModal (content d') = metricsModal (content d)
          /\ shown ErrorBanner d' = true
          /\ errorMessage_textContent (view d')
             = lit "Ошибка при загрузке информации о метриках"
          /\ history (view d')
             = history (view d)
               ++ [ Requested (lit "GET") (lit "/api/metrics/details") None;
                    Shown ErrorBanner ]))
  /\ (forall text,
        network = Throw (Rejection text)
        \/ network = Normal (Throw (Rejection text)) ->
        errorMessage_textContent (view d')
        = lit "Ошибка при загрузке информации о метриках").
Proof.
  intros d'. subst d'. rewrite showMetricsInfo_parts.
  set (d1 := snd (showMetricsInfo_clicked d)).
  assert (Hd1 : view d1 = record (Requested (lit "GET")
                                    (lit "/api/metrics/details") None) (view d)
                /\ content d1 = content d).
  { subst d1. unfold showMetricsInfo_clicked, fetch.
    cbn [in_view modify fst snd view content]. split; reflexivity. }
  destruct Hd1 as (Hv1 & Hc1).
  destruct (received_facts network d1) as (Hview & Hopen & Hraise).
  assert (Hrejected : forall text,
            network = Throw (Rejection text)
            \/ network = Normal (Throw (Rejection text)) ->
            exists error, fst (showMetricsInfo_received network d1) = Throw error).
  { intros text [-> | ->]; eexists; reflexivity. }
  unfold showMetricsInfo_settled, try_catch.
  destruct (showMetricsInfo_received network d1) as [[[] | error] d2];
    cbn [fst snd] in *.
  - split; [reflexivity |]. rewrite Hview, Hv1.
    cbn [record loadingElement resultsElement errorMessageElement
         errorMessage_textContent history].
    split; [reflexivity |]. split; [reflexivity |]. split.
    + left. repeat split. now apply Hopen.
    + intros text K. destruct (Hrejected text K) as [error K']. discriminate K'.
  - unfold in_view, showError, bind, lift.
    cbn [text_of ToString modify fst snd view content shown].
    rewrite Hview, Hv1, (Hraise error eq_refl), Hc1.
    cbn [record loadingElement resultsElement errorMessageElement
         errorMessage_textContent history].
    split; [reflexivity |]. split; [reflexivity |]. split; [reflexivity |].
    split.
    + right. rewrite visible_remove, <- app_assoc. repeat split.
    + intros; reflexivity.
Qed.

(** ** One evaluation from start to end *)

Section Evaluation.

Context `{Engine}.

(** [displayResults] step by step: the three sections are rendered one after
    the other, and the results are shown after the last. *)
Lemma displayResults_steps (metrics plots operator : value) (d : document) :
  displayResults metrics plots operator d
  = match get metrics "macro" with
    | Throw error => (Throw error, d)
    | Normal macro =>
      match displayMacroMetrics macro operator (content d) with
      | (Throw error, r1) => (Throw error, {| view := view d; content := r1 |})
      | (Normal _, r1) =>
        match displayPlots plots operator r1 with
        | (Throw error, r2) => (Throw error, {| view := view d; content := r2 |})
        | (Normal _, r2) =>
          match get metrics "per_query" with
          | Throw error => (Throw error, {| view := view d; content := r2 |})
          | Normal per_query =>
            match displayDetailedMetrics per_query operator r2 with
            | (Throw error, r3) =>
              (Throw error, {| view := view d; content := r3 |})
            | (Normal _, r3) =>
              (Normal tt,
               {| view := snd (showResults (view d)); content := r3 |})
            end
          end
        end
      end
    end.
Proof.
  unfold displayResults.
  unfold bind at 1. unfold lift at 1.
  destruct (get metrics "macro") as [macro | e0]; [| reflexivity].
  unfold bind at 1. unfold in_content at 1.
  destruct (displayMacroMetrics macro operator (content d)) as [[[] | e1] r1];
    [| reflexivity].
  unfold bind at 1. unfold in_content at 1. cbn [view content].
  destruct (displayPlots plots operator r1) as [[[] | e2] r2]; [| reflexivity].
  unfold bind at 1. unfold lift at 1.
  destruct (get metrics "per_query") as [per_query | e3]; [| reflexivity].
  unfold bind at 1. unfold in_content at 1. cbn [view content].
  destruct (displayDetailedMetrics per_query operator r2) as [[[] | e4] r3];
    reflexivity.
Qed.


Lemma after_error (text : jsstring) (v : panels) :
  errorMessage_textContent
    (snd (hideLoading (snd (showError (VString text) v)))) = text
  /\ visible (errorMessageElement
                (snd (hideLoading (snd (showError (VString text) v))))) = true
  /\ visible (loadingElement
                (snd (hideLoading (snd (showError (VString text) v))))) = false
  /\ resultsElement (snd (hideLoading (snd (showError (VString text) v))))
     = resultsElement v.
Proof.
  unfold showError, bind, lift.
  cbn [text_of ToString hideLoading modify fst snd record loadingElement
       resultsElement errorMessageElement errorMessage_textContent].
  rewrite visible_remove, visible_add. repeat split.
Qed.

Lemma after_results (v : panels) :
  visible (resultsElement (snd (hideLoading (snd (showResults v))))) = true
  /\ visible (loadingElement (snd (hideLoading (snd (showResults v))))) = false
  /\ errorMessageElement (snd (hideLoading (snd (showResults v))))
     = errorMessageElement v
  /\ errorMessage_textContent (snd (hideLoading (snd (showResults v))))
     = errorMessage_textContent v.
Proof.
  cbn [showResults hideLoading modify fst snd record loadingElement
       resultsElement errorMessageElement errorMessage_textContent].
  rewrite visible_remove, visible_add. repeat split.
Qed.

Lemma clicked_facts (d : document) :
  visible (resultsElement (view (snd (runEvaluation_clicked d)))) = false
  /\ visible (errorMessageElement (view (snd (runEvaluation_clicked d))))
     = false
  /\ errorMessage_textContent (view (snd (runEvaluation_clicked d)))
     = errorMessage_textContent (view d)
  /\ content (snd (runEvaluation_clicked d)) = content d.
Proof.
  unfold runEvaluation_clicked, fetch, bind.
  cbn [in_view showLoading hideResults hideError modify fst snd view content
       record loadingElement resultsElement errorMessageElement
       errorMessage_textContent].
  rewrite !visible_add. repeat split.
Qed.


End Evaluation.




(** X12. When [success] is falsy the error banner shows whatever [error]
    converts to as a text: the string itself, the digits of a number, and
    nothing at all when the answer has no [error] or a [null] one, in which
    case the banner is shown empty. *)
Theorem application_failure_text `{Engine}
  (data success error : value) (text : jsstring) (d : document)
  (Hsuccess : get data "success" = Normal success)
  (Hfalsy : ToBoolean success = false)
  (Herror : get data "error" = Normal error)
  (Htext : text_of error = Normal text) :
  let d' := snd (runEvaluation (Normal (Normal data)) d) in
  errorMessage_textContent (view d') = text
  /\ shown ErrorBanner d' = true
  /\ shown Results d' = false
  /\ shown Loading d' = false
  /\ (error = VUndefined \/ error = VNull -> text = []).
Proof.
  intros d'.
  assert (Hview :
    view d'
    = snd (hideLoading
             (snd (showError (VString text)
                     (view (snd (runEvaluation_clicked d))))))).
  { subst d'. rewrite runEvaluation_parts.
    generalize (snd (runEvaluation_clicked d)); intros d0.
    unfold runEvaluation_settled, try_finally, try_catch, await, bind, lift.
    rewrite Hsuccess; cbv beta iota. rewrite Hfalsy; cbv beta iota.
    rewrite Herror; cbv beta iota.
    unfold in_view, showError, bind, lift. rewrite Htext.
    cbn [text_of ToString modify fst snd view hideLoading]. reflexivity. }
  destruct (clicked_facts d) as (CR & _ & _ & _).
  destruct (after_error text (view (snd (runEvaluation_clicked d))))
    as (T & E & L & R).
  unfold shown. rewrite Hview, T, E, L, R, CR.
  repeat split.
  intros [-> | ->]; cbn [text_of] in Htext; congruence.
Qed.

Lemma application_failure_text_witness :
  errorMessage_textContent
    (view (snd (@runEvaluation scenario_engine
                  (Normal (Normal (object [("success"%string, VBool false)])))
                  idle)))
  = []
  /\ shown ErrorBanner
       (snd (@runEvaluation scenario_engine
               (Normal (Normal (object [("success"%string, VBool false)])))
               idle))
     = true.
Proof.
  destruct (@application_failure_text scenario_engine
              (object [("success"%string, VBool false)]) (VBool false)
              VUndefined [] idle)
    as (T & E & _); [vm_compute; reflexivity .. |].
  split; [exact T | exact E].
Defined.

(** X13. [displayResults] shows the results last: either the three sections
    were all rendered and the results are then shown, or it raised and the
    classes of the three panels and the text of the banner are as they were. *)
Theorem results_shown_last `{Engine}
  (metrics plots operator : value) (d : document) :
  (fst (displayResults metrics plots operator d) = Normal tt
   /\ view (snd (displayResults metrics plots operator d))
      = snd (showResults (view d))
   /\ shown Results (snd (displayResults metrics plots operator d)) = true)
  \/ (exists error,
        fst (displayResults metrics plots operator d) = Throw error
        /\ view (snd (displayResults metrics plots operator d)) = view d).
Proof.
  rewrite displayResults_steps.
  destruct (get metrics "macro") as [macro | e0];
    [| right; exists e0; split; reflexivity].
  destruct (displayMacroMetrics macro operator (content d)) as [[[] | e1] r1];
    [| right; exists e1; split; reflexivity].
  destruct (displayPlots plots operator r1) as [[[] | e2] r2];
    [| right; exists e2; split; reflexivity].
  destruct (get metrics "per_query") as [per_query | e3];
    [| right; exists e3; split; reflexivity].
  destruct (displayDetailedMetrics per_query operator r2) as [[[] | e4] r3];
    [| right; exists e4; split; reflexivity].
  left. split; [reflexivity |]. split; [reflexivity |].
  unfold shown.
  cbn [fst snd view showResults modify record resultsElement].
  apply visible_remove.
Qed.



Section Payloads.

Context `{Engine}.


End Payloads.



Section WellFormed.

Context `{Engine}.


End WellFormed.



(** ** The loading indicator between two turns *)

Section LoadingIndicator.

Context `{Engine}.

Lemma loading_after_settled (network : answer) (d : document) :
  shown Loading (snd (runEvaluation_settled network d)) = false.
Proof.
  unfold shown.
  destruct (runEvaluation_settled_view network d) as [_ [V | [text V]]];
    rewrite V.
  - now destruct (after_results (view d)) as (_ & L & _).
  - now destruct (after_error text (view d)) as (_ & _ & L & _).
Qed.

Lemma loading_after_lookup (network : answer) (d : document) :
  shown Loading (snd (showMetricsInfo_settled network d)) = shown Loading d.
Proof.
  destruct (fst (showMetricsInfo_received network d)) as [[] | error] eqn:K.
  - unfold shown. now rewrite (successful_lookup network d K).
  - now destruct (failed_lookup network d error K) as (_ & L & _).
Qed.

Lemma loading_tracks_step (i : input) (p p' : page) :
  loading_tracks p ->
  match i with
  | ClickRunEvaluation => (evaluations p =? 0)%nat
  | _ => true
  end = true ->
  react i p = Some p' ->
  loading_tracks p'.
Proof.
  intros I O R. destruct p as [d n l]. unfold loading_tracks in *.
  cbn [dom evaluations lookups] in *.
  destruct i as [| network | | network |];
    cbn [react dom evaluations lookups] in R.
  - apply Nat.eqb_eq in O. inversion R; subst; clear R.
    cbn [dom evaluations]. right.
    destruct (shown_clicked d) as (L & _). auto.
  - destruct n as [| n]; [discriminate R |]. inversion R; subst; clear R.
    cbn [dom evaluations].
    destruct I as [(I & _) | (I & _)]; [discriminate I |].
    left. injection I as ->. split; [reflexivity |].
    apply loading_after_settled.
  - inversion R; subst; clear R. cbn [dom evaluations]. exact I.
  - destruct l as [| l]; [discriminate R |]. inversion R; subst; clear R.
    cbn [dom evaluations]. rewrite loading_after_lookup. exact I.
  - inversion R; subst; clear R. cbn [dom evaluations]. exact I.
Qed.

Lemma loading_tracks_run (inputs : list input) :
  forall p p' : page,
    loading_tracks p -> one_at_a_time inputs p = true ->
    reactions inputs p = Some p' -> loading_tracks p'.
Proof.
  induction inputs as [| i rest IH]; cbn [one_at_a_time reactions];
    intros p p' I O R.
  - now inversion R; subst.
  - apply andb_prop in O. destruct O as [Oi Orest].
    destruct (react i p) as [p1 |] eqn:Ri; [| discriminate R].
    apply (IH p1 p'); [| assumption | assumption].
    now apply (loading_tracks_step i p).
Qed.

End LoadingIndicator.

(** X17. As long as an evaluation is started only while none is outstanding,
    the loading indicator is shown exactly while an evaluation is
    outstanding, whatever the look-ups of the documentation do in between:
    from a page with the indicator hidden and nothing outstanding, every
    state reached between two turns has at most one evaluation outstanding,
    and the indicator shown if and only if there is one. *)
Theorem loading_while_outstanding `{Engine}
  (d0 : document) (inputs : list input) (p : page)
  (Hhidden : shown Loading d0 = false)
  (Hone :
     one_at_a_time inputs {| dom := d0; evaluations := 0; lookups := 0 |}
     = true)
  (Hreached :
     reactions inputs {| dom := d0; evaluations := 0; lookups := 0 |}
     = Some p) :
  (evaluations p <= 1)%nat
  /\ (shown Loading (dom p) = true <-> evaluations p = 1%nat).
Proof.
  assert (I : loading_tracks p).
  { apply (loading_tracks_run inputs
             {| dom := d0; evaluations := 0; lookups := 0 |} p);
      try assumption.
    left. split; [reflexivity | exact Hhidden]. }
  destruct I as [(E & L) | (E & L)]; rewrite E, L; split; try lia;
    split; intros K; (discriminate K || reflexivity).
Qed.

Lemma loading_while_outstanding_witness :
  exists p : page,
    @reactions scenario_engine
      [ ClickRunEvaluation;
        ClickShowMetricsInfo;
        MetricsInfoSettles (Throw (Rejection (lit "Failed to fetch"))) ]
      at_load
    = Some p
    /\ (shown Loading (dom p) = true <-> evaluations p = 1%nat).
Proof.
  eexists. split; [vm_compute; reflexivity |].
  eapply (@loading_while_outstanding scenario_engine idle
            [ ClickRunEvaluation;
              ClickShowMetricsInfo;
              MetricsInfoSettles (Throw (Rejection (lit "Failed to fetch"))) ]);
    vm_compute; reflexivity.
Defined.

(** ** Classes other than [hidden], and the label of a query *)

Section Classes.

Context `{Engine}.

Lemma contains_add_other (c : classList) (token : string) :
  jsstring_eqb (lit token) (lit "hidden") = false ->
  contains (classList_add c "hidden") token = contains c token.
Proof.
  intros K. unfold classList_add.
  destruct (contains c "hidden"); [reflexivity |].
  unfold contains. rewrite existsb_app. cbn [existsb].
  rewrite K. now rewrite !orb_false_r.
Qed.

Lemma contains_remove_other (c : classList) (token : string) :
  jsstring_eqb (lit token) (lit "hidden") = false ->
  contains (classList_remove c "hidden") token = contains c token.
Proof.
  intros K. unfold contains, classList_remove.
  induction c as [| t c IH]; [reflexivity |].
  cbn [filter existsb].
  destruct (jsstring_eqb (lit "hidden") t) eqn:E; cbn [negb].
  - apply jsstring_eqb_eq in E. subst t. rewrite K. exact IH.
  - cbn [existsb]. now rewrite IH.
Qed.

Lemma classList_add_again (c : classList) (token : string) :
  classList_add (classList_add c token) token = classList_add c token.
Proof.
  unfold classList_add at 1. now rewrite contains_add.
Qed.

End Classes.

(** X18. Closing the modal hides it whatever its state and changes nothing
    else: the panels, the report and the rendered documentation stay, the
    other classes of the modal stay, and closing it again changes nothing at
    all. *)
Theorem closeModal_hides `{Engine} (d : document) :
  let d' := snd (closeModal d) in
  fst (closeModal d) = Normal tt
  /\ visible (metricsModal (content d')) = false
  /\ view d' = view d
  /\ (macroMetrics (content d') = macroMetrics (content d)
      /\ plotsContainer (content d') = plotsContainer (content d)
      /\ detailedMetrics (content d') = detailedMetrics (content d)
      /\ metricsInfo (content d') = metricsInfo (content d))
  /\ snd (closeModal d') = d'
  /\ (forall token,
        jsstring_eqb (lit token) (lit "hidden") = false ->
        contains (metricsModal (content d')) token
        = contains (metricsModal (content d)) token).
Proof.
  unfold closeModal, in_content, set_metricsModal, modify.
  cbn [fst snd view content macroMetrics plotsContainer detailedMetrics
       metricsInfo metricsModal].
  split; [reflexivity |]. split; [apply visible_add |].
  split; [reflexivity |]. split; [auto |]. split.
  - now rewrite classList_add_again.
  - intros token K. now apply contains_add_other.
Qed.

(** X19. [runEvaluation] toggles the class [hidden] and no other: whatever
    the answer, every other class of the loading indicator, of the results
    and of the error banner is there afterwards exactly if it was there
    before. *)
Theorem only_hidden_toggled `{Engine}
  (network : answer) (d : document) (token : string)
  (Hother : jsstring_eqb (lit token) (lit "hidden") = false) :
  let d' := snd (runEvaluation network d) in
  contains (loadingElement (view d')) token
  = contains (loadingElement (view d)) token
  /\ contains (resultsElement (view d')) token
     = contains (resultsElement (view d)) token
  /\ contains (errorMessageElement (view d')) token
     = contains (errorMessageElement (view d)) token.
Proof.
  intros d'. subst d'. rewrite runEvaluation_parts.
  assert (C : loadingElement (view (snd (runEvaluation_clicked d)))
              = classList_remove (loadingElement (view d)) "hidden"
              /\ resultsElement (view (snd (runEvaluation_clicked d)))
                 = classList_add (resultsElement (view d)) "hidden"
              /\ errorMessageElement (view (snd (runEvaluation_clicked d)))
                 = classList_add (errorMessageElement (view d)) "hidden").
  { unfold runEvaluation_clicked, fetch, bind.
    cbn [in_view showLoading hideResults hideError modify fst snd view content
         record loadingElement resultsElement errorMessageElement].
    repeat split. }
  destruct C as (CL & CR & CE).
  destruct (runEvaluation_settled_view network (snd (runEvaluation_clicked d)))
    as [_ [V | [text V]]]; rewrite V.
  - cbn [showResults hideLoading modify fst snd record loadingElement
         resultsElement errorMessageElement].
    rewrite CL, CR, CE.
    now rewrite !contains_add_other, !contains_remove_other,
      !contains_add_other by assumption.
  - unfold showError, bind, lift.
    cbn [text_of ToString hideLoading modify fst snd record loadingElement
         resultsElement errorMessageElement].
    rewrite CL, CR, CE.
    now rewrite !contains_add_other, !contains_remove_other,
      !contains_add_other by assumption.
Qed.

Lemma only_hidden_toggled_witness :
  contains
    (resultsElement
       (view (snd (@runEvaluation scenario_engine (Normal (Normal scenarioA))
                     {| view :=
                          {| loadingElement := [lit "hidden"];
                             resultsElement := [lit "panel"; lit "hidden"];
                             errorMessageElement := [lit "hidden"];
                             errorMessage_textContent := [];
                             history := [] |};
                        content := content idle |}))))
    "panel"
  = true.
Proof.
  destruct (@only_hidden_toggled scenario_engine (Normal (Normal scenarioA))
              {| view :=
                   {| loadingElement := [lit "hidden"];
                      resultsElement := [lit "panel"; lit "hidden"];
                      errorMessageElement := [lit "hidden"];
                      errorMessage_textContent := [];
                      history := [] |};
                 content := content idle |} "panel")
    as (_ & R & _); [vm_compute; reflexivity |].
  rewrite R. vm_compute. reflexivity.
Defined.

(** X20. Whatever the limit, the label [truncateText] returns begins with the
    same characters as the text, up to the limit, and is never longer than
    the limit plus the three of the ellipsis, nor longer than the text plus
    three. *)
Theorem truncateText_prefix (text : jsstring) (maxLength : nat) :
  firstn maxLength (truncateText text maxLength) = firstn maxLength text
  /\ (length (truncateText text maxLength) <= maxLength + 3)%nat
  /\ (length (truncateText text maxLength) <= length text + 3)%nat.
Proof.
  unfold truncateText.
  destruct (Nat.ltb_spec maxLength (length text)) as [L | L].
  - rewrite firstn_app, length_firstn, length_app, length_firstn.
    replace (maxLength - Nat.min maxLength (length text))%nat with 0%nat by lia.
    cbn [firstn]. rewrite app_nil_r, firstn_firstn, Nat.min_id.
    change (length (lit "...")) with 3%nat. repeat split; lia.
  - rewrite !firstn_all2 by lia. repeat split; lia.
Qed.

(** ** When a card or a row can be rendered *)

Section Renderable.

Context `{Engine}.

Lemma toFixed_number (v : value) (digits : nat) (text : jsstring) :
  toFixed v digits = Normal text -> exists x, v = VNumber x.
Proof. destruct v; cbn [toFixed]; intros K; try discriminate K. eauto. Qed.

Lemma metricCard_inv (metric : descriptor) (macro operator : value) (n : node) :
  metricCard metric macro operator = Normal n ->
  (exists x, get macro (key metric) = Normal (VNumber x))
  /\ exists label, ToString operator = Normal label.
Proof.
  unfold metricCard.
  destruct (get macro (key metric)) as [value |]; cbn [and_then];
    [| discriminate].
  destruct (classify getValueClass value) as [valueClass |]; cbn [and_then];
    [| discriminate].
  destruct (toFixed value 3) as [fixed |] eqn:F; cbn [and_then];
    [| discriminate].
  destruct (ToString operator) as [label |]; cbn [and_then]; [| discriminate].
  intros _. apply toFixed_number in F. destruct F as [x ->].
  split; eauto.
Qed.

Lemma metricCell_inv (queryMetrics : value) (key : string)
  (cell : jsstring * jsstring) :
  metricCell queryMetrics key = Normal cell ->
  exists x, get queryMetrics key = Normal (VNumber x).
Proof.
  unfold metricCell.
  destruct (get queryMetrics key) as [value |]; cbn [and_then];
    [| discriminate].
  destruct (classify getValueClass value) as [valueClass |]; cbn [and_then];
    [| discriminate].
  destruct (toFixed value 3) as [fixed |] eqn:F; cbn [and_then];
    [| discriminate].
  intros _. apply toFixed_number in F. destruct F as [x ->]. eauto.
Qed.

Lemma metricCell_number (queryMetrics : value) (key : string) (x : number) :
  get queryMetrics key = Normal (VNumber x) ->
  metricCell queryMetrics key
  = Normal (getValueClass x, Number_toFixed x 3).
Proof.
  intros K. unfold metricCell. rewrite K.
  cbn [and_then classify ToNumber toFixed]. reflexivity.
Qed.

End Renderable.

(** X21. [displayMacroMetrics] returns without raising exactly when each of
    the four metrics of its input is a number and the operator can be
    printed; in every other case it raises. *)
Theorem macro_renders_iff `{Engine} (macro operator : value) (r : report) :
  fst (displayMacroMetrics macro operator r) = Normal tt
  <-> (forall metric, In metric metrics ->
                      exists x, get macro (key metric) = Normal (VNumber x))
      /\ exists label, ToString operator = Normal label.
Proof.
  split.
  - unfold displayMacroMetrics, metrics. cbn [for_each].
    unfold bind, lift, set_macroMetrics, modify, ret. cbv beta iota.
    destruct (metricCard (Build_descriptor "precision" _ _) macro operator)
      as [n1 | e1] eqn:K1; cbv beta iota; [| discriminate].
    destruct (metricCard (Build_descriptor "recall" _ _) macro operator)
      as [n2 | e2] eqn:K2; cbv beta iota; [| discriminate].
    destruct (metricCard (Build_descriptor "f_measure" _ _) macro operator)
      as [n3 | e3] eqn:K3; cbv beta iota; [| discriminate].
    destruct (metricCard (Build_descriptor "accuracy" _ _) macro operator)
      as [n4 | e4] eqn:K4; cbv beta iota; [| discriminate].
    intros _.
    apply metricCard_inv in K1, K2, K3, K4.
    destruct K1 as (G1 & L), K2 as (G2 & _), K3 as (G3 & _), K4 as (G4 & _).
    split; [| exact L].
    intros metric Hin. cbn [In] in Hin.
    destruct Hin as [<- | [<- | [<- | [<- | []]]]]; assumption.
  - intros (Hall & label & Hlabel). unfold metrics in Hall.
    destruct (Hall _ (or_introl eq_refl)) as (p & Gp).
    destruct (Hall _ (or_intror (or_introl eq_refl))) as (q & Gq).
    destruct (Hall _ (or_intror (or_intror (or_introl eq_refl)))) as (f & Gf).
    destruct (Hall _ (or_intror (or_intror (or_intror (or_introl eq_refl)))))
      as (a & Ga).
    cbn [key] in Gp, Gq, Gf, Ga.
    now rewrite (displayMacroMetrics_cards macro operator label p q f a r).
Qed.

(** X22. A row of the detailed table can be rendered exactly when each of the
    four metrics of its entry is a number and each of the three counts can be
    printed; in every other case [tableRow] raises. *)
Theorem row_renders_iff `{Engine} (query : jsstring) (queryMetrics : value) :
  (exists row, tableRow query queryMetrics = Normal row)
  <-> (forall key,
         In key ["precision"; "recall"; "f_measure"; "accuracy"]%string ->
         exists x, get queryMetrics key = Normal (VNumber x))
      /\ (forall key,
            In key ["true_positive"; "false_positive"; "false_negative"]%string ->
            exists count text,
              get queryMetrics key = Normal count
              /\ ToString count = Normal text).
Proof.
  split.
  - intros [row K]. unfold tableRow in K.
    destruct (get queryMetrics "true_positive") as [v1 |] eqn:G1;
      cbn [and_then] in K; [| discriminate].
    destruct (ToString v1) as [t1 |] eqn:T1; cbn [and_then] in K;
      [| discriminate].
    destruct (get queryMetrics "false_positive") as [v2 |] eqn:G2;
      cbn [and_then] in K; [| discriminate].
    destruct (ToString v2) as [t2 |] eqn:T2; cbn [and_then] in K;
      [| discriminate].
    destruct (get queryMetrics "false_negative") as [v3 |] eqn:G3;
      cbn [and_then] in K; [| discriminate].
    destruct (ToString v3) as [t3 |] eqn:T3; cbn [and_then] in K;
      [| discriminate].
    destruct (get queryMetrics "f_measure") as [vf |] eqn:Gf;
      cbn [and_then] in K; [| discriminate].
    destruct (classify getStatusClass vf) as [statusClass |];
      cbn [and_then] in K; [| discriminate].
    destruct (classify getStatusText vf) as [statusText |];
      cbn [and_then] in K; [| discriminate].
    destruct (metricCell queryMetrics "precision") as [c1 |] eqn:C1;
      cbn [and_then] in K; [| discriminate].
    destruct (metricCell queryMetrics "recall") as [c2 |] eqn:C2;
      cbn [and_then] in K; [| discriminate].
    destruct (metricCell queryMetrics "f_measure") as [c3 |] eqn:C3;
      cbn [and_then] in K; [| discriminate].
    destruct (metricCell queryMetrics "accuracy") as [c4 |] eqn:C4;
      cbn [and_then] in K; [| discriminate].
    apply metricCell_inv in C1, C2, C3, C4.
    split; intros key Hin; cbn [In] in Hin.
    + destruct Hin as [<- | [<- | [<- | [<- | []]]]]; assumption.
    + destruct Hin as [<- | [<- | [<- | []]]]; eauto.
  - intros (Hmetrics & Hcounts).
    destruct (Hmetrics _ (or_introl eq_refl)) as (p & Gp).
    destruct (Hmetrics _ (or_intror (or_introl eq_refl))) as (r & Gr).
    destruct (Hmetrics _ (or_intror (or_intror (or_introl eq_refl))))
      as (f & Gf).
    destruct (Hmetrics _ (or_intror (or_intror (or_intror (or_introl eq_refl)))))
      as (a & Ga).
    destruct (Hcounts _ (or_introl eq_refl)) as (v1 & t1 & G1 & T1).
    destruct (Hcounts _ (or_intror (or_introl eq_refl)))
      as (v2 & t2 & G2 & T2).
    destruct (Hcounts _ (or_intror (or_intror (or_introl eq_refl))))
      as (v3 & t3 & G3 & T3).
    unfold tableRow.
    rewrite G1; cbn [and_then]. rewrite T1; cbn [and_then].
    rewrite G2; cbn [and_then]. rewrite T2; cbn [and_then].
    rewrite G3; cbn [and_then]. rewrite T3; cbn [and_then].
    rewrite Gf. cbn [and_then classify ToNumber].
    rewrite (metricCell_number _ _ p Gp), (metricCell_number _ _ r Gr),
      (metricCell_number _ _ f Gf), (metricCell_number _ _ a Ga).
    cbn [and_then]. eexists. reflexivity.
Qed.

Section Table.

Context `{Engine}.

Lemma tableRows_renders (entries : list (jsstring * value)) :
  forall tableHTML,
    (exists html, tableRows entries tableHTML = Normal html)
    <-> Forall (fun entry =>
                  exists row, tableRow (fst entry) (snd entry) = Normal row)
               entries.
Proof.
  induction entries as [| [query queryMetrics] rest IH]; intros tableHTML;
    cbn [tableRows].
  - split; [constructor | eexists; reflexivity].
  - destruct (tableRow query queryMetrics) as [row | error] eqn:K;
      cbn [and_then].
    + rewrite IH. split.
      * intros Hrest. constructor; [cbn [fst snd]; eauto | exact Hrest].
      * intros Hall. now inversion Hall.
    + split.
      * intros [html Hhtml]. discriminate Hhtml.
      * intros Hall. inversion Hall as [| ? ? [row Hrow] ?]; subst.
        cbn [fst snd] in Hrow. congruence.
Qed.

End Table.

(** X23. The detailed table of a mapping is rendered exactly when every one of
    its entries can be; a single entry that cannot makes
    [displayDetailedMetrics] raise. *)
Theorem table_renders_iff `{Engine}
  (entries : list (jsstring * value)) (operator : value) (r : report) :
  fst (displayDetailedMetrics (VObject entries) operator r) = Normal tt
  <-> Forall (fun entry =>
                exists row, tableRow (fst entry) (snd entry) = Normal row)
             entries.
Proof.
  unfold displayDetailedMetrics, bind, lift, set_detailedMetrics, modify.
  cbn [Object_keys Object_entries and_then]. rewrite length_map.
  destruct entries as [| entry rest]; cbn [length Nat.eqb]; cbv beta iota.
  - cbn [fst]. split; [constructor | reflexivity].
  - rewrite <- (tableRows_renders (entry :: rest) tableHead).
    destruct (tableRows (entry :: rest) tableHead) as [html | error];
      cbv beta iota; cbn [fst].
    + split; [eauto | reflexivity].
    + split; [discriminate |]. intros [html K]. discriminate K.
Qed.

(** * The markup as the page reads it *)

(** ** The tokenizer on the templates *)

Section Tokenizer.

Lemma advance_app (s : state) (a b : jsstring) :
  advance s (a ++ b)
  = match advance s a with
    | None => None
    | Some (s', emitted) =>
      match advance s' b with
      | None => None
      | Some (s'', later) => Some (s'', emitted ++ later)
      end
    end.
Proof.
  revert s; induction a as [| c a IH]; intros s; cbn [app advance].
  - destruct (advance s b) as [[s' later] |]; reflexivity.
  - destruct (step s c) as [[s1 e1] |]; [| reflexivity].
    rewrite IH. destruct (advance s1 a) as [[s2 e2] |]; [| reflexivity].
    destruct (advance s2 b) as [[s3 e3] |]; [| reflexivity].
    now rewrite app_assoc.
Qed.

Lemma plain_character_inv (c : N) :
  plain_character c = true ->
  (c =? 34)%N = false /\ (c =? 60)%N = false /\ rewritten c = false.
Proof.
  unfold plain_character. intros K. apply negb_true_iff in K.
  apply orb_false_iff in K. destruct K as [K K3].
  apply orb_false_iff in K. destruct K as [K1 K2]. auto.
Qed.

(** Plain characters read as text are so many character tokens. *)
Lemma advance_text (html : jsstring) :
  plain html = true -> advance Data html = Some (Data, characters html).
Proof.
  induction html as [| c html IH]; intros K; [reflexivity |].
  cbn [plain forallb] in K. apply andb_prop in K. destruct K as [Kc K].
  apply plain_character_inv in Kc. destruct Kc as (_ & K60 & Kr).
  cbn [advance step]. rewrite K60, Kr. rewrite (IH K). reflexivity.
Qed.

(** Plain characters read inside an attribute value stay in the value. *)
Lemma advance_value (html tag attribute written : jsstring)
  (attributes : list (jsstring * jsstring)) :
  plain html = true ->
  advance (AttributeValue tag attributes attribute written) html
  = Some (AttributeValue tag attributes attribute (written ++ html), []).
Proof.
  revert written; induction html as [| c html IH]; intros written K.
  - cbn [advance]. now rewrite app_nil_r.
  - cbn [plain forallb] in K. apply andb_prop in K. destruct K as [Kc K].
    apply plain_character_inv in Kc. destruct Kc as (K34 & _ & Kr).
    cbn [advance step]. rewrite K34, Kr. rewrite (IH _ K).
    now rewrite <- app_assoc.
Qed.

Lemma flatten_cons (p : piece) (pieces : list piece) :
  flatten (p :: pieces) = written_by p ++ flatten pieces.
Proof. destruct pieces; cbn [flatten]; [now rewrite app_nil_r | reflexivity]. Qed.

(** The tokenizer reads a template whose substitutions are plain as
    [advance_template] says. *)
Lemma advance_template_sound (pieces : list piece) :
  forallb (fun p => match p with Fixed _ => true | Spliced h => plain h end)
    pieces = true ->
  forall (s : state) (r : state * list token),
    advance_template s pieces = Some r ->
    advance s (flatten pieces) = Some r.
Proof.
  induction pieces as [| p pieces IH]; intros K s r.
  - cbn. auto.
  - cbn [forallb] in K. apply andb_prop in K. destruct K as [Kp K].
    rewrite flatten_cons, advance_app. cbn [advance_template].
    destruct p as [html | h]; cbn [written_by].
    + destruct (advance s html) as [[s1 e1] |]; [| discriminate].
      destruct (advance_template s1 pieces) as [[s2 e2] |] eqn:E;
        [| discriminate].
      intros R. rewrite (IH K _ _ E). exact R.
    + destruct s; try discriminate.
      * rewrite (advance_text _ Kp).
        destruct (advance_template _ pieces) as [[s2 e2] |] eqn:E;
          [| discriminate].
        intros R. rewrite (IH K _ _ E). exact R.
      * rewrite (advance_value _ _ _ _ _ Kp).
        destruct (advance_template _ pieces) as [[s2 e2] |] eqn:E;
          [| discriminate].
        intros R. rewrite (IH K _ _ E). exact R.
Qed.

Lemma plain_app (a b : jsstring) : plain (a ++ b) = plain a && plain b.
Proof. apply forallb_app. Qed.

Lemma plain_firstn (n : nat) (s : jsstring) :
  plain s = true -> plain (firstn n s) = true.
Proof.
  revert n; induction s as [| c s IH]; intros [| n] K; cbn; auto.
  cbn [plain forallb] in K. apply andb_prop in K. destruct K as [Kc K].
  rewrite Kc. now apply IH.
Qed.

Lemma plain_truncateText (s : jsstring) (n : nat) :
  plain s = true -> plain (truncateText s n) = true.
Proof.
  intros K. unfold truncateText. destruct (n <? length s)%nat; [| exact K].
  rewrite plain_app, (plain_firstn _ _ K). reflexivity.
Qed.

Lemma plain_getValueClass (x : number) : plain (getValueClass x) = true.
Proof.
  unfold getValueClass.
  destruct (ge x n0_7); [| destruct (ge x n0_4)]; vm_compute; reflexivity.
Qed.

Lemma plain_getStatusClass (x : number) : plain (getStatusClass x) = true.
Proof.
  unfold getStatusClass.
  destruct (ge x n0_8); [| destruct (ge x n0_6); [| destruct (ge x n0_4)]];
    vm_compute; reflexivity.
Qed.

Lemma plain_getStatusText (x : number) : plain (getStatusText x) = true.
Proof.
  unfold getStatusText.
  destruct (ge x n0_8); [| destruct (ge x n0_6); [| destruct (ge x n0_4)]];
    vm_compute; reflexivity.
Qed.

Lemma plain_three_places (n : N) :
  (n <= 1000)%N -> plain (three_places n) = true.
Proof.
  intros Hn.
  assert (Hall :
    forallb (fun k => plain (three_places (N.of_nat k))) (seq 0 1001) = true)
    by (vm_compute; reflexivity).
  rewrite forallb_forall in Hall.
  specialize (Hall (N.to_nat n)).
  rewrite N2Nat.id in Hall. apply Hall.
  apply in_seq. lia.
Qed.

End Tokenizer.

Section RowTokens.

Context `{Engine}.

(** The tokenizer on the template of a row. *)
Opaque lit markup characters.

Lemma advance_row (query label c1 t1 c2 t2 c3 t3 c4 t4 stats
  statusClass statusText : jsstring) :
  forallb plain
    [query; label; c1; t1; c2; t2; c3; t3; c4; t4; stats; statusClass;
     statusText] = true ->
  advance Data
    (markup "
                <tr>
                    <td title='"
     ++ query
     ++ markup "'>"
     ++ label
     ++ markup "</td>
                    <td class='"
     ++ c1
     ++ markup "'>"
     ++ t1
     ++ markup "</td>
                    <td class='"
     ++ c2
     ++ markup "'>"
     ++ t2
     ++ markup "</td>
                    <td class='"
     ++ c3
     ++ markup "'>"
     ++ t3
     ++ markup "</td>
                    <td class='"
     ++ c4
     ++ markup "'>"
     ++ t4
     ++ markup "</td>
                    <td>"
     ++ stats
     ++ markup "</td>
                    <td class='status-cell "
     ++ statusClass
     ++ markup "'>"
     ++ statusText
     ++ markup "</td>
                </tr>
            ")
  = Some (Data,
          row_tokens
            (row_cells query label c1 t1 c2 t2 c3 t3 c4 t4
               stats statusClass statusText)).
Proof.
  intros K. cbn [forallb] in K.
  repeat (apply andb_prop in K; destruct K as [?K K]).
  pose proof (advance_template_sound
    [ Fixed (markup "
                <tr>
                    <td title='");
      Spliced query; Fixed (markup "'>"); Spliced label;
      Fixed (markup "</td>
                    <td class='");
      Spliced c1; Fixed (markup "'>"); Spliced t1;
      Fixed (markup "</td>
                    <td class='");
      Spliced c2; Fixed (markup "'>"); Spliced t2;
      Fixed (markup "</td>
                    <td class='");
      Spliced c3; Fixed (markup "'>"); Spliced t3;
      Fixed (markup "</td>
                    <td class='");
      Spliced c4; Fixed (markup "'>"); Spliced t4;
      Fixed (markup "</td>
                    <td>");
      Spliced stats;
      Fixed (markup "</td>
                    <td class='status-cell ");
      Spliced statusClass; Fixed (markup "'>"); Spliced statusText;
      Fixed (markup "</td>
                </tr>
            ") ]) as S.
  cbn [flatten written_by] in S. apply S.
  - cbn [forallb].
    rewrite K0, K1, K2, K3, K4, K5, K6, K7, K8, K9, K10, K11, K12.
    vm_compute. reflexivity.
  - unfold row_tokens, row_cells. rewrite <- !app_assoc.
    vm_compute. reflexivity.
Qed.

Transparent lit markup characters.

End RowTokens.

Section TableTokens.

Context `{Engine}.

(** The row of an entry of numbers, written out. *)
Lemma tableRow_numbers (query : jsstring) (queryMetrics : value)
  (p r f a tp fp fn : number) :
  get queryMetrics "precision" = Normal (VNumber p) ->
  get queryMetrics "recall" = Normal (VNumber r) ->
  get queryMetrics "f_measure" = Normal (VNumber f) ->
  get queryMetrics "accuracy" = Normal (VNumber a) ->
  get queryMetrics "true_positive" = Normal (VNumber tp) ->
  get queryMetrics "false_positive" = Normal (VNumber fp) ->
  get queryMetrics "false_negative" = Normal (VNumber fn) ->
  tableRow query queryMetrics
  = Normal
      (markup "
                <tr>
                    <td title='"
       ++ query
       ++ markup "'>"
       ++ truncateText query 30
       ++ markup "</td>
                    <td class='"
       ++ getValueClass p
       ++ markup "'>"
       ++ Number_toFixed p 3
       ++ markup "</td>
                    <td class='"
       ++ getValueClass r
       ++ markup "'>"
       ++ Number_toFixed r 3
       ++ markup "</td>
                    <td class='"
       ++ getValueClass f
       ++ markup "'>"
       ++ Number_toFixed f 3
       ++ markup "</td>
                    <td class='"
       ++ getValueClass a
       ++ markup "'>"
       ++ Number_toFixed a 3
       ++ markup "</td>
                    <td>"
       ++ (Number_toString tp ++ lit "/" ++ Number_toString fp
           ++ lit "/" ++ Number_toString fn)
       ++ markup "</td>
                    <td class='status-cell "
       ++ getStatusClass f
       ++ markup "'>"
       ++ getStatusText f
       ++ markup "</td>
                </tr>
            ").
Proof.
  intros Hp Hr Hf Ha Htp Hfp Hfn.
  unfold tableRow, metricCell.
  rewrite Htp, Hfp, Hfn, Hp, Hr, Hf, Ha.
  cbn [and_then classify ToNumber toFixed ToString fst snd].
  reflexivity.
Qed.

Lemma number_at_get (v : value) (property : string) (x : number) :
  get v property = Normal (VNumber x) -> number_at v property = x.
Proof. unfold number_at. now intros ->. Qed.

(** The row of a well-formed entry is the template filled in. *)
Lemma tableRow_markup (query : jsstring) (queryMetrics : value) :
  isQueryMetrics queryMetrics = true ->
  tableRow query queryMetrics = Normal (entry_markup (query, queryMetrics)).
Proof.
  intros K. apply isQueryMetrics_inv in K.
  destruct K as (K & tp & fp & fn & Htp & Hfp & Hfn).
  apply isMetricSet_inv in K.
  destruct K as (p & r & f & a & (Hp & Hr & Hf & Ha) & Kp & Kr & Kf & Ka).
  rewrite (tableRow_numbers query queryMetrics p r f a tp fp fn)
    by assumption.
  unfold entry_markup. cbn [fst snd].
  rewrite (number_at_get _ _ _ Hp), (number_at_get _ _ _ Hr),
    (number_at_get _ _ _ Hf), (number_at_get _ _ _ Ha),
    (number_at_get _ _ _ Htp), (number_at_get _ _ _ Hfp),
    (number_at_get _ _ _ Hfn).
  rewrite !Number_toFixed_metric by assumption.
  reflexivity.
Qed.

(** The tokenizer reads the row of a well-formed entry with a plain
    identifier and plainly printed counts as one row of the entry's cells. *)
Lemma entry_markup_tokens (query : jsstring) (queryMetrics : value) :
  isQueryMetrics queryMetrics = true ->
  plain query = true ->
  counts_plain queryMetrics = true ->
  advance Data (entry_markup (query, queryMetrics))
  = Some (Data, row_tokens (entry_cells (query, queryMetrics))).
Proof.
  intros K Hquery Hcounts. apply isQueryMetrics_inv in K.
  destruct K as (K & _). apply isMetricSet_inv in K.
  destruct K as (p & r & f & a & (Hp & Hr & Hf & Ha) & Kp & Kr & Kf & Ka).
  unfold counts_plain in Hcounts. cbn [forallb] in Hcounts.
  apply andb_prop in Hcounts. destruct Hcounts as [Ctp Hcounts].
  apply andb_prop in Hcounts. destruct Hcounts as [Cfp Hcounts].
  apply andb_prop in Hcounts. destruct Hcounts as [Cfn _].
  unfold entry_markup, entry_cells. cbn [fst snd].
  rewrite (number_at_get _ _ _ Hp), (number_at_get _ _ _ Hr),
    (number_at_get _ _ _ Hf), (number_at_get _ _ _ Ha).
  apply advance_row.
  cbn [forallb].
  rewrite Hquery, (plain_truncateText _ _ Hquery), !plain_getValueClass,
    plain_getStatusClass, plain_getStatusText.
  rewrite !plain_three_places by (now apply thousandths_bound).
  rewrite !plain_app, Ctp, Cfp, Cfn.
  reflexivity.
Qed.

End TableTokens.

Section TableRows.

Context `{Engine}.

Lemma tableRows_markup (entries : list (jsstring * value)) :
  forallb (fun entry => isQueryMetrics (snd entry)) entries = true ->
  forall tableHTML,
    tableRows entries tableHTML
    = Normal (tableHTML ++ concat (map entry_markup entries)).
Proof.
  induction entries as [| [query queryMetrics] rest IH];
    cbn [forallb tableRows map concat snd]; intros K tableHTML.
  - now rewrite app_nil_r.
  - apply andb_prop in K. destruct K as [K Krest].
    rewrite (tableRow_markup _ _ K); cbn [and_then].
    rewrite (IH Krest). now rewrite <- app_assoc.
Qed.

Lemma rows_markup_tokens (entries : list (jsstring * value)) :
  forallb (fun entry => isQueryMetrics (snd entry)) entries = true ->
  forallb (fun entry => plain (fst entry)) entries = true ->
  forallb (fun entry => counts_plain (snd entry)) entries = true ->
  advance Data (concat (map entry_markup entries))
  = Some (Data,
          concat (map (fun entry => row_tokens (entry_cells entry)) entries)).
Proof.
  induction entries as [| [query queryMetrics] rest IH];
    cbn [forallb map concat fst snd]; intros K P C; [reflexivity |].
  apply andb_prop in K, P, C.
  destruct K as [K Krest], P as [P Prest], C as [C Crest].
  rewrite advance_app, (entry_markup_tokens _ _ K P C), (IH Krest Prest Crest).
  reflexivity.
Qed.

Lemma rows_from_characters (text : jsstring) (toks : list token) :
  rows_from (characters text ++ toks) None = rows_from toks None.
Proof. induction text as [| c text IH]; [reflexivity | exact IH]. Qed.

Lemma rows_from_cells (cells toks row : list token) :
  forallb (fun t => negb (starts "tr" t || ends "tr" t || ends "tbody" t))
    cells = true ->
  rows_from (cells ++ toks) (Some row) = rows_from toks (Some (row ++ cells)).
Proof.
  revert row; induction cells as [| t cells IH]; intros row K.
  - now rewrite app_nil_r.
  - cbn [forallb] in K. apply andb_prop in K. destruct K as [Kt K].
    apply negb_true_iff in Kt.
    apply orb_false_iff in Kt. destruct Kt as [Kt K3].
    apply orb_false_iff in Kt. destruct Kt as [K1 K2].
    cbn [app rows_from]. rewrite K1, K2, K3, (IH _ K).
    now rewrite <- app_assoc.
Qed.

Lemma cells_of_characters (text : jsstring) :
  forallb (fun t => negb (starts "tr" t || ends "tr" t || ends "tbody" t))
    (characters text) = true.
Proof. induction text as [| c text IH]; [reflexivity | exact IH]. Qed.

Lemma cells_of_td_start (attributes : list (jsstring * jsstring)) :
  forallb (fun t => negb (starts "tr" t || ends "tr" t || ends "tbody" t))
    [StartTag (lit "td") attributes] = true.
Proof. vm_compute. reflexivity. Qed.

Lemma cells_of_td_end :
  forallb (fun t => negb (starts "tr" t || ends "tr" t || ends "tbody" t))
    [EndTag (lit "td")] = true.
Proof. vm_compute. reflexivity. Qed.

Lemma cells_of_row (title label c1 t1 c2 t2 c3 t3 c4 t4 stats statusClass
  statusText : jsstring) :
  forallb (fun t => negb (starts "tr" t || ends "tr" t || ends "tbody" t))
    (row_cells title label c1 t1 c2 t2 c3 t3 c4 t4 stats statusClass
       statusText) = true.
Proof.
  unfold row_cells.
  rewrite !forallb_app, !cells_of_characters, !cells_of_td_start,
    !cells_of_td_end.
  reflexivity.
Qed.

Lemma rows_from_row (cells toks : list token) :
  forallb (fun t => negb (starts "tr" t || ends "tr" t || ends "tbody" t))
    cells = true ->
  rows_from (row_tokens cells ++ toks) None = cells :: rows_from toks None.
Proof.
  intros K. unfold row_tokens. rewrite <- !app_assoc.
  rewrite rows_from_characters.
  change ([StartTag (lit "tr") []] ++ cells ++ [EndTag (lit "tr")]
          ++ characters (lit "
            ") ++ toks)
    with (StartTag (lit "tr") [] :: (cells ++ EndTag (lit "tr")
          :: (characters (lit "
            ") ++ toks))).
  cbn [rows_from].
  replace (starts "tr" (StartTag (lit "tr") [])) with true
    by (vm_compute; reflexivity).
  rewrite (rows_from_cells _ _ _ K). cbn [rows_from app].
  replace (ends "tr" (EndTag (lit "tr"))) with true
    by (vm_compute; reflexivity).
  now rewrite rows_from_characters.
Qed.

Lemma rows_from_rows (entries : list (jsstring * value)) (toks : list token) :
  rows_from
    (concat (map (fun entry => row_tokens (entry_cells entry)) entries)
     ++ toks) None
  = map entry_cells entries ++ rows_from toks None.
Proof.
  induction entries as [| entry rest IH]; [reflexivity |].
  cbn [map concat]. rewrite <- app_assoc, rows_from_row, IH; [reflexivity |].
  apply cells_of_row.
Qed.

(** The head of the table ends with the start tag of its body, and what
    closes the table starts with the end tag of the body. *)
Lemma tableHead_tokens :
  exists head,
    advance Data tableHead = Some (Data, head)
    /\ forall toks,
         rows_from (after_start "tbody" (head ++ toks)) None
         = rows_from toks None.
Proof.
  eexists. split; [vm_compute; reflexivity |].
  intros toks. vm_compute. reflexivity.
Qed.

Lemma table_closing_tokens :
  advance Data (lit "</tbody></table></div>")
  = Some (Data, [EndTag (lit "tbody"); EndTag (lit "table"); EndTag (lit "div")]).
Proof. vm_compute. reflexivity. Qed.

(** What [displayDetailedMetrics] assigns for a non-empty mapping of
    well-formed entries: the head, the rows of the entries and what closes
    the table. *)
Lemma displayDetailedMetrics_markup (entries : list (jsstring * value))
  (operator : value) (r : report) :
  entries <> [] ->
  forallb (fun entry => isQueryMetrics (snd entry)) entries = true ->
  displayDetailedMetrics (VObject entries) operator r
  = (Normal tt,
     {| macroMetrics := macroMetrics r;
        plotsContainer := plotsContainer r;
        detailedMetrics :=
          [Parsed (tableHead ++ concat (map entry_markup entries)
                   ++ lit "</tbody></table></div>")];
        metricsInfo := metricsInfo r;
        metricsModal := metricsModal r |}).
Proof.
  intros Hne K.
  unfold displayDetailedMetrics, bind, lift, set_detailedMetrics, modify.
  cbn [Object_keys Object_entries and_then].
  rewrite length_map.
  destruct entries as [| entry rest]; [congruence |].
  cbn [length Nat.eqb].
  rewrite (tableRows_markup _ K).
  rewrite <- app_assoc, children_of_table. reflexivity.
Qed.

(** What the tokenizer reads of that table when the identifiers are plain:
    the rows of its body are the cells of the entries, entry after entry. *)
Lemma table_markup_rows (entries : list (jsstring * value)) :
  forallb (fun entry => isQueryMetrics (snd entry)) entries = true ->
  forallb (fun entry => plain (fst entry)) entries = true ->
  forallb (fun entry => counts_plain (snd entry)) entries = true ->
  exists toks,
    tokens (tableHead ++ concat (map entry_markup entries)
            ++ lit "</tbody></table></div>") = Some toks
    /\ table_rows toks = map entry_cells entries.
Proof.
  intros K P C.
  destruct tableHead_tokens as (head & Hhead & Hafter).
  eexists. split.
  - unfold tokens.
    rewrite advance_app, Hhead, advance_app, (rows_markup_tokens _ K P C),
      table_closing_tokens.
    reflexivity.
  - unfold table_rows. rewrite Hafter, rows_from_rows.
    replace (rows_from
               [EndTag (lit "tbody"); EndTag (lit "table"); EndTag (lit "div")]
               None) with (@nil (list token)) by (vm_compute; reflexivity).
    apply app_nil_r.
Qed.

End TableRows.

Section CardTokens.

Context `{Engine}.

Opaque lit markup characters.

(** The tokenizer on the template of a card. *)
Lemma advance_card (description valueClass fixed name operator : jsstring) :
  forallb plain [description; valueClass; fixed; name; operator] = true ->
  advance Data
    (markup "
                <div class='metric-name'>"
     ++ description
     ++ markup "</div>
                <div class='metric-value "
     ++ valueClass
     ++ markup "'>"
     ++ fixed
     ++ markup "</div>
                <div class='metric-desc'>"
     ++ name
     ++ markup "</div>
                <div class='operator-info'>Оператор: "
     ++ operator
     ++ markup "</div>
            ")
  = Some (Data, card_tokens description valueClass fixed name operator).
Proof.
  intros K. cbn [forallb] in K.
  repeat (apply andb_prop in K; destruct K as [?K K]).
  pose proof (advance_template_sound
    [ Fixed (markup "
                <div class='metric-name'>");
      Spliced description;
      Fixed (markup "</div>
                <div class='metric-value ");
      Spliced valueClass; Fixed (markup "'>"); Spliced fixed;
      Fixed (markup "</div>
                <div class='metric-desc'>");
      Spliced name;
      Fixed (markup "</div>
                <div class='operator-info'>Оператор: ");
      Spliced operator;
      Fixed (markup "</div>
            ") ]) as S.
  cbn [flatten written_by] in S. apply S.
  - cbn [forallb]. rewrite K0, K1, K2, K3, K4. vm_compute. reflexivity.
  - unfold card_tokens. vm_compute. reflexivity.
Qed.

Transparent lit markup characters.

Lemma tokens_card (metric : descriptor) (valueClass fixed operator : jsstring) :
  plain (lit (description metric)) = true ->
  plain (lit (name metric)) = true ->
  plain valueClass = true -> plain fixed = true -> plain operator = true ->
  tokens (cardMarkup metric valueClass fixed operator)
  = Some (card_tokens (lit (description metric)) valueClass fixed
            (lit (name metric)) operator).
Proof.
  intros Kd Kn Kc Kf Ko. unfold tokens, cardMarkup.
  rewrite advance_card; [reflexivity |].
  cbn [forallb]. rewrite Kd, Kn, Kc, Kf, Ko. reflexivity.
Qed.

End CardTokens.

(** ** The macro cards, as written and as read *)

Opaque lit markup characters.

(** C8. For a macro [MetricSet], whatever the order of its properties, the
    macro section is emptied and filled with four cards, for precision,
    recall, F-measure and accuracy in this order.  The markup of each card is
    the template of the source with, in its places, the description of
    the metric, the class of its value, the value printed with three decimal
    places (a digit, the point, the three digits of its thousandths), the
    name of the metric and the label of the operator.  With a plain label the
    page reads each card as four [div]s holding these texts, the second one
    with the class of the value.  Any other object with the same four metrics
    gives the same section. *)
Theorem macro_cards `{Engine} (macro operator : value) (label : jsstring)
  (p r f a : number) (rep : report)
  (Hp : get macro "precision" = Normal (VNumber p))
  (Hr : get macro "recall" = Normal (VNumber r))
  (Hf : get macro "f_measure" = Normal (VNumber f))
  (Ha : get macro "accuracy" = Normal (VNumber a))
  (Hrange : forallb in_unit_interval [p; r; f; a] = true)
  (Hlabel : ToString operator = Normal label) :
  fst (displayMacroMetrics macro operator rep) = Normal tt
  /\ macroMetrics (snd (displayMacroMetrics macro operator rep))
     = [ Div (lit "metric-card")
           (markup "
                <div class='metric-name'>"
            ++ lit "Точность"
            ++ markup "</div>
                <div class='metric-value "
            ++ getValueClass p
            ++ markup "'>"
            ++ three_places (thousandths p)
            ++ markup "</div>
                <div class='metric-desc'>"
            ++ lit "Precision"
            ++ markup "</div>
                <div class='operator-info'>Оператор: "
            ++ label
            ++ markup "</div>
            ");
         Div (lit "metric-card")
           (markup "
                <div class='metric-name'>"
            ++ lit "Полнота"
            ++ markup "</div>
                <div class='metric-value "
            ++ getValueClass r
            ++ markup "'>"
            ++ three_places (thousandths r)
            ++ markup "</div>
                <div class='metric-desc'>"
            ++ lit "Recall"
            ++ markup "</div>
                <div class='operator-info'>Оператор: "
            ++ label
            ++ markup "</div>
            ");
         Div (lit "metric-card")
           (markup "
                <div class='metric-name'>"
            ++ lit "F-мера"
            ++ markup "</div>
                <div class='metric-value "
            ++ getValueClass f
            ++ markup "'>"
            ++ three_places (thousandths f)
            ++ markup "</div>
                <div class='metric-desc'>"
            ++ lit "F-measure"
            ++ markup "</div>
                <div class='operator-info'>Оператор: "
            ++ label
            ++ markup "</div>
            ");
         Div (lit "metric-card")
           (markup "
                <div class='metric-name'>"
            ++ lit "Аккуратность"
            ++ markup "</div>
                <div class='metric-value "
            ++ getValueClass a
            ++ markup "'>"
            ++ three_places (thousandths a)
            ++ markup "</div>
                <div class='metric-desc'>"
            ++ lit "Accuracy"
            ++ markup "</div>
                <div class='operator-info'>Оператор: "
            ++ label
            ++ markup "</div>
            ") ]
  /\ (plain label = true ->
      map innerHTML_tokens
        (macroMetrics (snd (displayMacroMetrics macro operator rep)))
      = [ Some (card_tokens (lit "Точность") (getValueClass p)
                  (three_places (thousandths p)) (lit "Precision") label);
          Some (card_tokens (lit "Полнота") (getValueClass r)
                  (three_places (thousandths r)) (lit "Recall") label);
          Some (card_tokens (lit "F-мера") (getValueClass f)
                  (three_places (thousandths f)) (lit "F-measure") label);
          Some (card_tokens (lit "Аккуратность") (getValueClass a)
                  (three_places (thousandths a)) (lit "Accuracy") label) ])
  /\ Forall (fun v => Number_toFixed v 3 = three_places (thousandths v)
                      /\ (thousandths v <= 1000)%N)
            [p; r; f; a]
  /\ forall macro' : value,
       (forall metric, In metric metrics ->
                       get macro' (key metric) = get macro (key metric)) ->
       displayMacroMetrics macro' operator rep
       = displayMacroMetrics macro operator rep.
Proof.
  pose proof Hrange as Hall. cbn [forallb] in Hrange.
  apply andb_prop in Hrange; destruct Hrange as [Rp Hrange].
  apply andb_prop in Hrange; destruct Hrange as [Rr Hrange].
  apply andb_prop in Hrange; destruct Hrange as [Rf Hrange].
  apply andb_prop in Hrange; destruct Hrange as [Ra _].
  rewrite (displayMacroMetrics_cards macro operator label p r f a rep)
    by assumption.
  cbn [fst snd macroMetrics]. unfold metrics. cbn [combine map].
  rewrite !Number_toFixed_metric by assumption.
  split; [reflexivity |]. split; [| split; [| split]].
  - unfold cardMarkup. cbn [description name]. reflexivity.
  - intros Hplain. cbn [map innerHTML_tokens].
    rewrite !tokens_card;
      [ cbn [description name]; reflexivity | .. ];
      match goal with
      | |- plain (lit _) = true => vm_compute; reflexivity
      | |- plain (getValueClass _) = true => apply plain_getValueClass
      | |- plain (three_places _) = true =>
        apply plain_three_places; now apply thousandths_bound
      | _ => assumption
      end.
  - repeat constructor; auto using thousandths_bound, Number_toFixed_metric.
  - intros macro' Hsame. unfold metrics in Hsame.
    rewrite (displayMacroMetrics_cards macro' operator label p r f a rep).
    + unfold metrics. cbn [combine map].
      rewrite !Number_toFixed_metric by assumption. reflexivity.
    + rewrite <- Hp. exact (Hsame _ (or_introl eq_refl)).
    + rewrite <- Hr. exact (Hsame _ (or_intror (or_introl eq_refl))).
    + rewrite <- Hf.
      exact (Hsame _ (or_intror (or_intror (or_introl eq_refl)))).
    + rewrite <- Ha.
      exact (Hsame _ (or_intror (or_intror (or_intror (or_introl eq_refl))))).
    + assumption.
Qed.

Transparent lit markup characters.

Lemma macro_cards_witness :
  map innerHTML_tokens
    (macroMetrics
       (snd (@displayMacroMetrics scenario_engine
               (object [ ("accuracy"%string, VNumber n0_9);
                         ("f_measure"%string, VNumber n0_725);
                         ("recall"%string, VNumber n0_65);
                         ("precision"%string, VNumber n0_82) ])
               (VString (lit "AND")) (content idle))))
  = [ Some (card_tokens (lit "Точность") (lit "high") (lit "0.820")
              (lit "Precision") (lit "AND"));
      Some (card_tokens (lit "Полнота") (lit "medium") (lit "0.650")
              (lit "Recall") (lit "AND"));
      Some (card_tokens (lit "F-мера") (lit "high") (lit "0.725")
              (lit "F-measure") (lit "AND"));
      Some (card_tokens (lit "Аккуратность") (lit "high") (lit "0.900")
              (lit "Accuracy") (lit "AND")) ].
Proof.
  destruct (@macro_cards scenario_engine
              (object [ ("accuracy"%string, VNumber n0_9);
                        ("f_measure"%string, VNumber n0_725);
                        ("recall"%string, VNumber n0_65);
                        ("precision"%string, VNumber n0_82) ])
              (VString (lit "AND"))
              (lit "AND") n0_82 n0_65 n0_725 n0_9 (content idle))
    as (_ & _ & Hread & _); [vm_compute; reflexivity .. |].
  rewrite (Hread eq_refl). vm_compute. reflexivity.
Defined.

(** ** The detailed table, as the page reads it *)

(** C6 as stated, one row for each entry of every non-empty mapping, fails:
    an identifier is spliced into the markup as it is, and this one closes
    its cell and its row and opens another row.  The mapping has one entry
    of well-formed metrics, and the page reads two rows in the table. *)
Lemma markup_in_identifier_adds_a_row :
  let entries := [(lit "q</td></tr><tr><td>", q1)] in
  forallb (fun entry => isQueryMetrics (snd entry)) entries = true
  /\ length entries = 1%nat
  /\ exists html toks,
       detailedMetrics
         (snd (@displayDetailedMetrics scenario_engine (VObject entries)
                 (VString (lit "AND")) (content idle)))
       = [Parsed html]
       /\ tokens html = Some toks
       /\ length (table_rows toks) = 2%nat.
Proof.
  cbv zeta. split; [vm_compute; reflexivity |].
  split; [reflexivity |].
  eexists. eexists. split; [vm_compute; reflexivity |].
  split; [vm_compute; reflexivity |].
  vm_compute. reflexivity.
Qed.

(** C6, amended. For a non-empty mapping whose entries are query metrics,
    the markup assigned to the detailed section is the head of the table,
    the template of a row filled in for each entry, in the order in which
    the mapping enumerates its entries, and what closes the table.  When the
    identifiers are plain and the engine prints the counts plainly, the page
    reads that markup as one row for each entry, in that order: the rows of
    the table body are the cells of the first entry, the cells of the second,
    and so on, the cells of an entry being the identifier's label under the
    identifier as [title], the four metrics, the counts and the status. *)
Theorem detailed_rows_follow_entries `{Engine}
  (entries : list (jsstring * value)) (operator : value) (r : report)
  (Hnonempty : entries <> [])
  (Hentries : forallb (fun entry => isQueryMetrics (snd entry)) entries = true) :
  fst (displayDetailedMetrics (VObject entries) operator r) = Normal tt
  /\ detailedMetrics
       (snd (displayDetailedMetrics (VObject entries) operator r))
     = [Parsed (tableHead ++ concat (map entry_markup entries)
                ++ lit "</tbody></table></div>")]
  /\ (forallb (fun entry => plain (fst entry)) entries = true ->
      forallb (fun entry => counts_plain (snd entry)) entries = true ->
      exists toks,
        tokens (tableHead ++ concat (map entry_markup entries)
                ++ lit "</tbody></table></div>") = Some toks
        /\ table_rows toks = map entry_cells entries
        /\ length (table_rows toks) = length entries
        /\ forall (i : nat) (entry : jsstring * value),
             nth_error entries i = Some entry ->
             nth_error (table_rows toks) i = Some (entry_cells entry)).
Proof.
  rewrite (displayDetailedMetrics_markup entries operator r Hnonempty Hentries).
  cbn [fst snd detailedMetrics].
  split; [reflexivity |]. split; [reflexivity |].
  intros Hplain Hcounts.
  destruct (table_markup_rows entries Hentries Hplain Hcounts)
    as (toks & Htoks & Hrows).
  exists toks. split; [exact Htoks |]. split; [exact Hrows |].
  rewrite Hrows. split; [apply length_map |].
  intros i entry Hentry. now apply map_nth_error.
Qed.

Lemma detailed_rows_follow_entries_witness :
  exists html toks,
    detailedMetrics
      (snd (@displayDetailedMetrics scenario_engine
              (VObject [(lit "q2", q1); (lit "q1", q1)])
              (VString (lit "AND")) (content idle)))
    = [Parsed html]
    /\ tokens html = Some toks
    /\ table_rows toks
       = [ @entry_cells scenario_engine (lit "q2", q1);
           @entry_cells scenario_engine (lit "q1", q1) ].
Proof.
  destruct (@detailed_rows_follow_entries scenario_engine
              [(lit "q2", q1); (lit "q1", q1)] (VString (lit "AND"))
              (content idle))
    as (_ & Hhtml & Hread); [discriminate | vm_compute; reflexivity |].
  destruct Hread as (toks & Htoks & Hrows & _);
    [vm_compute; reflexivity | vm_compute; reflexivity |].
  eexists. exists toks. split; [exact Hhtml |]. split; [exact Htoks |].
  exact Hrows.
Defined.

(** ** The title and the label of a row *)

(** C7 as stated, the title of the cell always holding the whole
    identifier, fails: the identifier is spliced between the quotation marks
    of the attribute as it is, and a quotation mark in it ends the value.
    For this identifier of eleven code units the page reads a cell whose
    [title] is its first code unit, and which has a class as well. *)
Lemma quotation_mark_ends_title :
  let query := markup "a' class='x" in
  isQueryMetrics q1 = true
  /\ length query = 11%nat
  /\ exists row toks cell,
       @tableRow scenario_engine query q1 = Normal row
       /\ tokens row = Some toks
       /\ find (starts "td") toks = Some cell
       /\ cell = StartTag (lit "td") [(lit "title", lit "a"); (lit "class", lit "x")]
       /\ attribute_value "title" cell = Some (lit "a")
       /\ attribute_value "title" cell <> Some query.
Proof.
  cbv zeta. split; [vm_compute; reflexivity |].
  split; [vm_compute; reflexivity |].
  eexists. eexists. eexists. split; [vm_compute; reflexivity |].
  split; [vm_compute; reflexivity |].
  split; [vm_compute; reflexivity |].
  split; [vm_compute; reflexivity |].
  split; [vm_compute; reflexivity |].
  vm_compute. discriminate.
Qed.

Section TitleAndLabel.

Context `{Engine}.

Opaque lit markup characters.

(** The tokenizer on the first cell of a row. *)
Lemma advance_first_cell (query label : jsstring) :
  plain query = true ->
  plain label = true ->
  advance Data
    (markup "
                <tr>
                    <td title='"
     ++ query ++ markup "'>" ++ label ++ markup "</td>")
  = Some (Data,
          characters (lit "
                ")
          ++ [ StartTag (lit "tr") [] ]
          ++ characters (lit "
                    ")
          ++ [ StartTag (lit "td") [(lit "title", query)] ]
          ++ characters label
          ++ [ EndTag (lit "td") ]).
Proof.
  intros Kq Kl.
  pose proof (advance_template_sound
    [ Fixed (markup "
                <tr>
                    <td title='");
      Spliced query; Fixed (markup "'>"); Spliced label;
      Fixed (markup "</td>") ]) as S.
  cbn [flatten written_by] in S. apply S.
  - cbn [forallb]. rewrite Kq, Kl. reflexivity.
  - vm_compute. reflexivity.
Qed.

(** The row of a well-formed entry is its first cell and then the rest. *)
Lemma tableRow_first_cell (query : jsstring) (queryMetrics : value) :
  isQueryMetrics queryMetrics = true ->
  exists cells,
    tableRow query queryMetrics
    = Normal
        ((markup "
                <tr>
                    <td title='"
          ++ query ++ markup "'>" ++ truncateText query 30 ++ markup "</td>")
         ++ cells).
Proof.
  intros K. apply isQueryMetrics_inv in K.
  destruct K as (K & tp & fp & fn & Htp & Hfp & Hfn).
  apply isMetricSet_inv in K.
  destruct K as (p & r & f & a & (Hp & Hr & Hf & Ha) & _).
  rewrite (tableRow_numbers query queryMetrics p r f a tp fp fn)
    by assumption.
  assert (E : markup "</td>
                    <td class='"
              = markup "</td>" ++ markup "
                    <td class='") by (vm_compute; reflexivity).
  rewrite E. eexists. rewrite <- !app_assoc. reflexivity.
Qed.

Transparent lit markup characters.

End TitleAndLabel.

(** C7, amended. The label of a query identifier of length [L] is the
    identifier itself when [L <= 30], and its first 30 code units followed
    by the three of ["..."] when [L > 30], so its length is [min L 30], plus
    3 exactly when it was cut.  The row of a well-formed entry starts with a
    cell that has the identifier, as it is, between the quotation marks of
    its [title] and the label as its content.  When the identifier is plain
    the page reads that cell with the whole identifier as its [title] and
    the label as its text, and, when the engine prints the counts plainly,
    the whole row as the cells of the entry. *)
Theorem truncated_label_and_title `{Engine}
  (query : jsstring) (queryMetrics : value)
  (Hmetrics : isQueryMetrics queryMetrics = true) :
  ((length query <= 30)%nat -> truncateText query 30 = query)
  /\ ((30 < length query)%nat
      -> truncateText query 30 = firstn 30 query ++ lit "..."
         /\ length (firstn 30 query) = 30%nat)
  /\ length (lit "...") = 3%nat
  /\ length (truncateText query 30)
     = (Nat.min (length query) 30
        + if (30 <? length query)%nat then 3 else 0)%nat
  /\ (exists cells,
        tableRow query queryMetrics
        = Normal
            ((markup "
                <tr>
                    <td title='"
              ++ query ++ markup "'>" ++ truncateText query 30
              ++ markup "</td>")
             ++ cells))
  /\ (plain query = true ->
      advance Data
        (markup "
                <tr>
                    <td title='"
         ++ query ++ markup "'>" ++ truncateText query 30 ++ markup "</td>")
      = Some (Data,
              characters (lit "
                ")
              ++ [ StartTag (lit "tr") [] ]
              ++ characters (lit "
                    ")
              ++ [ StartTag (lit "td") [(lit "title", query)] ]
              ++ characters (truncateText query 30)
              ++ [ EndTag (lit "td") ])
      /\ (counts_plain queryMetrics = true ->
          exists row,
            tableRow query queryMetrics = Normal row
            /\ tokens row
               = Some (row_tokens (entry_cells (query, queryMetrics)))
            /\ find (starts "td")
                 (row_tokens (entry_cells (query, queryMetrics)))
               = Some (StartTag (lit "td") [(lit "title", query)]))).
Proof.
  split; [apply truncateText_short |].
  split.
  { intros K. split; [now apply truncateText_long |].
    rewrite length_firstn. lia. }
  split; [reflexivity |].
  split; [apply truncateText_length |].
  split; [now apply tableRow_first_cell |].
  intros Hplain. split.
  { apply advance_first_cell; [exact Hplain |].
    now apply plain_truncateText. }
  intros Hcounts.
  exists (entry_markup (query, queryMetrics)).
  split; [now apply tableRow_markup |]. split.
  - unfold tokens.
    rewrite (entry_markup_tokens query queryMetrics Hmetrics Hplain Hcounts).
    reflexivity.
  - unfold row_tokens, entry_cells, row_cells. cbn [fst snd].
    vm_compute. reflexivity.
Qed.

Lemma truncated_label_and_title_witness :
  length (truncateText (lit "information retrieval evaluation") 30) = 33%nat
  /\ exists row,
       @tableRow scenario_engine (lit "information retrieval evaluation") q1
       = Normal row
       /\ find (starts "td")
            (row_tokens
               (@entry_cells scenario_engine
                  (lit "information retrieval evaluation", q1)))
          = Some (StartTag (lit "td")
                    [(lit "title", lit "information retrieval evaluation")])
       /\ tokens row
          = Some (row_tokens
                    (@entry_cells scenario_engine
                       (lit "information retrieval evaluation", q1))).
Proof.
  destruct (@truncated_label_and_title scenario_engine
              (lit "information retrieval evaluation") q1)
    as (_ & _ & _ & Hlen & _ & Hread); [vm_compute; reflexivity |].
  split; [exact Hlen |].
  destruct Hread as (_ & Hrow); [vm_compute; reflexivity |].
  destruct Hrow as (row & Hrow' & Htoks & Hcell); [vm_compute; reflexivity |].
  exists row. split; [exact Hrow' |]. split; [exact Hcell | exact Htoks].
Defined.
